(** * Framebuffer cache and atomic-commit state machine of the Exynos DRM
      display interface: a shallow embedding and its verified properties.

    The embedding follows [ExynosDisplayDrmInterface.cpp]: the
    [FramebufferManager] (per-layer framebuffer cache, reclaim list, flip),
    [DrmModeAtomicReq] (property writes and commit), the vsync callback that
    decides when a mode switch took effect, and
    [setActiveConfigWithConstraints]. Later modules add the remaining
    operations of the manager, [setActiveDrmMode] and [setActiveConfig], the
    display identification (the fake EDID), the full resolution of the
    panel, the connector of [drmconnector.cpp] ([UpdateModes], the connector
    classes and names) and [histogramSample] of [pixel-display.cpp].

    Conventions.
    - Machine integers are [Z]; a conversion that the source performs is
      written out ([wrap32], [to_int32]).
    - A pointer to an [ExynosLayer] is the [Z] of its address, [0] being
      [nullptr]; [std::map<const ExynosLayer*, FBList>] is a [gmap Z _]
      that is traversed in ascending key order, [std::set] a [gset Z],
      [std::list] a [list].
    - Kernel and libdrm calls are methods of an interface class; every
      call is appended to a trace so that calls can be counted. *)

From Stdlib Require Import ZArith Lia.
From stdpp Require Import base decidable option list gmap sorting strings pretty.

Local Open Scope Z_scope.

(** ** Error codes and integer conversions *)

Definition NO_ERROR : Z := 0.
Definition EPERM : Z := 1.
Definition ENOMEM : Z := 12.
Definition EINVAL : Z := 22.
Definition HWC2_ERROR_NONE : Z := 0.
Definition HWC2_ERROR_BAD_CONFIG : Z := 1.

Definition wrap32 (x : Z) : Z := x mod 2 ^ 32.

(** [static_cast<int32_t>(x)]: the low 32 bits of [x], read as two's
    complement. *)
Definition to_int32 (x : Z) : Z := (x + 2 ^ 31) mod 2 ^ 32 - 2 ^ 31.

(** ** FramebufferManager *)

Module FramebufferManager.

(** [exynos_win_config_data::WIN_STATE_*], the enumerators the source names,
    and one more for every other value of the field. *)
Inductive WinState : Type :=
| WIN_STATE_COLOR
| WIN_STATE_BUFFER
| WIN_STATE_CURSOR
| WIN_STATE_RCD
| WIN_STATE_OTHER.

Inductive CompressionType : Type :=
| COMP_TYPE_NONE
| COMP_TYPE_AFBC
| COMP_TYPE_SBWC.

Inductive CompSrc : Type :=
| DPP_COMP_SRC_NONE
| DPP_COMP_SRC_G2D
| DPP_COMP_SRC_GPU.

(** The fields of [exynos_win_config_data] that [getBuffer] reads. *)
Record exynos_win_config_data : Type := {
  state : WinState;
  src_f_w : Z;
  src_f_h : Z;
  dst_w : Z;
  dst_h : Z;
  format : Z;
  compression_type : CompressionType;
  compression_modifier : Z;
  comp_src : CompSrc;
  fd_idma : list Z;
  buffer_id : Z;
  layer : Z;
  protection : bool
}.

(** What [halFormatToExynosFormat] returns: a row of the format table. *)
Record format_description : Type := {
  drmFormat : Z;
  bufferNum : nat;
  planeNum : nat
}.

Definition MAX_PLANE_NUM : nat := 3.
Definition CBCR_INDEX : nat := 1.

(** Helpers, tables, macros and constants that the source uses and that are
    declared outside it (format table, fourcc codes and modifiers, cache
    limits). They are parameters of the embedding. *)
Class Platform : Type := {
  halFormatToExynosFormat : Z -> CompressionType -> option format_description;
  getBytePerPixelOfPrimaryPlane : Z -> Z;
  getExynosBufferYLength : Z -> Z -> Z -> Z;
  HAL_PIXEL_FORMAT_BGRA_8888 : Z;
  DRM_FORMAT_UNDEFINED : Z;
  DRM_FORMAT_C8 : Z;
  DRM_FORMAT_BGRA8888 : Z;
  DRM_FORMAT_MOD_PROTECTION : Z;
  DRM_FORMAT_MOD_SAMSUNG_COLORMAP : Z;
  AFBC_FORMAT_MOD_SOURCE_G2D : Z;
  AFBC_FORMAT_MOD_SOURCE_GPU : Z;
  DRM_FORMAT_MOD_ARM_AFBC : Z -> Z;
  DRM_FORMAT_MOD_SAMSUNG_SBWC : Z -> Z;
  DRM_MODE_FB_MODIFIERS : Z;
  MAX_CACHED_LAYERS : nat;
  MAX_CACHED_SECURE_LAYERS : nat;
  MAX_CACHED_BUFFERS_PER_LAYER : nat;
  MAX_CACHED_SECURE_BUFFERS_PER_LAYER : nat
}.

(** The arguments of one [drmModeAddFB2WithModifiers] call. *)
Record FbRequest : Type := {
  req_width : Z;
  req_height : Z;
  req_format : Z;
  req_handles : list Z;
  req_pitches : list Z;
  req_offsets : list Z;
  req_modifiers : list Z;
  req_flags : Z
}.

(** The kernel behind the DRM file descriptor. Each call takes the kernel
    state and returns the next one with the call's outputs: the return code
    and the value left in the output argument. *)
Class DrmKernel (K : Type) : Type := {
  drmPrimeFDToHandle : K -> Z -> K * (Z * Z);
  drmModeAddFB2WithModifiers : K -> FbRequest -> K * (Z * Z);
  drmIoctlGemClose : K -> Z -> K * Z
}.

Inductive KernelCall : Type :=
| CallPrimeFDToHandle (fd ret handle : Z)
| CallAddFB2 (req : FbRequest) (ret fb : Z)
| CallGemClose (handle ret : Z).

Definition isAddFB2 (c : KernelCall) : bool :=
  match c with CallAddFB2 _ _ _ => true | _ => false end.

Definition isGemCloseOf (h : Z) (c : KernelCall) : bool :=
  match c with CallGemClose h' _ => bool_decide (h' = h) | _ => false end.

Definition countCalls (p : KernelCall -> bool) (t : list KernelCall) : nat :=
  length (List.filter p t).

(** Modelled from the spec: the [Framebuffer] struct and its two
    descriptors are declared in a header outside the source; the spec's data
    model gives a buffer identity of two variants, [Pixel{bufferId, format,
    secure}] and [SolidColor{width, height}], compared structurally. *)
Inductive BufferIdentity : Type :=
| BufferDesc (bufferId : Z) (drmFormat : Z) (isSecure : bool)
| SolidColorDesc (width height : Z).

#[global] Instance BufferIdentity_eq_dec : EqDecision BufferIdentity.
Proof. solve_decision. Defined.

Record Framebuffer : Type := {
  drmFd : Z;
  fbId : Z;
  desc : BufferIdentity
}.

#[global] Instance Framebuffer_eq_dec : EqDecision Framebuffer.
Proof. solve_decision. Defined.

Abbreviation FBList := (list Framebuffer).
Abbreviation LayerMap := (gmap Z (list Framebuffer)).

Record Manager : Type := {
  mDrmFd : Z;
  mCachedLayerBuffers : LayerMap;
  mCachedSecureLayerBuffers : LayerMap;
  mCleanBuffers : FBList;
  mCachedLayersInuse : gset Z;
  mCachedSecureLayersInuse : gset Z;
  mCacheShrinkPending : bool;
  mCacheSecureShrinkPending : bool
}.

(** The manager together with the kernel it talks to and the calls made. *)
Record World (K : Type) : Type := {
  kernel : K;
  trace : list KernelCall;
  fbm : Manager
}.
Arguments kernel {K} _.
Arguments trace {K} _.
Arguments fbm {K} _.
Arguments Build_World {K} _ _ _.

Definition setManager {K} (w : World K) (m : Manager) : World K :=
  {| kernel := kernel w; trace := trace w; fbm := m |}.

(** *** Buckets *)

Definition key_le (a b : Z * FBList) : Prop := a.1 ≤ b.1.

#[global] Instance key_le_dec : RelDecision key_le.
Proof. intros a b. unfold key_le. apply _. Defined.

(** Iteration over a [std::map]: ascending keys. *)
Definition inOrder (m : LayerMap) : list (Z * FBList) :=
  merge_sort key_le (map_to_list m).

(** The bucket [mCached...LayerBuffers[layer]] refers to; an absent bucket
    reads as the empty list. *)
Definition bucketOf (m : LayerMap) (l : Z) : FBList := default [] (m !! l).

Definition cacheOf (isSecureBuffer : bool) (m : Manager) : LayerMap :=
  if isSecureBuffer then mCachedSecureLayerBuffers m else mCachedLayerBuffers m.

Definition setCache (isSecureBuffer : bool) (c : LayerMap) (m : Manager) : Manager :=
  if isSecureBuffer
  then {| mDrmFd := mDrmFd m;
          mCachedLayerBuffers := mCachedLayerBuffers m;
          mCachedSecureLayerBuffers := c;
          mCleanBuffers := mCleanBuffers m;
          mCachedLayersInuse := mCachedLayersInuse m;
          mCachedSecureLayersInuse := mCachedSecureLayersInuse m;
          mCacheShrinkPending := mCacheShrinkPending m;
          mCacheSecureShrinkPending := mCacheSecureShrinkPending m |}
  else {| mDrmFd := mDrmFd m;
          mCachedLayerBuffers := c;
          mCachedSecureLayerBuffers := mCachedSecureLayerBuffers m;
          mCleanBuffers := mCleanBuffers m;
          mCachedLayersInuse := mCachedLayersInuse m;
          mCachedSecureLayersInuse := mCachedSecureLayersInuse m;
          mCacheShrinkPending := mCacheShrinkPending m;
          mCacheSecureShrinkPending := mCacheSecureShrinkPending m |}.

Definition setCleanBuffers (c : FBList) (m : Manager) : Manager :=
  {| mDrmFd := mDrmFd m;
     mCachedLayerBuffers := mCachedLayerBuffers m;
     mCachedSecureLayerBuffers := mCachedSecureLayerBuffers m;
     mCleanBuffers := c;
     mCachedLayersInuse := mCachedLayersInuse m;
     mCachedSecureLayersInuse := mCachedSecureLayersInuse m;
     mCacheShrinkPending := mCacheShrinkPending m;
     mCacheSecureShrinkPending := mCacheSecureShrinkPending m |}.

(** [markInuseLayerLocked] *)
Definition markInuseLayerLocked (l : Z) (isSecureBuffer : bool) (m : Manager) : Manager :=
  {| mDrmFd := mDrmFd m;
     mCachedLayerBuffers := mCachedLayerBuffers m;
     mCachedSecureLayerBuffers := mCachedSecureLayerBuffers m;
     mCleanBuffers := mCleanBuffers m;
     mCachedLayersInuse :=
       if negb isSecureBuffer && mCacheShrinkPending m
       then {[ l ]} ∪ mCachedLayersInuse m else mCachedLayersInuse m;
     mCachedSecureLayersInuse :=
       if isSecureBuffer && mCacheSecureShrinkPending m
       then {[ l ]} ∪ mCachedSecureLayersInuse m else mCachedSecureLayersInuse m;
     mCacheShrinkPending := mCacheShrinkPending m;
     mCacheSecureShrinkPending := mCacheSecureShrinkPending m |}.

(** [std::find_if] over a bucket, returning the id of the first match and
    [0] when there is none. *)
Definition firstMatch (d : BufferIdentity) (bucket : FBList) : Z :=
  match List.find (fun fb => bool_decide (desc fb = d)) bucket with
  | Some fb => fbId fb
  | None => 0
  end.

(** Modelled from the spec: [findCachedFbId] is defined in a header outside
    the source. The spec has the lookup scan the owner's bucket (the secure
    one for a secure identity, the other one otherwise) for a structural
    match and return the cached id on a hit; in-use marking happens during
    the lookup, under the shrink-pending restriction of
    [markInuseLayerLocked]. *)
Definition findCachedFbId (l : Z) (isSecureBuffer : bool) (d : BufferIdentity)
    (m : Manager) : Manager * Z :=
  let m' := markInuseLayerLocked l isSecureBuffer m in
  (m', firstMatch d (bucketOf (cacheOf isSecureBuffer m') l)).

(** *** Kernel calls *)

Section Calls.
Context {K : Type} {kops : DrmKernel K} {plat : Platform}.

Definition logCall (k : K) (c : KernelCall) (w : World K) : World K :=
  {| kernel := k; trace := trace w ++ [c]; fbm := fbm w |}.

(** [getBufHandleFromFd]: the handle is [0] unless the kernel wrote one. *)
Definition getBufHandleFromFd (fd : Z) (w : World K) : World K * Z :=
  let '(k, (ret, gem_handle)) := drmPrimeFDToHandle (kernel w) fd in
  (logCall k (CallPrimeFDToHandle fd ret gem_handle) w, gem_handle).

(** [freeBufHandle] *)
Definition freeBufHandle (handle : Z) (w : World K) : World K :=
  if handle =? 0 then w
  else let '(k, ret) := drmIoctlGemClose (kernel w) handle in
       logCall k (CallGemClose handle ret) w.

(** The four [DrmArray]s of [getBuffer]; each has one slot per plane of a
    buffer object and starts zeroed. A write past the last slot, which the
    source does not guard against, leaves the arrays as they are here. *)
Record PlaneArrays : Type := {
  handles : list Z;
  pitches : list Z;
  offsets : list Z;
  modifiers : list Z
}.

Definition zeroArray : list Z := [0; 0; 0; 0].

Definition at_ (a : list Z) (i : nat) : Z := nth i a 0.

(** [validateLayerInfo] *)
Definition validateLayerInfo (st : WinState) (fmt : Z) (hs ms : list Z) : bool :=
  match st with
  | WIN_STATE_RCD =>
      (fmt =? DRM_FORMAT_C8) && negb (at_ hs 0 =? 0) && (at_ hs 1 =? 0)
      && (at_ ms 0 =? 0)
  | _ => true
  end.

(** [addFB2WithModifiers]; [fbId] is the caller's variable, which the kernel
    call overwrites. *)
Definition addFB2WithModifiers (st : WinState) (req : FbRequest) (fbId : Z)
    (w : World K) : World K * (Z * Z) :=
  if negb (validateLayerInfo st (req_format req) (req_handles req) (req_modifiers req))
  then (w, (- EINVAL, fbId))
  else let '(k, (ret, buf_id)) := drmModeAddFB2WithModifiers (kernel w) req in
       (logCall k (CallAddFB2 req ret buf_id) w, (ret, buf_id)).

(** The loop that imports the buffers of a frame: it stops at the first
    descriptor that does not resolve, and the result is then [None]. A
    descriptor index past the array reads as [-1]. *)
Fixpoint importBuffers (config : exynos_win_config_data) (bpp : Z)
    (remaining bufferIndex : nat) (a : PlaneArrays) (w : World K)
    : World K * option PlaneArrays :=
  match remaining with
  | O => (w, Some a)
  | S remaining' =>
      let ps := <[bufferIndex := wrap32 (src_f_w config * bpp)]> (pitches a) in
      let ms := <[bufferIndex := at_ (modifiers a) 0]> (modifiers a) in
      let '(w1, h) := getBufHandleFromFd (nth bufferIndex (fd_idma config) (-1)) w in
      let a1 := {| handles := <[bufferIndex := h]> (handles a);
                   pitches := ps; offsets := offsets a; modifiers := ms |} in
      if h =? 0 then (w1, None)
      else importBuffers config bpp remaining' (S bufferIndex) a1 w1
  end.

(** The loop that copies plane 0 to the other planes of a single-buffer,
    multi-plane format. *)
Fixpoint sharePlanes (remaining planeIndex : nat) (a : PlaneArrays) : PlaneArrays :=
  match remaining with
  | O => a
  | S remaining' =>
      sharePlanes remaining' (S planeIndex)
        {| handles := <[planeIndex := at_ (handles a) 0]> (handles a);
           pitches := <[planeIndex := at_ (pitches a) 0]> (pitches a);
           offsets := offsets a;
           modifiers := <[planeIndex := at_ (modifiers a) 0]> (modifiers a) |}
  end.

Definition freeBufHandles (hs : list Z) (w : World K) : World K :=
  fold_left (fun w h => freeBufHandle h w) hs w.

(** The identity under which [getBuffer] caches the framebuffer of a
    configuration. *)
Definition identityFor (config : exynos_win_config_data) (bufWidth bufHeight fmt : Z)
    : BufferIdentity :=
  match state config with
  | WIN_STATE_COLOR => SolidColorDesc bufWidth bufHeight
  | _ => BufferDesc (buffer_id config) fmt (protection config)
  end.

(** The block of [getBuffer] that runs under the mutex after a successful
    creation: the bucket is created when the layer has none, an over-full
    bucket is spliced onto the reclaim list, and the new entry goes to the
    front. *)
Definition cacheBuffer (config : exynos_win_config_data) (bufWidth bufHeight fmt : Z)
    (fb : Z) (m : Manager) : Manager :=
  let isSecureBuffer := protection config in
  let cachedBuffers := bucketOf (cacheOf isSecureBuffer m) (layer config) in
  let maxCachedBufferSize :=
    if negb isSecureBuffer then MAX_CACHED_BUFFERS_PER_LAYER
    else MAX_CACHED_SECURE_BUFFERS_PER_LAYER in
  let m1 := markInuseLayerLocked (layer config) isSecureBuffer m in
  let over := bool_decide (maxCachedBufferSize < length cachedBuffers)%nat in
  let m2 := if over then setCleanBuffers (mCleanBuffers m1 ++ cachedBuffers) m1 else m1 in
  let kept := if over then [] else cachedBuffers in
  let entry := {| drmFd := mDrmFd m; fbId := fb;
                  desc := identityFor config bufWidth bufHeight fmt |} in
  setCache isSecureBuffer
    (<[layer config := entry :: kept]> (cacheOf isSecureBuffer m2)) m2.

(** [getBuffer] from the kernel call on: create the framebuffer, close the
    imported handles, then cache the framebuffer or report the failure. *)
Definition createAndCache (config : exynos_win_config_data)
    (bufWidth bufHeight fmt : Z) (nbuf : nat) (a : PlaneArrays) (w : World K)
    : World K * (Z * Z) :=
  let req := {| req_width := bufWidth; req_height := bufHeight; req_format := fmt;
                req_handles := handles a; req_pitches := pitches a;
                req_offsets := offsets a; req_modifiers := modifiers a;
                req_flags := if at_ (modifiers a) 0 =? 0 then 0
                             else DRM_MODE_FB_MODIFIERS |} in
  let '(w1, (ret, fb)) := addFB2WithModifiers (state config) req 0 w in
  let w2 := freeBufHandles (take nbuf (handles a)) w1 in
  if negb (ret =? 0) then (w2, (ret, fb))
  else if negb (layer config =? 0) || negb (buffer_id config =? 0)
  then (setManager w2 (cacheBuffer config bufWidth bufHeight fmt fb (fbm w2)), (0, fb))
  else (w2, (0, fb)).

(** The compression bits that go into [modifiers[0]]. *)
Definition compressionModifier (config : exynos_win_config_data) (m0 : Z) : Z :=
  match compression_type config with
  | COMP_TYPE_AFBC =>
      let compressed_modifier :=
        match comp_src config with
        | DPP_COMP_SRC_G2D => Z.lor (compression_modifier config) AFBC_FORMAT_MOD_SOURCE_G2D
        | DPP_COMP_SRC_GPU => Z.lor (compression_modifier config) AFBC_FORMAT_MOD_SOURCE_GPU
        | DPP_COMP_SRC_NONE => compression_modifier config
        end in
      Z.lor m0 (DRM_FORMAT_MOD_ARM_AFBC compressed_modifier)
  | COMP_TYPE_SBWC => Z.lor m0 (DRM_FORMAT_MOD_SAMSUNG_SBWC (compression_modifier config))
  | COMP_TYPE_NONE => m0
  end.

(** [getBuffer]. The result is the return code with the value of the
    caller's [fbId] on return; [fbId0] is its value on entry. *)
Definition getBuffer (config : exynos_win_config_data) (fbId0 : Z) (w : World K)
    : World K * (Z * Z) :=
  let isSecureBuffer := protection config in
  let m0 := if protection config then Z.lor 0 DRM_FORMAT_MOD_PROTECTION else 0 in
  match state config with
  | WIN_STATE_BUFFER | WIN_STATE_RCD =>
      match halFormatToExynosFormat (format config) (compression_type config) with
      | None => (w, (- EINVAL, fbId0))
      | Some exynosFormat =>
          let fmt := drmFormat exynosFormat in
          if fmt =? DRM_FORMAT_UNDEFINED then (w, (- EINVAL, fbId0))
          else
            let bpp := getBytePerPixelOfPrimaryPlane (format config) in
            let nbuf := bufferNum exynosFormat in
            let nplane := planeNum exynosFormat in
            if bool_decide (nbuf = O) then (w, (- EINVAL, fbId0))
            else if bool_decide (nplane = O) || bool_decide (MAX_PLANE_NUM < nplane)%nat
            then (w, (- EINVAL, fbId0))
            else
              let '(m1, fb) :=
                findCachedFbId (layer config) isSecureBuffer
                  (BufferDesc (buffer_id config) fmt (protection config)) (fbm w) in
              let w0 := setManager w m1 in
              if negb (fb =? 0) then (w0, (NO_ERROR, fb))
              else
                let a0 := {| handles := zeroArray; pitches := zeroArray;
                             offsets := zeroArray;
                             modifiers := <[O := compressionModifier config m0]> zeroArray |} in
                match importBuffers config bpp nbuf O a0 w0 with
                | (w1, None) => (w1, (- ENOMEM, fb))
                | (w1, Some a1) =>
                    let a2 :=
                      if bool_decide (nbuf = 1%nat) && bool_decide (nbuf < nplane)%nat
                      then sharePlanes (nplane - 1) 1
                             {| handles := handles a1; pitches := pitches a1;
                                offsets :=
                                  <[CBCR_INDEX := getExynosBufferYLength (src_f_w config)
                                                    (src_f_h config) (format config)]>
                                    (offsets a1);
                                modifiers := modifiers a1 |}
                      else a1 in
                    createAndCache config (src_f_w config) (src_f_h config) fmt nbuf a2 w1
                end
      end
  | WIN_STATE_COLOR =>
      let bufWidth := dst_w config in
      let bufHeight := dst_h config in
      let bpp := getBytePerPixelOfPrimaryPlane HAL_PIXEL_FORMAT_BGRA_8888 in
      let a0 := {| handles := <[O := 4278190080]> zeroArray;
                   pitches := <[O := wrap32 (dst_w config * bpp)]> zeroArray;
                   offsets := zeroArray;
                   modifiers := <[O := Z.lor m0 DRM_FORMAT_MOD_SAMSUNG_COLORMAP]> zeroArray |} in
      let '(m1, fb) :=
        findCachedFbId (layer config) isSecureBuffer
          (SolidColorDesc bufWidth bufHeight) (fbm w) in
      let w0 := setManager w m1 in
      if negb (fb =? 0) then (w0, (NO_ERROR, fb))
      else createAndCache config bufWidth bufHeight DRM_FORMAT_BGRA8888 O a0 w0
  | _ => (w, (- EINVAL, fbId0))
  end.

(** The identity under which [getBuffer] looks a configuration up, when the
    configuration passes the checks that precede the lookup. *)
Definition lookupIdentity (config : exynos_win_config_data) : option BufferIdentity :=
  match state config with
  | WIN_STATE_BUFFER | WIN_STATE_RCD =>
      match halFormatToExynosFormat (format config) (compression_type config) with
      | None => None
      | Some exynosFormat =>
          if (drmFormat exynosFormat =? DRM_FORMAT_UNDEFINED)
             || bool_decide (bufferNum exynosFormat = O)
             || bool_decide (planeNum exynosFormat = O)
             || bool_decide (MAX_PLANE_NUM < planeNum exynosFormat)%nat
          then None
          else Some (BufferDesc (buffer_id config) (drmFormat exynosFormat)
                       (protection config))
      end
  | WIN_STATE_COLOR => Some (SolidColorDesc (dst_w config) (dst_h config))
  | _ => None
  end.

(** The id the lookup of [getBuffer] finds for a configuration: [0] on a
    miss. *)
Definition cachedFbId (config : exynos_win_config_data) (m : Manager) : Z :=
  match lookupIdentity config with
  | Some d => firstMatch d (bucketOf (cacheOf (protection config) m) (layer config))
  | None => 0
  end.

(** The cap of the bucket a configuration is cached in. *)
Definition capFor (config : exynos_win_config_data) : nat :=
  if protection config then MAX_CACHED_SECURE_BUFFERS_PER_LAYER
  else MAX_CACHED_BUFFERS_PER_LAYER.

End Calls.

(** *** Shrinking, flipping and layer removal *)

(** [checkShrink] *)
Definition checkShrink {plat : Platform} (m : Manager) : Manager :=
  {| mDrmFd := mDrmFd m;
     mCachedLayerBuffers := mCachedLayerBuffers m;
     mCachedSecureLayerBuffers := mCachedSecureLayerBuffers m;
     mCleanBuffers := mCleanBuffers m;
     mCachedLayersInuse := mCachedLayersInuse m;
     mCachedSecureLayersInuse := mCachedSecureLayersInuse m;
     mCacheShrinkPending :=
       bool_decide (MAX_CACHED_LAYERS < size (mCachedLayerBuffers m))%nat;
     mCacheSecureShrinkPending :=
       bool_decide (MAX_CACHED_SECURE_LAYERS < size (mCachedSecureLayerBuffers m))%nat |}.

(** The lambda [clean] of [cleanup], for one of the two caches. *)
Definition cleanLayer (l : Z) (layerBuffs : LayerMap) (clean : FBList)
    : LayerMap * FBList :=
  match layerBuffs !! l with
  | Some bufs => (delete l layerBuffs, clean ++ bufs)
  | None => (layerBuffs, clean)
  end.

(** [cleanup] *)
Definition cleanup (l : Z) (m : Manager) : Manager :=
  let '(c1, clean1) := cleanLayer l (mCachedLayerBuffers m) (mCleanBuffers m) in
  let '(c2, clean2) := cleanLayer l (mCachedSecureLayerBuffers m) clean1 in
  {| mDrmFd := mDrmFd m;
     mCachedLayerBuffers := c1;
     mCachedSecureLayerBuffers := c2;
     mCleanBuffers := clean2;
     mCachedLayersInuse := mCachedLayersInuse m;
     mCachedSecureLayersInuse := mCachedSecureLayersInuse m;
     mCacheShrinkPending := mCacheShrinkPending m;
     mCacheSecureShrinkPending := mCacheSecureShrinkPending m |}.

(** One turn of the loop of [destroyUnusedLayers]: a layer that is not in
    use loses its bucket to the reclaim list. *)
Definition dropIfUnused (inuse : gset Z) (acc : LayerMap * FBList)
    (entry : Z * FBList) : LayerMap * FBList :=
  if bool_decide (entry.1 ∈ inuse) then acc
  else (delete entry.1 acc.1, acc.2 ++ entry.2).

(** The lambda [destroyUnusedLayers]: the new in-use set (always cleared), the
    new cache, the new reclaim list, and whether it shrank the cache. *)
Definition destroyUnusedLayers (cacheShrinkPending : bool) (cachedLayersInuse : gset Z)
    (cachedLayerBuffers : LayerMap) (clean : FBList)
    : gset Z * LayerMap * FBList * bool :=
  if negb cacheShrinkPending
     || bool_decide (size cachedLayersInuse = size cachedLayerBuffers)
  then (∅, cachedLayerBuffers, clean, false)
  else
    let r := fold_left (dropIfUnused cachedLayersInuse) (inOrder cachedLayerBuffers)
               (cachedLayerBuffers, clean) in
    (∅, r.1, r.2, true).

(** [destroyUnusedLayersLocked] *)
Definition destroyUnusedLayersLocked (m : Manager) : Manager :=
  let '(inuse1, c1, clean1, _) :=
    destroyUnusedLayers (mCacheShrinkPending m) (mCachedLayersInuse m)
      (mCachedLayerBuffers m) (mCleanBuffers m) in
  let '(inuse2, c2, clean2, _) :=
    destroyUnusedLayers (mCacheSecureShrinkPending m) (mCachedSecureLayersInuse m)
      (mCachedSecureLayerBuffers m) clean1 in
  {| mDrmFd := mDrmFd m;
     mCachedLayerBuffers := c1;
     mCachedSecureLayerBuffers := c2;
     mCleanBuffers := clean2;
     mCachedLayersInuse := inuse1;
     mCachedSecureLayersInuse := inuse2;
     mCacheShrinkPending := mCacheShrinkPending m;
     mCacheSecureShrinkPending := mCacheSecureShrinkPending m |}.

(** One turn of the loop of [destroyAllSecureBuffersLocked]. *)
Definition spliceBucket (clean : FBList) (entry : Z * FBList) : FBList :=
  if bool_decide (length entry.2 = O) then clean else clean ++ entry.2.

(** [destroyAllSecureBuffersLocked] *)
Definition destroyAllSecureBuffersLocked (m : Manager) : Manager :=
  {| mDrmFd := mDrmFd m;
     mCachedLayerBuffers := mCachedLayerBuffers m;
     mCachedSecureLayerBuffers := ∅;
     mCleanBuffers :=
       fold_left spliceBucket (inOrder (mCachedSecureLayerBuffers m)) (mCleanBuffers m);
     mCachedLayersInuse := mCachedLayersInuse m;
     mCachedSecureLayersInuse := mCachedSecureLayersInuse m;
     mCacheShrinkPending := mCacheShrinkPending m;
     mCacheSecureShrinkPending := mCacheSecureShrinkPending m |}.

(** [flip]: the manager after the call, and whether [mFlipDone] was
    signalled. *)
Definition flip (hasSecureBuffer : bool) (m : Manager) : Manager * bool :=
  let m1 := destroyUnusedLayersLocked m in
  let m2 := if negb hasSecureBuffer then destroyAllSecureBuffersLocked m1 else m1 in
  let needCleanup := bool_decide (0 < length (mCleanBuffers m2))%nat in
  (m2, needCleanup).

End FramebufferManager.

(** ** ExynosDisplayDrmInterface: transactions, vsync callback, mode requests *)

Module DisplayInterface.

(** [DRM_MODE_ATOMIC_TEST_ONLY] of the kernel interface. *)
Definition DRM_MODE_ATOMIC_TEST_ONLY : Z := 256.

(** [struct _drmModeAtomicReqItem] *)
Record drmModeAtomicReqItem : Type := {
  object_id : Z;
  property_id : Z;
  value : Z
}.

(** [struct _drmModeAtomicReq]: the items below the cursor. *)
Abbreviation drmModeAtomicReq := (list drmModeAtomicReqItem).

(** A [DrmProperty] as the transaction code sees it: its kernel id ([0]
    when the hardware lacks the property) and the value last read or
    committed for it. *)
Record DrmProperty : Type := {
  id : Z;
  current : Z
}.

(** Modelled from the spec: [DrmProperty::validateChange] is defined outside
    the source. The spec has a property write skipped when the new value
    equals the last-committed value of the property (change suppression), so
    a change is valid exactly when the value differs. *)
Definition validateChange (property : DrmProperty) (v : Z) : bool :=
  negb (v =? current property).

(** The fields of a [DrmMode] that the mode-request code reads. *)
Record DrmMode : Type := {
  mode_id : Z;
  h_display : Z;
  v_display : Z;
  te_period : Z
}.

(** The members of [ExynosVsyncCallback] that [Callback] uses. They are
    declared in a header outside the source; nanosecond quantities are kept
    as integers, and the conversions that [Callback] itself writes are
    applied where it writes them. *)
Record ExynosVsyncCallback : Type := {
  mVsyncTimeStamp : Z;
  mVsyncPeriod : Z;
  mDesiredVsyncPeriod : Z;
  mModeSetFence : Z;
  mTransientDuration : Z
}.

(** [DrmModeAtomicReq]: the property set, the recorded commit error, the
    post-commit callback (the mode id it is bound to) and the blobs to
    destroy with the transaction. *)
Record DrmModeAtomicReq : Type := {
  mPset : drmModeAtomicReq;
  mError : Z;
  mAckCallback : option Z;
  mOldBlobs : list Z
}.

Definition newDrmModeAtomicReq : DrmModeAtomicReq :=
  {| mPset := []; mError := 0; mAckCallback := None; mOldBlobs := [] |}.

Definition setError (err : Z) (r : DrmModeAtomicReq) : DrmModeAtomicReq :=
  {| mPset := mPset r; mError := err; mAckCallback := mAckCallback r;
     mOldBlobs := mOldBlobs r |}.

Definition setAckCallback (cb : Z) (r : DrmModeAtomicReq) : DrmModeAtomicReq :=
  {| mPset := mPset r; mError := mError r; mAckCallback := Some cb;
     mOldBlobs := mOldBlobs r |}.

Definition addOldBlob (blob : Z) (r : DrmModeAtomicReq) : DrmModeAtomicReq :=
  {| mPset := mPset r; mError := mError r; mAckCallback := mAckCallback r;
     mOldBlobs := mOldBlobs r ++ [blob] |}.

Definition setPset (p : drmModeAtomicReq) (r : DrmModeAtomicReq) : DrmModeAtomicReq :=
  {| mPset := p; mError := mError r; mAckCallback := mAckCallback r;
     mOldBlobs := mOldBlobs r |}.

(** What the display interface does to the outside, in order. *)
Inductive Event : Type :=
| CallAtomicAddProperty (object property v ret : Z)
| CallAtomicCommit (pset : drmModeAtomicReq) (flags ret : Z)
| CallCreatePropertyBlob (mode : Z) (ret blob : Z)
| CallDestroyPropertyBlob (blob : Z)
| CallAckCallback (mode : Z)
| CallSetVBlankOffDelay (delay : Z)
| CallVSyncControl (enabled : bool)
| CallWriteKernelFile (v : Z)
| CallOperationRateOnConfig (config : Z)
| CallHandleTargetOperationRate.

Definition isAtomicAddProperty (e : Event) : bool :=
  match e with CallAtomicAddProperty _ _ _ _ => true | _ => false end.

(** libdrm, the DRM device and the clock, as the display interface calls
    them; [K] is the state behind them. *)
Class DrmDevice (K : Type) : Type := {
  drmModeAtomicAddProperty : drmModeAtomicReq -> Z -> Z -> Z -> drmModeAtomicReq * Z;
  drmModeAtomicCommit : K -> drmModeAtomicReq -> Z -> K * Z;
  IsDrmInTUI : K -> bool;
  CreatePropertyBlob : K -> DrmMode -> K * (Z * Z);
  DestroyPropertyBlob : K -> Z -> K * Z;
  systemTime : K -> K * Z;
  openKernelFile : K -> K * bool;
  kAllowDumpDrmAtomicMessageTimeMs : Z;
  kEnableDrmAtomicMessage : Z;
  kDisableDrmDebugMessage : Z
}.

(** [ModeState] and the members of it that are defined in a header outside
    the source; [MS] is the struct. *)
Class ModeStateOps (MS : Type) : Type := {
  mode : MS -> DrmMode;
  blob_id : MS -> Z;
  needsModeSet : MS -> bool;
  isFullModeSwitch : MS -> DrmMode -> bool;
  setMode : MS -> DrmMode -> Z -> DrmModeAtomicReq -> MS * DrmModeAtomicReq;
  setDesiredVsyncPeriod : Z -> ExynosVsyncCallback -> ExynosVsyncCallback
}.

(** The fence clock of the vsync callback. *)
Class FenceClock : Type := {
  getSignalTime : Z -> Z;
  SIGNAL_TIME_INVALID : Z;
  SIGNAL_TIME_PENDING : Z
}.

(** The state of the display interface that the modelled methods touch. *)
Record Interface (K MS : Type) : Type := {
  drm : K;
  log : list Event;
  modes : list DrmMode;
  mActiveModeState : MS;
  mDesiredModeState : MS;
  mIsResolutionSwitchInProgress : bool;
  mVsyncCallback : ExynosVsyncCallback;
  mLastDumpDrmAtomicMessageTime : Z;
  crtc : Z;
  connector : Z;
  active_property : DrmProperty;
  mode_property : DrmProperty;
  crtc_id_property : DrmProperty;
  configChangeCallback : bool;
  mOperationRateManager : bool
}.
Arguments drm {K MS} _.
Arguments log {K MS} _.
Arguments modes {K MS} _.
Arguments mActiveModeState {K MS} _.
Arguments mDesiredModeState {K MS} _.
Arguments mIsResolutionSwitchInProgress {K MS} _.
Arguments mVsyncCallback {K MS} _.
Arguments mLastDumpDrmAtomicMessageTime {K MS} _.
Arguments crtc {K MS} _.
Arguments connector {K MS} _.
Arguments active_property {K MS} _.
Arguments mode_property {K MS} _.
Arguments crtc_id_property {K MS} _.
Arguments configChangeCallback {K MS} _.
Arguments mOperationRateManager {K MS} _.

Section Methods.
Context {K MS : Type} {dev : DrmDevice K} {msops : ModeStateOps MS}.

Abbreviation Iface := (Interface K MS).

(** Functional update of the fields that change. *)
Definition update (d : Iface) (k : K) (l : list Event) (desired : MS)
    (resSwitch : bool) (cb : ExynosVsyncCallback) (lastDump : Z) : Iface :=
  {| drm := k; log := l; modes := modes d;
     mActiveModeState := mActiveModeState d;
     mDesiredModeState := desired;
     mIsResolutionSwitchInProgress := resSwitch;
     mVsyncCallback := cb;
     mLastDumpDrmAtomicMessageTime := lastDump;
     crtc := crtc d; connector := connector d;
     active_property := active_property d;
     mode_property := mode_property d;
     crtc_id_property := crtc_id_property d;
     configChangeCallback := configChangeCallback d;
     mOperationRateManager := mOperationRateManager d |}.

Definition emit (k : K) (es : list Event) (d : Iface) : Iface :=
  update d k (log d ++ es) (mDesiredModeState d) (mIsResolutionSwitchInProgress d)
    (mVsyncCallback d) (mLastDumpDrmAtomicMessageTime d).

(** [DrmModeAtomicReq::atomicAddProperty] *)
Definition atomicAddProperty (object : Z) (property : DrmProperty) (v : Z)
    (optional : bool) (r : DrmModeAtomicReq) (d : Iface)
    : Iface * DrmModeAtomicReq * Z :=
  if negb optional && (id property =? 0) then (d, r, - EINVAL)
  else if negb (id property =? 0) && validateChange property v then
    let '(pset, ret) := drmModeAtomicAddProperty (mPset r) object (id property) v in
    let d1 := emit (drm d) [CallAtomicAddProperty object (id property) v ret] d in
    if ret <? 0 then (d1, setPset pset r, ret)
    else (d1, setPset pset r, NO_ERROR)
  else (d, r, NO_ERROR).

(** [writeIntToKernelFile], for the debug node. *)
Definition writeIntToKernelFile (v : Z) (d : Iface) : Iface * Z :=
  let '(k, opened) := openKernelFile (drm d) in
  if opened then (emit k [CallWriteKernelFile v] d, 0)
  else (emit k [] d, -1).

(** [ns2ms] *)
Definition ns2ms (ns : Z) : Z := Z.quot ns 1000000.

(** [DrmModeAtomicReq::dumpDrmAtomicCommitMessage] *)
Definition dumpDrmAtomicCommitMessage (err : Z) (r : DrmModeAtomicReq) (d : Iface)
    : Iface :=
  let '(k1, now) := systemTime (drm d) in
  let d1 := emit k1 [] d in
  let diffMs := ns2ms (now - mLastDumpDrmAtomicMessageTime d1) in
  if diffMs <? kAllowDumpDrmAtomicMessageTimeMs then d1
  else
    let '(d2, failed) := writeIntToKernelFile kEnableDrmAtomicMessage d1 in
    if negb (failed =? 0) then d2
    else
      let '(k3, ret) := drmModeAtomicCommit (drm d2) (mPset r) DRM_MODE_ATOMIC_TEST_ONLY in
      let d3 := emit k3 [CallAtomicCommit (mPset r) DRM_MODE_ATOMIC_TEST_ONLY ret] d2 in
      let '(d4, _) := writeIntToKernelFile kDisableDrmDebugMessage d3 in
      let '(k5, t) := systemTime (drm d4) in
      update d4 k5 (log d4) (mDesiredModeState d4) (mIsResolutionSwitchInProgress d4)
        (mVsyncCallback d4) t.

(** [DrmModeAtomicReq::commit] *)
Definition commit (flags : Z) (loggingForDebug : bool) (r : DrmModeAtomicReq)
    (d : Iface) : Iface * DrmModeAtomicReq * Z :=
  let '(k, ret0) := drmModeAtomicCommit (drm d) (mPset r) flags in
  let d1 := emit k [CallAtomicCommit (mPset r) flags ret0] d in
  let '(d2, r2, ret) :=
    if (ret0 =? - EPERM) && IsDrmInTUI (drm d1) then (d1, r, NO_ERROR)
    else if ret0 <? 0 then
      let d' := if ret0 =? - EINVAL then dumpDrmAtomicCommitMessage ret0 r d1 else d1 in
      (d', setError ret0 r, ret0)
    else (d1, r, ret0) in
  let d3 :=
    match mAckCallback r2 with
    | Some cb =>
        if (ret =? 0) && (Z.land flags DRM_MODE_ATOMIC_TEST_ONLY =? 0)
        then emit (drm d2) [CallAckCallback cb] d2 else d2
    | None => d2
    end in
  let d4 :=
    if mIsResolutionSwitchInProgress d3 && negb (needsModeSet (mDesiredModeState d3))
    then update d3 (drm d3) (log d3 ++ [CallSetVBlankOffDelay 1]) (mDesiredModeState d3)
           false (mVsyncCallback d3) (mLastDumpDrmAtomicMessageTime d3)
    else d3 in
  (d4, r2, ret).

(** Modelled from the spec: [destroyOldBlobs], which the destructor of
    [DrmModeAtomicReq] calls, is defined in a header outside the source. The
    spec has the destruction of a transaction destroy the property blobs that
    were marked old during its lifetime. *)
Definition destroyOldBlobs (r : DrmModeAtomicReq) (d : Iface) : Iface :=
  fold_left
    (fun d blob =>
       let '(k, _) := DestroyPropertyBlob (drm d) blob in
       emit k [CallDestroyPropertyBlob blob] d)
    (mOldBlobs r) d.

(** [createModeBlob] *)
Definition createModeBlob (m : DrmMode) (d : Iface) : Iface * (Z * Z) :=
  let '(k, (ret, modeBlob)) := CreatePropertyBlob (drm d) m in
  let d1 := emit k [CallCreatePropertyBlob (mode_id m) ret modeBlob] d in
  if negb (ret =? 0) then (d1, (ret, modeBlob)) else (d1, (NO_ERROR, modeBlob)).

(** [setDisplayMode] *)
Definition setDisplayMode (r : DrmModeAtomicReq) (modeBlob modeId : Z) (d : Iface)
    : Iface * DrmModeAtomicReq * Z :=
  let '(d1, r1, ret1) := atomicAddProperty (crtc d) (active_property d) 1 false r d in
  if ret1 <? 0 then (d1, r1, ret1)
  else
    let '(d2, r2, ret2) :=
      atomicAddProperty (crtc d1) (mode_property d1) modeBlob false r1 d1 in
    if ret2 <? 0 then (d2, r2, ret2)
    else
      let '(d3, r3, ret3) :=
        atomicAddProperty (connector d2) (crtc_id_property d2) (crtc d2) false r2 d2 in
      if ret3 <? 0 then (d3, r3, ret3)
      else
        let r4 := if configChangeCallback d3 then setAckCallback modeId r3 else r3 in
        (d3, r4, NO_ERROR).

(** [setActiveConfigWithConstraints]. The transaction [drmReq] is local to
    the call: it is constructed after the same-mode check and destroyed on
    every later return. *)
Definition setActiveConfigWithConstraints (config : Z) (test : bool) (d : Iface)
    : Iface * Z :=
  match List.find (fun m => mode_id m =? config) (modes d) with
  | None => (d, HWC2_ERROR_BAD_CONFIG)
  | Some m =>
      if negb (needsModeSet (mDesiredModeState d))
         && negb (blob_id (mActiveModeState d) =? 0)
         && (mode_id (mode (mActiveModeState d)) =? config)
      then
        let cb := setDesiredVsyncPeriod (te_period (mode (mActiveModeState d)))
                    (mVsyncCallback d) in
        (update d (drm d) (log d ++ [CallVSyncControl true]) (mDesiredModeState d)
           (mIsResolutionSwitchInProgress d) cb (mLastDumpDrmAtomicMessageTime d),
         HWC2_ERROR_NONE)
      else
        let drmReq := newDrmModeAtomicReq in
        let '(d1, (ret, modeBlob)) :=
          if negb (mode_id (mode (mDesiredModeState d)) =? config)
          then createModeBlob m d else (d, (NO_ERROR, 0)) in
        if negb (ret =? NO_ERROR) then (destroyOldBlobs drmReq d1, HWC2_ERROR_BAD_CONFIG)
        else
          let isResSwitch :=
            negb (blob_id (mActiveModeState d1) =? 0)
            && isFullModeSwitch (mActiveModeState d1) m in
          if negb test then
            if negb (modeBlob =? 0) then
              let d2 :=
                if isFullModeSwitch (mDesiredModeState d1) m
                then update d1 (drm d1) (log d1 ++ [CallSetVBlankOffDelay 0])
                       (mDesiredModeState d1) true (mVsyncCallback d1)
                       (mLastDumpDrmAtomicMessageTime d1)
                else d1 in
              let '(desired, drmReq1) := setMode (mDesiredModeState d2) m modeBlob drmReq in
              let d3 := update d2 (drm d2) (log d2) desired
                          (mIsResolutionSwitchInProgress d2) (mVsyncCallback d2)
                          (mLastDumpDrmAtomicMessageTime d2) in
              let d4 :=
                if mOperationRateManager d3
                then emit (drm d3)
                       [CallOperationRateOnConfig config; CallHandleTargetOperationRate] d3
                else d3 in
              (destroyOldBlobs drmReq1 d4, HWC2_ERROR_NONE)
            else (destroyOldBlobs drmReq d1, HWC2_ERROR_NONE)
          else
            let finish (drmReq' : DrmModeAtomicReq) (d' : Iface) : Iface * Z :=
              let d'' :=
                if negb (modeBlob =? 0)
                then let '(k, _) := DestroyPropertyBlob (drm d') modeBlob in
                     emit k [CallDestroyPropertyBlob modeBlob] d'
                else d' in
              (destroyOldBlobs drmReq' d'', HWC2_ERROR_NONE) in
            if negb isResSwitch then
              let '(d2, drmReq1, ret1) :=
                setDisplayMode drmReq
                  (if negb (modeBlob =? 0) then modeBlob else blob_id (mDesiredModeState d1))
                  (if negb (modeBlob =? 0) then mode_id m
                   else mode_id (mode (mDesiredModeState d1))) d1 in
              if ret1 <? 0 then (destroyOldBlobs drmReq1 d2, ret1)
              else
                let '(d3, drmReq2, ret2) :=
                  commit DRM_MODE_ATOMIC_TEST_ONLY true drmReq1 d2 in
                if negb (ret2 =? 0)
                then (destroyOldBlobs (addOldBlob modeBlob drmReq2) d3, ret2)
                else finish drmReq2 d3
            else finish drmReq d1
  end.

End Methods.

(** [ExynosVsyncCallback::Callback]: the callback after the call, and
    whether the pending configuration is reported as applied. *)
Definition Callback {clock : FenceClock} (timestamp : Z) (cb : ExynosVsyncCallback)
    : ExynosVsyncCallback * bool :=
  let period :=
    if 0 <? mVsyncTimeStamp cb then timestamp - mVsyncTimeStamp cb
    else mVsyncPeriod cb in
  let cb1 := {| mVsyncTimeStamp := timestamp; mVsyncPeriod := period;
                mDesiredVsyncPeriod := mDesiredVsyncPeriod cb;
                mModeSetFence := mModeSetFence cb;
                mTransientDuration := mTransientDuration cb |} in
  if mDesiredVsyncPeriod cb1 =? 0 then (cb1, true)
  else
    let error := to_int32 (Z.quot (mDesiredVsyncPeriod cb1) 5) in
    if Z.abs (to_int32 (mDesiredVsyncPeriod cb1 - mVsyncPeriod cb1)) <? error
    then (cb1, true)
    else
      let signalTime := getSignalTime (mModeSetFence cb1) in
      if negb (signalTime =? SIGNAL_TIME_INVALID)
         && negb (signalTime =? SIGNAL_TIME_PENDING)
         && (signalTime + mVsyncPeriod cb1 * mTransientDuration cb1 - error <? timestamp)
      then ({| mVsyncTimeStamp := timestamp; mVsyncPeriod := period;
               mDesiredVsyncPeriod := mDesiredVsyncPeriod cb;
               mModeSetFence := -1;
               mTransientDuration := mTransientDuration cb |}, true)
      else (cb1, false).

(** The condition under which the callback is specified to report the
    switch as applied, in the words of the specification: the desired period
    is zero; or the difference between this timestamp and the previous one
    is within a fifth of the desired period of it; or the timestamp exceeds
    the signal time of the mode-set fence plus the previously observed period
    times the transient duration, less that fifth. *)
Definition specifiedApplied {clock : FenceClock} (timestamp : Z)
    (cb : ExynosVsyncCallback) : Prop :=
  let desired := mDesiredVsyncPeriod cb in
  let observed := timestamp - mVsyncTimeStamp cb in
  desired = 0
  \/ Z.abs (desired - observed) < desired / 5
  \/ getSignalTime (mModeSetFence cb)
       + mVsyncPeriod cb * mTransientDuration cb - desired / 5 < timestamp.

End DisplayInterface.

(** ** A concrete platform and kernel, for the examples *)

Module Demo.
Import FramebufferManager.

(** A two-row format table: format 1 is a single-buffer RGBA format, format
    261 a two-buffer, two-plane YUV format. The cache limits are small so
    that the examples stay readable. *)
Definition platform : Platform := {|
  halFormatToExynosFormat f _ :=
    if f =? 1 then Some {| drmFormat := 875708993; bufferNum := 1; planeNum := 1 |}
    else if f =? 261 then Some {| drmFormat := 842094158; bufferNum := 2; planeNum := 2 |}
    else None;
  getBytePerPixelOfPrimaryPlane f := if f =? 261 then 1 else 4;
  getExynosBufferYLength w h _ := w * h;
  HAL_PIXEL_FORMAT_BGRA_8888 := 5;
  DRM_FORMAT_UNDEFINED := 0;
  DRM_FORMAT_C8 := 538982467;
  DRM_FORMAT_BGRA8888 := 875708738;
  DRM_FORMAT_MOD_PROTECTION := 2 ^ 51;
  DRM_FORMAT_MOD_SAMSUNG_COLORMAP := 2 ^ 50;
  AFBC_FORMAT_MOD_SOURCE_G2D := 2 ^ 62;
  AFBC_FORMAT_MOD_SOURCE_GPU := 2 ^ 61;
  DRM_FORMAT_MOD_ARM_AFBC m := Z.lor (2 ^ 59) m;
  DRM_FORMAT_MOD_SAMSUNG_SBWC m := Z.lor (2 ^ 58) m;
  DRM_MODE_FB_MODIFIERS := 2;
  MAX_CACHED_LAYERS := 16;
  MAX_CACHED_SECURE_LAYERS := 1;
  MAX_CACHED_BUFFERS_PER_LAYER := 2;
  MAX_CACHED_SECURE_BUFFERS_PER_LAYER := 1
|}.

(** A kernel that knows which descriptors are dma-bufs, hands out
    framebuffer ids in sequence, and can be out of memory. *)
Record Kernel : Type := {
  dmabufs : list Z;
  next_fb : Z;
  out_of_memory : bool
}.

Definition kernelOps : DrmKernel Kernel := {|
  drmPrimeFDToHandle k fd :=
    if bool_decide (fd ∈ dmabufs k) then (k, (0, 1000 + fd)) else (k, (-9, 0));
  drmModeAddFB2WithModifiers k _ :=
    if out_of_memory k then (k, (- ENOMEM, 0))
    else ({| dmabufs := dmabufs k; next_fb := next_fb k + 1;
             out_of_memory := out_of_memory k |}, (0, next_fb k));
  drmIoctlGemClose k _ := (k, 0)
|}.

Definition emptyManager : Manager :=
  {| mDrmFd := 3;
     mCachedLayerBuffers := ∅; mCachedSecureLayerBuffers := ∅;
     mCleanBuffers := [];
     mCachedLayersInuse := ∅; mCachedSecureLayersInuse := ∅;
     mCacheShrinkPending := false; mCacheSecureShrinkPending := false |}.

Definition world0 : World Kernel :=
  {| kernel := {| dmabufs := [5; 6]; next_fb := 101; out_of_memory := false |};
     trace := [];
     fbm := emptyManager |}.

(** Layer [L1] asks for buffer [B1] (id 7, RGBA, not secure). *)
Definition L1 : Z := 4096.

Definition configB1 : exynos_win_config_data :=
  {| state := WIN_STATE_BUFFER; src_f_w := 1080; src_f_h := 2400;
     dst_w := 1080; dst_h := 2400; format := 1;
     compression_type := COMP_TYPE_NONE; compression_modifier := 0;
     comp_src := DPP_COMP_SRC_NONE; fd_idma := [5; -1; -1];
     buffer_id := 7; layer := L1; protection := false |}.

(** A configuration without a layer and without a buffer id, as the
    writeback path builds it. *)
Definition configWriteback : exynos_win_config_data :=
  {| state := WIN_STATE_BUFFER; src_f_w := 1080; src_f_h := 2400;
     dst_w := 1080; dst_h := 2400; format := 1;
     compression_type := COMP_TYPE_NONE; compression_modifier := 0;
     comp_src := DPP_COMP_SRC_NONE; fd_idma := [5; -1; -1];
     buffer_id := 0; layer := 0; protection := false |}.

(** A two-buffer frame whose second descriptor is not a dma-buf. *)
Definition configTwoBuffers : exynos_win_config_data :=
  {| state := WIN_STATE_BUFFER; src_f_w := 1920; src_f_h := 1080;
     dst_w := 1920; dst_h := 1080; format := 261;
     compression_type := COMP_TYPE_NONE; compression_modifier := 0;
     comp_src := DPP_COMP_SRC_NONE; fd_idma := [5; 9; -1];
     buffer_id := 8; layer := L1; protection := false |}.

Definition fbOf (n : Z) : Framebuffer :=
  {| drmFd := 3; fbId := n; desc := BufferDesc n 875708993 false |}.

(** [L1] already caches as many buffers as the limit allows. *)
Definition managerAtCap : Manager :=
  {| mDrmFd := 3;
     mCachedLayerBuffers := {[ L1 := [fbOf 21; fbOf 20] ]};
     mCachedSecureLayerBuffers := ∅;
     mCleanBuffers := [];
     mCachedLayersInuse := ∅; mCachedSecureLayersInuse := ∅;
     mCacheShrinkPending := false; mCacheSecureShrinkPending := false |}.

(** One framebuffer waits on the reclaim list; the caches are empty. *)
Definition managerWithBacklog : Manager :=
  {| mDrmFd := 3;
     mCachedLayerBuffers := ∅; mCachedSecureLayerBuffers := ∅;
     mCleanBuffers := [fbOf 20];
     mCachedLayersInuse := ∅; mCachedSecureLayersInuse := ∅;
     mCacheShrinkPending := false; mCacheSecureShrinkPending := false |}.

(** Two layers hold secure buffers. *)
Definition managerWithSecure : Manager :=
  {| mDrmFd := 3;
     mCachedLayerBuffers := {[ L1 := [fbOf 20] ]};
     mCachedSecureLayerBuffers := {[ L1 := [fbOf 31; fbOf 30]; 8192 := [fbOf 32] ]};
     mCleanBuffers := [];
     mCachedLayersInuse := ∅; mCachedSecureLayersInuse := ∅;
     mCacheShrinkPending := false; mCacheSecureShrinkPending := false |}.

(** [getBuffer] on the example platform and kernel, the caller's [fbId]
    being [0] on entry. *)
Definition request (config : exynos_win_config_data) (w : World Kernel)
    : World Kernel * (Z * Z) :=
  @getBuffer Kernel kernelOps platform config 0 w.

Definition world1 : World Kernel := (request configB1 world0).1.

Definition worldAtCap : World Kernel :=
  {| kernel := kernel world0; trace := []; fbm := managerAtCap |}.

(** The kernel cannot create a framebuffer. *)
Definition worldOutOfMemory : World Kernel :=
  {| kernel := {| dmabufs := [5; 6]; next_fb := 101; out_of_memory := true |};
     trace := [];
     fbm := emptyManager |}.

Definition configTwoGoodBuffers : exynos_win_config_data :=
  {| state := WIN_STATE_BUFFER; src_f_w := 1920; src_f_h := 1080;
     dst_w := 1920; dst_h := 1080; format := 261;
     compression_type := COMP_TYPE_NONE; compression_modifier := 0;
     comp_src := DPP_COMP_SRC_NONE; fd_idma := [5; 6; -1];
     buffer_id := 8; layer := L1; protection := false |}.

(** *** The display interface of the examples *)

Import DisplayInterface.

(** A device whose next commit result, trusted-UI state and debug node are
    fixed, that hands out blob ids in sequence and whose clock advances by a
    millisecond per reading. *)
Record Device : Type := {
  commit_result : Z;
  in_tui : bool;
  next_blob : Z;
  clock_ns : Z;
  debug_node : bool
}.

Definition deviceOps : DrmDevice Device := {|
  drmModeAtomicAddProperty pset object property v :=
    if (object =? 0) || (property =? 0) then (pset, - EINVAL)
    else (pset ++ [{| object_id := object; property_id := property; value := v |}],
          Z.of_nat (length pset) + 1);
  drmModeAtomicCommit k _ _ := (k, commit_result k);
  IsDrmInTUI k := in_tui k;
  CreatePropertyBlob k _ :=
    ({| commit_result := commit_result k; in_tui := in_tui k;
        next_blob := next_blob k + 1; clock_ns := clock_ns k;
        debug_node := debug_node k |}, (0, next_blob k));
  DestroyPropertyBlob k _ := (k, 0);
  systemTime k :=
    ({| commit_result := commit_result k; in_tui := in_tui k;
        next_blob := next_blob k; clock_ns := clock_ns k + 1000000;
        debug_node := debug_node k |}, clock_ns k);
  openKernelFile k := (k, debug_node k);
  kAllowDumpDrmAtomicMessageTimeMs := 5000;
  kEnableDrmAtomicMessage := 16;
  kDisableDrmDebugMessage := 0
|}.

(** Modelled from the spec: [ModeState] is declared in a header outside the
    source. The spec gives it a mode, a blob id and an old blob id; a mode
    set is needed when the blob id is not zero; a switch is a full one when
    the resolution differs; and the blob a mode replaces is held back until
    the transaction is destroyed. *)
Record ModeState : Type := {
  ms_mode : DrmMode;
  ms_blob_id : Z;
  ms_old_blob_id : Z
}.

Definition modeStateOps : ModeStateOps ModeState := {|
  mode := ms_mode;
  blob_id := ms_blob_id;
  needsModeSet ms := negb (ms_blob_id ms =? 0);
  isFullModeSwitch ms m :=
    negb (h_display (ms_mode ms) =? h_display m)
    || negb (v_display (ms_mode ms) =? v_display m);
  setMode ms m blob drmReq :=
    ({| ms_mode := m; ms_blob_id := blob; ms_old_blob_id := ms_blob_id ms |},
     addOldBlob (ms_old_blob_id ms) drmReq);
  setDesiredVsyncPeriod period cb :=
    {| mVsyncTimeStamp := 0; mVsyncPeriod := mVsyncPeriod cb;
       mDesiredVsyncPeriod := period; mModeSetFence := mModeSetFence cb;
       mTransientDuration := mTransientDuration cb |}
|}.

(** Fence 40 signalled one second after boot, fence 41 has not signalled,
    any other descriptor is no fence. *)
Definition fenceClock : FenceClock := {|
  getSignalTime fence :=
    if fence =? 40 then 1000000000
    else if fence =? 41 then 2 ^ 63 - 1
    else -1;
  SIGNAL_TIME_INVALID := -1;
  SIGNAL_TIME_PENDING := 2 ^ 63 - 1
|}.

Definition mode60 : DrmMode :=
  {| mode_id := 1; h_display := 1920; v_display := 1080; te_period := 16666666 |}.

Definition mode120 : DrmMode :=
  {| mode_id := 2; h_display := 2960; v_display := 1440; te_period := 8333333 |}.

Definition idleCallback : ExynosVsyncCallback :=
  {| mVsyncTimeStamp := 0; mVsyncPeriod := 16666666; mDesiredVsyncPeriod := 0;
     mModeSetFence := -1; mTransientDuration := 2 |}.

Definition deviceWith (result : Z) (tui : bool) : Device :=
  {| commit_result := result; in_tui := tui; next_blob := 70;
     clock_ns := 9000000000; debug_node := true |}.

(** Mode 1 is active under blob 7 and no mode change is pending. *)
Definition stableAt60 (k : Device) (ms : list DrmMode) : Interface Device ModeState :=
  {| drm := k; log := []; modes := ms;
     mActiveModeState := {| ms_mode := mode60; ms_blob_id := 7; ms_old_blob_id := 0 |};
     mDesiredModeState := {| ms_mode := mode60; ms_blob_id := 0; ms_old_blob_id := 0 |};
     mIsResolutionSwitchInProgress := false;
     mVsyncCallback := idleCallback;
     mLastDumpDrmAtomicMessageTime := 0;
     crtc := 50; connector := 60;
     active_property := {| id := 11; current := 0 |};
     mode_property := {| id := 12; current := 0 |};
     crtc_id_property := {| id := 13; current := 0 |};
     configChangeCallback := false;
     mOperationRateManager := false |}.

Definition requestMode (config : Z) (test : bool) (d : Interface Device ModeState)
    : Interface Device ModeState * Z :=
  @setActiveConfigWithConstraints Device ModeState deviceOps modeStateOps config test d.

Definition commitOn (k : Device) (r : DrmModeAtomicReq)
    : Interface Device ModeState * DrmModeAtomicReq * Z :=
  @commit Device ModeState deviceOps modeStateOps 0 false r (stableAt60 k [mode60; mode120]).

Definition addProperty (object : Z) (property : DrmProperty) (v : Z) (optional : bool)
    (r : DrmModeAtomicReq) : Interface Device ModeState * DrmModeAtomicReq * Z :=
  @atomicAddProperty Device ModeState deviceOps object property v optional r
    (stableAt60 (deviceWith 0 false) [mode60; mode120]).

(** A switch to 120 Hz is pending; the last vsync came 16.6 ms after the one
    before it, and no mode-set fence is held. *)
Definition pendingNoFence : ExynosVsyncCallback :=
  {| mVsyncTimeStamp := 1000000000; mVsyncPeriod := 16666666;
     mDesiredVsyncPeriod := 8333333; mModeSetFence := -1;
     mTransientDuration := 2 |}.

(** The same with the mode-set fence 40, which signalled at one second. *)
Definition pendingFence40 : ExynosVsyncCallback :=
  {| mVsyncTimeStamp := 1000000000; mVsyncPeriod := 16666666;
     mDesiredVsyncPeriod := 8333333; mModeSetFence := 40;
     mTransientDuration := 2 |}.

Definition onVsync (timestamp : Z) (cb : ExynosVsyncCallback)
    : ExynosVsyncCallback * bool :=
  @Callback fenceClock timestamp cb.

End Demo.

(** ** FramebufferManager: the remaining operations *)

Module FramebufferReclaim.
Import FramebufferManager.

(** The loop of [destroyCachedBuffersLocked] over one bucket: every entry
    whose descriptor the set of removed descriptors counts is spliced, one
    at a time, onto the end of the reclaim list. [removed] is that test on
    an entry; the set itself is built from graphic-buffer metadata outside
    the source. The result is the bucket that is left, the reclaim list, and
    [needCleanup]. *)
Fixpoint spliceRemoved (removed : Framebuffer -> bool) (fbList : FBList)
    (clean : FBList) (needCleanup : bool) : FBList * FBList * bool :=
  match fbList with
  | [] => ([], clean, needCleanup)
  | fb :: rest =>
      if removed fb
      then spliceRemoved removed rest (clean ++ [fb]) true
      else let '(kept, clean', need') := spliceRemoved removed rest clean needCleanup in
           (fb :: kept, clean', need')
  end.

(** The lambda [destroyCachedBuffersLocked] of [uncacheLayerBuffers], for
    one of the two caches. The bucket stays in the map, also when it ends up
    empty. *)
Definition destroyCachedBuffersLocked (removed : Framebuffer -> bool) (l : Z)
    (cachedLayerBuffers : LayerMap) (clean : FBList) (needCleanup : bool)
    : LayerMap * FBList * bool :=
  match cachedLayerBuffers !! l with
  | Some fbList =>
      let '(kept, clean', need') := spliceRemoved removed fbList clean needCleanup in
      (<[l := kept]> cachedLayerBuffers, clean', need')
  | None => (cachedLayerBuffers, clean, needCleanup)
  end.

(** [uncacheLayerBuffers], from the point where [removedBufferDescs] is
    built: the manager after the call, whether [mFlipDone] was signalled,
    and the return code. *)
Definition uncacheLayerBuffers (removed : Framebuffer -> bool) (l : Z) (m : Manager)
    : Manager * bool * Z :=
  let '(c1, clean1, need1) :=
    destroyCachedBuffersLocked removed l (mCachedLayerBuffers m) (mCleanBuffers m) false in
  let '(c2, clean2, need2) :=
    destroyCachedBuffersLocked removed l (mCachedSecureLayerBuffers m) clean1 need1 in
  ({| mDrmFd := mDrmFd m;
      mCachedLayerBuffers := c1;
      mCachedSecureLayerBuffers := c2;
      mCleanBuffers := clean2;
      mCachedLayersInuse := mCachedLayersInuse m;
      mCachedSecureLayersInuse := mCachedSecureLayersInuse m;
      mCacheShrinkPending := mCacheShrinkPending m;
      mCacheSecureShrinkPending := mCacheSecureShrinkPending m |},
   need2, NO_ERROR).

(** [destroyAllSecureBuffers]: the manager after the call, and whether
    [mFlipDone] was signalled. *)
Definition destroyAllSecureBuffers (m : Manager) : Manager * bool :=
  let m1 := destroyAllSecureBuffersLocked m in
  (m1, bool_decide (0 < length (mCleanBuffers m1))%nat).

(** Every framebuffer the manager holds: those of the buckets of the two
    caches and those on the reclaim list. *)
Definition flat (c : LayerMap) : FBList := concat (map snd (map_to_list c)).

Definition held (m : Manager) : FBList :=
  flat (mCachedLayerBuffers m) ++ flat (mCachedSecureLayerBuffers m) ++ mCleanBuffers m.

(** No bucket of the manager holds more than one entry above its cap. *)
Definition bounded {plat : Platform} (m : Manager) : Prop :=
  (forall l b, mCachedLayerBuffers m !! l = Some b ->
     (length b <= MAX_CACHED_BUFFERS_PER_LAYER + 1)%nat) /\
  (forall l b, mCachedSecureLayerBuffers m !! l = Some b ->
     (length b <= MAX_CACHED_SECURE_BUFFERS_PER_LAYER + 1)%nat).

(** The handles a stretch of the trace imported, and those it closed. *)
Definition importedHandles (t : list KernelCall) : list Z :=
  omap (fun c => match c with CallPrimeFDToHandle _ _ h => Some h | _ => None end) t.

Definition closedHandles (t : list KernelCall) : list Z :=
  omap (fun c => match c with CallGemClose h _ => Some h | _ => None end) t.

End FramebufferReclaim.

(** ** Display interface: observations on the log of calls *)

Module DisplayLog.
Import DisplayInterface.

Definition isAckCallback (e : Event) : bool :=
  match e with CallAckCallback _ => true | _ => false end.

Definition isSetVBlankOffDelay (e : Event) : bool :=
  match e with CallSetVBlankOffDelay _ => true | _ => false end.

Definition createdBlobs (l : list Event) : list Z :=
  omap (fun e => match e with
                 | CallCreatePropertyBlob _ ret blob =>
                     if (ret =? 0) && negb (blob =? 0) then Some blob else None
                 | _ => None
                 end) l.

Definition destroyedBlobs (l : list Event) : list Z :=
  omap (fun e => match e with CallDestroyPropertyBlob blob => Some blob | _ => None end) l.

(** A step of the interface that keeps the mode states and the
    resolution-switch flag, and logs neither an acknowledgement nor a change
    of the vblank-off delay. *)
Definition plainStep {K MS : Type} (d d' : Interface K MS) : Prop :=
  mActiveModeState d' = mActiveModeState d /\
  mDesiredModeState d' = mDesiredModeState d /\
  mIsResolutionSwitchInProgress d' = mIsResolutionSwitchInProgress d /\
  exists evs, log d' = log d ++ evs /\
    List.filter isAckCallback evs = [] /\
    List.filter isSetVBlankOffDelay evs = [].

Definition isAtomicCommit (e : Event) : bool :=
  match e with CallAtomicCommit _ _ _ => true | _ => false end.

(** An event that neither creates nor destroys a property blob. *)
Definition noBlobEvent (e : Event) : bool :=
  match e with
  | CallCreatePropertyBlob _ _ _ | CallDestroyPropertyBlob _ => false
  | _ => true
  end.

(** An event that is neither about a blob nor a commit. *)
Definition calm (e : Event) : bool := noBlobEvent e && negb (isAtomicCommit e).

(** An event that reaches the kernel's atomic interface. *)
Definition isAtomicCall (e : Event) : bool := isAtomicAddProperty e || isAtomicCommit e.

(** A step that keeps both mode states, does not start a resolution switch,
    and logs only events that [ok] accepts. *)
Definition step {K MS : Type} (ok : Event -> bool) (d d' : Interface K MS) : Prop :=
  mActiveModeState d' = mActiveModeState d /\
  mDesiredModeState d' = mDesiredModeState d /\
  (mIsResolutionSwitchInProgress d' = true -> mIsResolutionSwitchInProgress d = true) /\
  exists evs, log d' = log d ++ evs /\ forallb ok evs = true.

End DisplayLog.

(** ** Further concrete states, for the examples of the later sections *)

Module Scenes.
Import FramebufferManager DisplayInterface.

(** Buffer [B1] on a rounded-corner layer: format 1 does not map to
    [DRM_FORMAT_C8] on the example platform. *)
Definition configRcd : exynos_win_config_data :=
  {| state := WIN_STATE_RCD; src_f_w := 1080; src_f_h := 2400;
     dst_w := 1080; dst_h := 2400; format := 1;
     compression_type := COMP_TYPE_NONE; compression_modifier := 0;
     comp_src := DPP_COMP_SRC_NONE; fd_idma := [5; -1; -1];
     buffer_id := 7; layer := Demo.L1; protection := false |}.

(** [L1] after buffer [B1] was cached on top of a bucket that was at its
    limit: the bucket holds three entries, one more than the limit. *)
Definition worldOverCap : World Demo.Kernel :=
  (Demo.request Demo.configB1 Demo.worldAtCap).1.

(** Layer [L1] asks for another buffer, [B9] (id 9, RGBA, not secure). *)
Definition configB9 : exynos_win_config_data :=
  {| state := WIN_STATE_BUFFER; src_f_w := 1080; src_f_h := 2400;
     dst_w := 1080; dst_h := 2400; format := 1;
     compression_type := COMP_TYPE_NONE; compression_modifier := 0;
     comp_src := DPP_COMP_SRC_NONE; fd_idma := [6; -1; -1];
     buffer_id := 9; layer := Demo.L1; protection := false |}.

(** Two layers are cached, only [L1] was used for the last frame, and a
    shrink of the non-secure cache is pending. *)
Definition managerShrinking : Manager :=
  {| mDrmFd := 3;
     mCachedLayerBuffers := {[ Demo.L1 := [Demo.fbOf 20]; 8192 := [Demo.fbOf 22] ]};
     mCachedSecureLayerBuffers := ∅;
     mCleanBuffers := [];
     mCachedLayersInuse := {[ Demo.L1 ]}; mCachedSecureLayersInuse := ∅;
     mCacheShrinkPending := true; mCacheSecureShrinkPending := false |}.

(** A switch to 120 Hz is pending and its mode-set fence, 41, has not
    signalled; the last vsync came at one second, 16.6 ms after the one
    before it. *)
Definition pendingFence41 : ExynosVsyncCallback :=
  {| mVsyncTimeStamp := 1000000000; mVsyncPeriod := 16666666;
     mDesiredVsyncPeriod := 8333333; mModeSetFence := 41;
     mTransientDuration := 2 |}.

(** The same with no timestamp recorded since vsync was enabled, and the
    period the callback holds equal to the desired one. *)
Definition freshPendingFence41 : ExynosVsyncCallback :=
  {| mVsyncTimeStamp := 0; mVsyncPeriod := 8333333;
     mDesiredVsyncPeriod := 8333333; mModeSetFence := 41;
     mTransientDuration := 2 |}.

(** A 90 Hz mode of the resolution of [mode60]. *)
Definition mode90 : DrmMode :=
  {| mode_id := 3; h_display := 1920; v_display := 1080; te_period := 11111111 |}.

(** Mode 1 is active and nothing is pending, as in [stableAt60], but the CRTC
    has no [ACTIVE] property. *)
Definition noActiveProperty : Interface Demo.Device Demo.ModeState :=
  {| drm := Demo.deviceWith 0 false; log := []; modes := [Demo.mode60; mode90];
     mActiveModeState :=
       {| Demo.ms_mode := Demo.mode60; Demo.ms_blob_id := 7; Demo.ms_old_blob_id := 0 |};
     mDesiredModeState :=
       {| Demo.ms_mode := Demo.mode60; Demo.ms_blob_id := 0; Demo.ms_old_blob_id := 0 |};
     mIsResolutionSwitchInProgress := false;
     mVsyncCallback := Demo.idleCallback;
     mLastDumpDrmAtomicMessageTime := 0;
     crtc := 50; connector := 60;
     active_property := {| id := 0; current := 0 |};
     mode_property := {| id := 12; current := 0 |};
     crtc_id_property := {| id := 13; current := 0 |};
     configChangeCallback := false;
     mOperationRateManager := false |}.

(** Mode 1 is active and a switch to mode 2, under blob 70, is pending. *)
Definition pendingAt120 : Interface Demo.Device Demo.ModeState :=
  {| drm := Demo.deviceWith 0 false; log := []; modes := [Demo.mode60; Demo.mode120];
     mActiveModeState :=
       {| Demo.ms_mode := Demo.mode60; Demo.ms_blob_id := 7; Demo.ms_old_blob_id := 0 |};
     mDesiredModeState :=
       {| Demo.ms_mode := Demo.mode120; Demo.ms_blob_id := 70; Demo.ms_old_blob_id := 0 |};
     mIsResolutionSwitchInProgress := true;
     mVsyncCallback := Demo.idleCallback;
     mLastDumpDrmAtomicMessageTime := 0;
     crtc := 50; connector := 60;
     active_property := {| id := 11; current := 0 |};
     mode_property := {| id := 12; current := 0 |};
     crtc_id_property := {| id := 13; current := 0 |};
     configChangeCallback := false;
     mOperationRateManager := false |}.

End Scenes.

(** ** Display identification *)

Module Edid.

Definition HWC2_ERROR_BAD_PARAMETER : Z := 4.
Definition HWC2_ERROR_UNSUPPORTED : Z := 8.

(** Conversion to [uint8_t]. *)
Definition u8 (x : Z) : Z := x mod 256.

(** [memcpy(dst + off, src, n)] on arrays held as lists. *)
Definition memcpy (dst : list Z) (off : nat) (src : list Z) (n : nat) : list Z :=
  take off dst ++ take n src ++ drop (off + n) dst.

(** [std::accumulate] over bytes, from 0. *)
Definition accumulate (l : list Z) : Z := fold_left Z.add l 0.

(** The initialiser of [edid_buf] in [getDisplayFakeEdid], block by block:
    the header, the vendor and product block, the basic display parameters
    and chromaticity, the timings, and the four descriptor blocks, the last
    of which is followed by the number of extensions and the checksum. *)
Definition edid_header : list Z := [0x00; 0xFF; 0xFF; 0xFF; 0xFF; 0xFF; 0xFF; 0x00].

Definition edid_vendor : list Z :=
  [0x1C; 0xEC] ++ [0x00; 0x00] ++ repeat 0x00 4 ++ [0x01] ++ [0x00] ++ [0x01; 0x03].

Definition edid_display : list Z :=
  [0x80; 0x00; 0x00; 0x78]
  ++ [0xEE; 0xEE; 0x91; 0xA3; 0x54; 0x4C; 0x99; 0x26; 0x0F; 0x50; 0x54].

Definition edid_timings : list Z := repeat 0x00 3 ++ repeat 0x01 16.

Definition edid_descriptor1 : list Z := repeat 0x00 18.

Definition edid_descriptor2 : list Z :=
  [0x00; 0x00; 0x00; 0xFD; 0x00; 0x00; 0xC8; 0x00; 0xC8; 0x64; 0x00; 0x0A]
  ++ repeat 0x20 6.

(** The text of the third descriptor is "Common Panel" and a line feed. *)
Definition edid_descriptor3 : list Z :=
  [0x00; 0x00; 0x00; 0xFC; 0x00]
  ++ [0x43; 0x6F; 0x6D; 0x6D; 0x6F; 0x6E; 0x20; 0x50; 0x61; 0x6E; 0x65; 0x6C; 0x0A].

Definition edid_descriptor4 : list Z := [0x00; 0x00; 0x00; 0x10] ++ repeat 0x00 14.

Definition edid_buf0 : list Z :=
  edid_header ++ edid_vendor ++ edid_display ++ edid_timings
  ++ edid_descriptor1 ++ edid_descriptor2 ++ edid_descriptor3 ++ edid_descriptor4
  ++ [0x00] ++ [0x00].

Section Identification.

(** Constants and members that headers outside the source define: the
    default refresh rate, the monitor description of the display (a byte
    array), and the offsets of the manufacturer and product bytes of an
    EDID. *)
Variable kDefaultRefreshRateFrequency : Z.
Variable mMonitorDescription : list Z.
Variables kEDIDManufacturerIDByte1 kEDIDManufacturerIDByte2 : nat.
Variables kEDIDProductIDByte1 kEDIDProductIDByte2 : nat.

(** The buffer [edid_buf] of [getDisplayFakeEdid] after the clock, the
    resolution and the monitor description are stored and before the
    checksum is. [width] and [height] are [uint32_t], and so is the product
    that gives the clock. *)
Definition beforeChecksum (width height : Z) : list Z :=
  let clock := wrap32 (width * height * kDefaultRefreshRateFrequency) / 10000 in
  let b1 := <[55%nat := u8 (Z.shiftr clock 8)]> edid_buf0 in
  let b2 := <[56%nat := u8 (Z.land width 0xff)]> b1 in
  let b3 := <[58%nat := u8 (Z.land (Z.shiftr width 4) 0xf0)]> b2 in
  let b4 := <[59%nat := u8 (Z.land height 0xff)]> b3 in
  let b5 := <[61%nat := u8 (Z.land (Z.shiftr height 4) 0xf0)]> b4 in
  if negb (nth 0 mMonitorDescription 0 =? 0)
  then memcpy b5 95 mMonitorDescription (length mMonitorDescription)
  else b5.

(** The buffer [edid_buf] when it is copied out, the checksum stored. *)
Definition fakeEdid (width height : Z) : list Z :=
  let b6 := beforeChecksum width height in
  let sum := accumulate (take 127 b6) in
  <[127%nat := u8 (Z.land (0x100 - Z.land sum 0xFF) 0xFF)]> b6.

(** What a call leaves in its out-parameters: the port, the data size and,
    when the caller passed a buffer, the buffer. *)
Record Identification : Type := {
  outPort : Z;
  outDataSize : Z;
  outData : option (list Z)
}.

(** [getDisplayFakeEdid]: the return code and the out-parameters. [size] is
    the caller's [outDataSize], [data] the caller's buffer, if any. *)
Definition getDisplayFakeEdid (mXres mYres mDisplayId : Z) (size : Z)
    (data : option (list Z)) : Z * Identification :=
  let edid_buf := fakeEdid mXres mYres in
  match data with
  | Some buf =>
      let n := Z.min size (Z.of_nat (length edid_buf)) in
      (HWC2_ERROR_NONE,
       {| outPort := u8 mDisplayId; outDataSize := n;
          outData := Some (memcpy buf 0 edid_buf (Z.to_nat n)) |})
  | None =>
      (HWC2_ERROR_NONE,
       {| outPort := u8 mDisplayId; outDataSize := Z.of_nat (length edid_buf);
          outData := None |})
  end.

(** What [getDisplayIdentificationData] reads from its surroundings. *)
Record Surroundings : Type := {
  hasDevice : bool;
  hasConnector : bool;
  edid_property_id : Z;
  edid_property_value : Z * Z;
  propertyBlob : option (list Z);
  connector_id : Z;
  mXres : Z;
  mYres : Z;
  mDisplayId : Z
}.

(** [getDisplayIdentificationData]. [args] is [None] when [outPort] or
    [outDataSize] is a null pointer, and otherwise the caller's data size
    and buffer. The result is the return code, the out-parameters when they
    were written, and the manufacturer and product bytes when they were
    set. *)
Definition getDisplayIdentificationData (s : Surroundings)
    (args : option (Z * option (list Z)))
    : Z * option Identification * option (Z * Z * Z * Z) :=
  if negb (hasDevice s) || negb (hasConnector s) then (HWC2_ERROR_UNSUPPORTED, None, None)
  else if edid_property_id s =? 0 then (HWC2_ERROR_UNSUPPORTED, None, None)
  else
    match args with
    | None => (HWC2_ERROR_BAD_PARAMETER, None, None)
    | Some (size, data) =>
        let '(ret, blobId) := edid_property_value s in
        if negb (ret =? 0) then (HWC2_ERROR_UNSUPPORTED, None, None)
        else if blobId =? 0 then
          let '(code, out) := getDisplayFakeEdid (mXres s) (mYres s) (mDisplayId s) size data in
          (code, Some out, None)
        else
          match propertyBlob s with
          | None => (HWC2_ERROR_UNSUPPORTED, None, None)
          | Some blob =>
              match data with
              | Some buf =>
                  let n := Z.min size (Z.of_nat (length blob)) in
                  let buf' := memcpy buf 0 blob (Z.to_nat n) in
                  (HWC2_ERROR_NONE,
                   Some {| outPort := u8 (connector_id s); outDataSize := n;
                           outData := Some buf' |},
                   Some (nth kEDIDManufacturerIDByte1 buf' 0,
                         nth kEDIDManufacturerIDByte2 buf' 0,
                         nth kEDIDProductIDByte1 buf' 0,
                         nth kEDIDProductIDByte2 buf' 0))
              | None =>
                  (HWC2_ERROR_NONE,
                   Some {| outPort := u8 (connector_id s);
                           outDataSize := Z.of_nat (length blob);
                           outData := None |},
                   None)
              end
          end
    end.

End Identification.

(** The width (or height) that the bytes of a detailed timing descriptor
    spell: the low byte, and the high nibble of the byte two further on. *)
Definition decodeActive (edid : list Z) (lo : nat) : Z :=
  nth lo edid 0 + 256 * (nth (lo + 2) edid 0 / 16).

End Edid.

(** A panel of 1080x2400 whose EDID property holds no blob, asked for its
    identification with a buffer of sixteen bytes. *)
Module EdidScenes.
Import Edid.

Definition panel : Surroundings :=
  {| hasDevice := true; hasConnector := true; edid_property_id := 31;
     edid_property_value := (0, 0); propertyBlob := None; connector_id := 60;
     mXres := 1080; mYres := 2400; mDisplayId := 0 |}.

Definition description : list Z := [0x50; 0x69; 0x78; 0x65; 0x6C].

Definition callerBuffer : list Z := repeat 0xAA 16.

Definition identify : Z * option Identification * option (Z * Z * Z * Z) :=
  getDisplayIdentificationData 60 description 8 9 10 11 panel
    (Some (16, Some callerBuffer)).

Definition identified : Identification :=
  match identify.1.2 with
  | Some out => out
  | None => {| outPort := 0; outDataSize := 0; outData := None |}
  end.

End EdidScenes.

(** ** The full resolution of the panel *)

Module PanelResolution.
Import DisplayInterface.

(** The product of two [uint32_t] dimensions. *)
Definition area (h v : Z) : Z := wrap32 (h * v).

(** [retrievePanelFullResolution]: the loop over the modes of the connector,
    on the pair [mPanelFullResolutionHSize], [mPanelFullResolutionVSize]. *)
Definition retrievePanelFullResolution (modes : list DrmMode) (full : Z * Z) : Z * Z :=
  fold_left
    (fun '(hsize, vsize) it =>
       if area (h_display it) (v_display it) >? area hsize vsize
       then (h_display it, v_display it)
       else (hsize, vsize))
    modes full.

(** A dimension whose products with another one fit 32 bits. *)
Definition dimension (x : Z) : Prop := 0 <= x < 65536.

End PanelResolution.

(** ** The DRM connector *)

Module Connector.

Definition ENODEV : Z := 19.

(** Connector types. The table of [name] gives the values of all but the
    last, which the source defines itself. *)
Definition DRM_MODE_CONNECTOR_VGA : Z := 1.
Definition DRM_MODE_CONNECTOR_DVII : Z := 2.
Definition DRM_MODE_CONNECTOR_DVID : Z := 3.
Definition DRM_MODE_CONNECTOR_LVDS : Z := 7.
Definition DRM_MODE_CONNECTOR_DisplayPort : Z := 10.
Definition DRM_MODE_CONNECTOR_HDMIA : Z := 11.
Definition DRM_MODE_CONNECTOR_eDP : Z := 14.
Definition DRM_MODE_CONNECTOR_VIRTUAL : Z := 15.
Definition DRM_MODE_CONNECTOR_DSI : Z := 16.
Definition DRM_MODE_CONNECTOR_DPI : Z := 17.
Definition DRM_MODE_CONNECTOR_WRITEBACK : Z := 18.

Definition TYPES_COUNT : Z := 18.

(** [drmModeConnection] *)
Definition DRM_MODE_CONNECTED : Z := 1.
Definition DRM_MODE_DISCONNECTED : Z := 2.

(** Display types of the composer. *)
Definition HWC_DISPLAY_PRIMARY : Z := 0.
Definition HWC_DISPLAY_EXTERNAL : Z := 1.

(** [DrmMode] and [drmModeModeInfo] are declared outside the source: [M] is
    the former, [Info] the latter, and the class has the members and
    constants that [UpdateModes] uses. [sameMode] is [operator==] of a mode
    and a kernel mode, [fromInfo] the constructor of a mode from a kernel
    mode. [D] is the state behind [DrmDevice::next_mode_id]. *)
Class ModeOps (M Info D : Type) : Type := {
  mode_id : M -> Z;
  mode_type : M -> Z;
  set_id : Z -> M -> M;
  fromInfo : Info -> M;
  sameMode : M -> Info -> bool;
  info_type : Info -> Z;
  info_flags : Info -> Z;
  next_mode_id : D -> D * Z;
  DRM_MODE_TYPE_VRR : Z;
  DRM_MODE_TYPE_PREFERRED : Z;
  DRM_MODE_FLAG_TE_FREQ_X2 : Z;
  DRM_MODE_FLAG_TE_FREQ_X4 : Z
}.

(** The members of [DrmConnector] that the modelled methods use. *)
Record DrmConnector (M : Type) : Type := {
  id_ : Z;
  display_ : Z;
  type_ : Z;
  type_id_ : Z;
  state_ : Z;
  mm_width_ : Z;
  mm_height_ : Z;
  modes_ : list M;
  preferred_mode_id_ : Z
}.
Arguments id_ {M} _.
Arguments display_ {M} _.
Arguments type_ {M} _.
Arguments type_id_ {M} _.
Arguments state_ {M} _.
Arguments mm_width_ {M} _.
Arguments mm_height_ {M} _.
Arguments modes_ {M} _.
Arguments preferred_mode_id_ {M} _.

(** What [drmModeGetConnector] returns. *)
Record drmModeConnector (Info : Type) : Type := {
  connection : Z;
  mmWidth : Z;
  mmHeight : Z;
  modes : list Info
}.
Arguments connection {Info} _.
Arguments mmWidth {Info} _.
Arguments mmHeight {Info} _.
Arguments modes {Info} _.

Section Methods.
Context {M Info D : Type} {ops : ModeOps M Info D}.

(** [DrmConnector::internal] *)
Definition internal (c : DrmConnector M) : bool :=
  (type_ c =? DRM_MODE_CONNECTOR_LVDS) || (type_ c =? DRM_MODE_CONNECTOR_eDP)
  || (type_ c =? DRM_MODE_CONNECTOR_DSI)
  || (type_ c =? DRM_MODE_CONNECTOR_VIRTUAL) || (type_ c =? DRM_MODE_CONNECTOR_DPI).

(** [DrmConnector::external] *)
Definition external (c : DrmConnector M) : bool :=
  (type_ c =? DRM_MODE_CONNECTOR_HDMIA)
  || (type_ c =? DRM_MODE_CONNECTOR_DisplayPort)
  || (type_ c =? DRM_MODE_CONNECTOR_DVID) || (type_ c =? DRM_MODE_CONNECTOR_DVII)
  || (type_ c =? DRM_MODE_CONNECTOR_VGA).

(** [DrmConnector::writeback] *)
Definition writeback (c : DrmConnector M) : bool :=
  type_ c =? DRM_MODE_CONNECTOR_WRITEBACK.

(** [DrmConnector::valid_type] *)
Definition valid_type (c : DrmConnector M) : bool :=
  internal c || external c || writeback c.

Definition names : list string :=
  ["None"; "VGA"; "DVI-I"; "DVI-D"; "DVI-A"; "Composite";
   "SVIDEO"; "LVDS"; "Component"; "DIN"; "DP"; "HDMI-A";
   "HDMI-B"; "TV"; "eDP"; "Virtual"; "DSI"; "DPI"]%string.

(** [DrmConnector::name] *)
Definition name (c : DrmConnector M) : string :=
  if type_ c <? TYPES_COUNT
  then (nth (Z.to_nat (type_ c)) names "" ++ "-" ++ pretty (type_id_ c))%string
  else "None"%string.

(** The accumulator of the loop of [UpdateModes]: the device state, the
    new modes, whether a preferred mode was found, and the preferred id. *)
Record Scan : Type := {
  drm : D;
  new_modes : list M;
  preferred_mode_found : bool;
  preferred : Z
}.

(** The end of the loop body: only the first preferred mode is used. *)
Definition notePreferred (a : Scan) : Scan :=
  match last (new_modes a) with
  | Some back =>
      if negb (preferred_mode_found a)
         && negb (Z.land (mode_type back) DRM_MODE_TYPE_PREFERRED =? 0)
      then {| drm := drm a; new_modes := new_modes a;
              preferred_mode_found := true; preferred := mode_id back |}
      else a
  | None => a
  end.

(** One turn of the loop of [UpdateModes], for the kernel mode [info]. *)
Definition scanMode (use_vrr_mode : bool) (c : DrmConnector M) (a : Scan) (info : Info)
    : Scan :=
  match List.find (fun mode => sameMode mode info) (modes_ c) with
  | Some mode =>
      notePreferred {| drm := drm a; new_modes := new_modes a ++ [mode];
                       preferred_mode_found := preferred_mode_found a;
                       preferred := preferred a |}
  | None =>
      let is_vrr_mode := negb (Z.land (info_type info) DRM_MODE_TYPE_VRR =? 0) in
      if xorb use_vrr_mode is_vrr_mode
         || (negb (external c) && is_vrr_mode
             && (negb (Z.land (info_flags info) DRM_MODE_FLAG_TE_FREQ_X2 =? 0)
                 || negb (Z.land (info_flags info) DRM_MODE_FLAG_TE_FREQ_X4 =? 0)))
      then a
      else
        let '(d, fresh) := next_mode_id (drm a) in
        notePreferred {| drm := d;
                         new_modes := new_modes a ++ [set_id fresh (fromInfo info)];
                         preferred_mode_found := preferred_mode_found a;
                         preferred := preferred a |}
  end.

(** [DrmConnector::UpdateModes]. [got] is what [drmModeGetConnector]
    returns for the connector, [None] for a null pointer. *)
Definition UpdateModes (use_vrr_mode : bool) (got : option (drmModeConnector Info))
    (d : D) (c : DrmConnector M) : D * DrmConnector M * Z :=
  match got with
  | None => (d, c, - ENODEV)
  | Some k =>
      if (state_ c =? DRM_MODE_CONNECTED) && (connection k =? DRM_MODE_CONNECTED)
         && (0 <? length (modes_ c))%nat
      then (d, c, 0)
      else if (state_ c =? DRM_MODE_DISCONNECTED)
              && (connection k =? DRM_MODE_DISCONNECTED)
              && (length (modes_ c) =? 0)%nat
      then (d, c, 0)
      else
        let a := fold_left (scanMode use_vrr_mode c) (modes k)
                   {| drm := d; new_modes := []; preferred_mode_found := false;
                      preferred := preferred_mode_id_ c |} in
        let pref :=
          if negb (preferred_mode_found a) && negb (length (new_modes a) =? 0)%nat
          then match new_modes a with
               | first :: _ => mode_id first
               | [] => preferred a
               end
          else preferred a in
        (drm a,
         {| id_ := id_ c; display_ := display_ c; type_ := type_ c; type_id_ := type_id_ c;
            state_ := connection k; mm_width_ := mmWidth k; mm_height_ := mmHeight k;
            modes_ := new_modes a; preferred_mode_id_ := pref |},
         1)
  end.

(** [ExynosDisplayDrmInterface::getDrmDisplayId], over the connectors of
    the device. [type] and [index] are [uint32_t]; the display of a
    connector is an [int], which the comparison with [index] converts. *)
Fixpoint getDrmDisplayId (type index : Z) (connectors : list (DrmConnector M)) : Z :=
  match connectors with
  | [] => -1
  | conn :: rest =>
      if ((type =? HWC_DISPLAY_PRIMARY) && internal conn
          && (index =? wrap32 (display_ conn)))
         || ((type =? HWC_DISPLAY_EXTERNAL) && external conn)
      then display_ conn
      else getDrmDisplayId type index rest
  end.

End Methods.

Section Observations.
Context {M Info D : Type} {ops : ModeOps M Info D}.

(** Once a preferred mode is found, its id is the id of a new mode. *)
Definition preferredListed (a : @Scan M D) : Prop :=
  preferred_mode_found a = true -> preferred a ∈ map mode_id (new_modes a).

(** Where the modes that a scan of [infos] adds come from: a mode the
    connector had, which a scanned mode equals, or a mode built from a
    scanned mode that equals none the connector had. *)
Definition fromScan (c : DrmConnector M) (infos : list Info) (m : M) : Prop :=
  (m ∈ modes_ c /\ exists info, info ∈ infos /\ sameMode m info = true)
  \/ (exists info fresh, info ∈ infos /\ m = set_id fresh (fromInfo info)
        /\ List.find (fun mode => sameMode mode info) (modes_ c) = None).

End Observations.

End Connector.

(** A small instance of the mode interface, for the examples: a mode is its
    id, its type bits and its refresh rate; a kernel mode is its type bits,
    its flags and its refresh rate; two are equal when type and rate agree;
    the device numbers new modes in sequence. *)
Module ConnectorScenes.
Import Connector.

Record Mode : Type := { m_id : Z; m_type : Z; m_rate : Z }.
Record ModeInfo : Type := { i_type : Z; i_flags : Z; i_rate : Z }.

Definition modeOps : ModeOps Mode ModeInfo Z := {|
  mode_id := m_id;
  mode_type := m_type;
  set_id n m := {| m_id := n; m_type := m_type m; m_rate := m_rate m |};
  fromInfo i := {| m_id := 0; m_type := i_type i; m_rate := i_rate i |};
  sameMode m i := (m_type m =? i_type i) && (m_rate m =? i_rate i);
  info_type := i_type;
  info_flags := i_flags;
  next_mode_id d := (d + 1, d + 1);
  DRM_MODE_TYPE_VRR := 128;
  DRM_MODE_TYPE_PREFERRED := 8;
  DRM_MODE_FLAG_TE_FREQ_X2 := 2 ^ 20;
  DRM_MODE_FLAG_TE_FREQ_X4 := 2 ^ 21
|}.

(** A DSI panel that was disconnected while it still listed its 60 Hz mode
    under id 5. *)
Definition panel : DrmConnector Mode :=
  {| id_ := 60; display_ := 0; type_ := DRM_MODE_CONNECTOR_DSI; type_id_ := 1;
     state_ := DRM_MODE_DISCONNECTED; mm_width_ := 70; mm_height_ := 155;
     modes_ := [{| m_id := 5; m_type := 64; m_rate := 60 |}];
     preferred_mode_id_ := 5 |}.

(** The kernel reports the panel connected, with the 60 Hz mode and a
    preferred 120 Hz mode. *)
Definition reported : drmModeConnector ModeInfo :=
  {| connection := DRM_MODE_CONNECTED; mmWidth := 70; mmHeight := 155;
     modes := [{| i_type := 64; i_flags := 0; i_rate := 60 |};
               {| i_type := 72; i_flags := 0; i_rate := 120 |}] |}.

Definition updated : Z * DrmConnector Mode * Z :=
  @UpdateModes Mode ModeInfo Z modeOps false (Some reported) 10 panel.

End ConnectorScenes.

(** ** The histogram sampling call of the pixel display service *)

Module PixelDisplay.

Inductive HistogramErrorCode : Type :=
| NONE | BAD_ROI | BAD_WEIGHT | BAD_POSITION | BAD_PRIORITY
| ENABLE_HIST_ERROR | BAD_HIST_DATA | DRM_PLAYING | DISPLAY_POWEROFF
| OtherError (code : Z).

(** The enumerations are integers on the wire, so a caller can pass a value
    that is none of the declared ones. *)
Inductive HistogramPos : Type := POST | PRE | OtherPos (v : Z).
Inductive Priority : Type := NORMAL | PRIORITY | OtherPriority (v : Z).

Record RoiRect : Type := { left : Z; top : Z; right : Z; bottom : Z }.
Record Weight : Type := { weightR : Z; weightG : Z; weightB : Z }.

(** The histogram mediator, which is defined outside the source; [Md] is
    its state. [sameConfig] compares [mConfig] with a configuration,
    [setConfig] assigns it. *)
Class HistogramMediator (Md : Type) : Type := {
  sameConfig : Md -> RoiRect -> Weight -> HistogramPos -> bool;
  setConfig : Md -> RoiRect -> Weight -> HistogramPos -> Md;
  setRoiWeightThreshold : Md -> RoiRect -> Weight -> HistogramPos -> Md * HistogramErrorCode;
  histRequested : Md -> bool;
  requestHist : Md -> Md * HistogramErrorCode;
  collectRoiLuma : Md -> list Z -> Md * list Z * HistogramErrorCode;
  calRoi : Md -> RoiRect -> RoiRect;
  WEIGHT_SUM : Z
}.

(** What a call of [histogramSample] leaves: whether the binder status is
    ok, the error code if one was written, the caller's buffer, the
    mediator, and how often a refresh of the display was asked for. *)
Record Sampled (Md : Type) : Type := {
  statusOk : bool;
  aidl_return : option HistogramErrorCode;
  histogrambuffer : option (list Z);
  mMediator : Md;
  refreshes : nat
}.
Arguments statusOk {Md} _.
Arguments aidl_return {Md} _.
Arguments histogrambuffer {Md} _.
Arguments mMediator {Md} _.
Arguments refreshes {Md} _.

Section Sampling.
Context {Md : Type} {mediator : HistogramMediator Md}.

(** [Display::runMediator]: the mediator, the buffer, the refreshes asked
    for, and the result. *)
Definition runMediator (roi : RoiRect) (weight : Weight) (pos : HistogramPos)
    (buffer : list Z) (md : Md) : Md * list Z * nat * bool :=
  let isConfigChanged := negb (sameConfig md roi weight pos) in
  let configured :=
    if isConfigChanged then
      let '(md1, err) := setRoiWeightThreshold md roi weight pos in
      match err with
      | NONE => (setConfig md1 roi weight pos, true)
      | _ => (md1, false)
      end
    else (md, true) in
  let '(md2, ok) := configured in
  if negb ok then (md2, buffer, O, false)
  else
    let md3 := if negb (histRequested md2) then (requestHist md2).1 else md2 in
    let refreshed := if isConfigChanged then 1%nat else O in
    let '(md4, buffer', err) := collectRoiLuma md3 buffer in
    match err with
    | NONE => (md4, buffer', refreshed, true)
    | _ => (md4, buffer', refreshed, false)
    end.

(** The test of [histogramSample] on the region of interest; the
    subtractions are those of [int]. *)
Definition badRoi (roi : RoiRect) : bool :=
  (left roi <? 0) || (top roi <? 0) || (to_int32 (right roi - left roi) <=? 0)
  || (to_int32 (bottom roi - top roi) <=? 0).

(** The test on the weights; the additions are those of [int]. *)
Definition badWeight (weight : Weight) : bool :=
  negb (to_int32 (to_int32 (weightR weight + weightG weight) + weightB weight)
        =? WEIGHT_SUM).

Definition badPosition (pos : HistogramPos) : bool :=
  match pos with POST | PRE => false | OtherPos _ => true end.

Definition badPriority (pri : Priority) : bool :=
  match pri with NORMAL | PRIORITY => false | OtherPriority _ => true end.

(** [Display::histogramSample]. [hasDisplay] is whether [mDisplay] is set,
    [buffer] the caller's buffer ([None] for a null pointer),
    [isPowerModeOff] what the display answers, and [secureBefore] and
    [secureAfter] what it answers to the two calls of
    [isSecureContentPresenting], before and after the mediator runs. *)
Definition histogramSample (hasDisplay : bool) (isPowerModeOff : bool)
    (secureBefore secureAfter : bool) (roi : RoiRect) (weight : Weight)
    (pos : HistogramPos) (pri : Priority) (buffer : option (list Z)) (md : Md)
    : Sampled Md :=
  let answer code :=
    {| statusOk := true; aidl_return := Some code; histogrambuffer := buffer;
       mMediator := md; refreshes := O |} in
  if negb hasDisplay then
    {| statusOk := false; aidl_return := None; histogrambuffer := buffer;
       mMediator := md; refreshes := O |}
  else
    match buffer with
    | None => answer BAD_HIST_DATA
    | Some data =>
        if isPowerModeOff then answer DISPLAY_POWEROFF
        else if secureBefore then answer DRM_PLAYING
        else if badRoi roi then answer BAD_ROI
        else if badWeight weight then answer BAD_WEIGHT
        else if badPosition pos then answer BAD_POSITION
        else if badPriority pri then answer BAD_PRIORITY
        else
          let roiCaled := calRoi md roi in
          let '(md', data', asked, _) := runMediator roiCaled weight pos data md in
          if secureAfter then
            {| statusOk := true; aidl_return := Some DRM_PLAYING;
               histogrambuffer := Some []; mMediator := md'; refreshes := asked |}
          else
            {| statusOk := true; aidl_return := Some NONE;
               histogrambuffer := Some data'; mMediator := md'; refreshes := asked |}
    end.

End Sampling.

End PixelDisplay.

(** ** Applying a mode *)

Module ActiveMode.
Import DisplayInterface.

Definition DRM_MODE_ATOMIC_ALLOW_MODESET : Z := 0x0400.

(** Calls on the display and the connector that [setActiveDrmMode] and
    [setActiveConfig] make besides those of the interface log. *)
Inductive DisplayCall : Type :=
| CallResetLpMode
| CallGetLowPowerDrmModeModeInfo
| CallUpdateAppliedActiveConfig (config time : Z).

(** Two more members that a header outside the source defines. *)
Class ActiveModeOps (MS : Type) : Type := {
  clearPendingModeState : MS -> MS;
  setVsyncPeriod : Z -> ExynosVsyncCallback -> ExynosVsyncCallback
}.

(** The interface together with what else applying a mode reads and
    writes: [mSkipFrame] of the display, the active mode of the connector,
    and the calls above. *)
Record Display (K MS : Type) : Type := {
  iface : Interface K MS;
  mSkipFrame : bool;
  active_mode : DrmMode;
  calls : list DisplayCall
}.
Arguments iface {K MS} _.
Arguments mSkipFrame {K MS} _.
Arguments active_mode {K MS} _.
Arguments calls {K MS} _.

Section Methods.
Context {K MS : Type} {dev : DrmDevice K} {msops : ModeStateOps MS}
        {amops : ActiveModeOps MS}.

Definition withIface (x : Display K MS) (d : Interface K MS) : Display K MS :=
  {| iface := d; mSkipFrame := mSkipFrame x; active_mode := active_mode x;
     calls := calls x |}.

(** The interface with a new active mode state and vsync callback. *)
Definition setActive (d : Interface K MS) (active : MS) (cb : ExynosVsyncCallback)
    : Interface K MS :=
  {| DisplayInterface.drm := DisplayInterface.drm d; log := log d;
     DisplayInterface.modes := DisplayInterface.modes d;
     mActiveModeState := active;
     mDesiredModeState := mDesiredModeState d;
     mIsResolutionSwitchInProgress := mIsResolutionSwitchInProgress d;
     mVsyncCallback := cb;
     mLastDumpDrmAtomicMessageTime := mLastDumpDrmAtomicMessageTime d;
     crtc := crtc d; connector := connector d;
     active_property := active_property d;
     mode_property := mode_property d;
     crtc_id_property := crtc_id_property d;
     configChangeCallback := configChangeCallback d;
     mOperationRateManager := mOperationRateManager d |}.

(** [setActiveDrmMode]. The transaction [drmReq] is local to the call and
    destroyed on every return after its construction. *)
Definition setActiveDrmMode (m : DrmMode) (x : Display K MS) : Display K MS * Z :=
  let d := iface x in
  if negb (mSkipFrame x) && negb (blob_id (mActiveModeState d) =? 0)
     && (mode_id (mode (mActiveModeState d)) =? mode_id m)
     && negb (needsModeSet (mActiveModeState d))
  then (x, HWC2_ERROR_NONE)
  else
    let '(d1, (ret, modeBlob)) := createModeBlob m d in
    if negb (ret =? NO_ERROR) then (withIface x d1, HWC2_ERROR_BAD_CONFIG)
    else
      let drmReq := newDrmModeAtomicReq in
      let flags := DRM_MODE_ATOMIC_ALLOW_MODESET in
      let reconfig := isFullModeSwitch (mActiveModeState d1) m in
      let '(d2, drmReq1, ret1) := setDisplayMode drmReq modeBlob (mode_id m) d1 in
      if negb (ret1 =? NO_ERROR)
      then (withIface x (destroyOldBlobs (addOldBlob modeBlob drmReq1) d2), ret1)
      else
        let '(d3, drmReq2, ret2) := commit flags true drmReq1 d2 in
        if negb (ret2 =? 0)
        then (withIface x (destroyOldBlobs (addOldBlob modeBlob drmReq2) d3), ret2)
        else
          let '(active, drmReq3) := setMode (mActiveModeState d3) m modeBlob drmReq2 in
          let d4 := setActive d3 (clearPendingModeState active)
                      (setVsyncPeriod (te_period m) (mVsyncCallback d3)) in
          ({| iface := destroyOldBlobs drmReq3 d4;
              mSkipFrame := mSkipFrame x;
              active_mode := m;
              calls := if reconfig
                       then calls x ++ [CallResetLpMode; CallGetLowPowerDrmModeModeInfo]
                       else calls x |},
           HWC2_ERROR_NONE).

(** [setActiveConfig] *)
Definition setActiveConfig (config : Z) (x : Display K MS) : Display K MS * Z :=
  let d := iface x in
  match List.find (fun m => mode_id m =? config) (DisplayInterface.modes d) with
  | None => (x, HWC2_ERROR_BAD_CONFIG)
  | Some m =>
      let d1 :=
        if mOperationRateManager d
        then emit (DisplayInterface.drm d)
               [CallOperationRateOnConfig config; CallHandleTargetOperationRate] d
        else d in
      let '(k, now) := systemTime (DisplayInterface.drm d1) in
      let x1 := {| iface := emit k [] d1; mSkipFrame := mSkipFrame x;
                   active_mode := active_mode x;
                   calls := calls x ++ [CallUpdateAppliedActiveConfig config now] |} in
      ((setActiveDrmMode m x1).1, 0)
  end.

End Methods.

(** What a failed [setActiveDrmMode] leaves: the active mode state, the
    active mode of the connector and the calls as before, and no blob
    created since [x] that is not destroyed. *)
Definition failedCleanly {K MS : Type} (x x' : Display K MS) : Prop :=
  mActiveModeState (iface x') = mActiveModeState (iface x) /\
  active_mode x' = active_mode x /\
  calls x' = calls x /\
  exists evs, log (iface x') = log (iface x) ++ evs /\
    forall b, b ∈ DisplayLog.createdBlobs evs -> b ∈ DisplayLog.destroyedBlobs evs.

End ActiveMode.

(** A display whose kernel refuses every commit with [-EINVAL], for the
    examples; the two further members of the mode state are given the
    simplest reading. *)
Module ActiveScenes.
Import DisplayInterface ActiveMode.

Definition activeModeOps : ActiveModeOps Demo.ModeState := {|
  clearPendingModeState ms :=
    {| Demo.ms_mode := Demo.ms_mode ms; Demo.ms_blob_id := Demo.ms_blob_id ms;
       Demo.ms_old_blob_id := 0 |};
  setVsyncPeriod period cb :=
    {| mVsyncTimeStamp := mVsyncTimeStamp cb; mVsyncPeriod := period;
       mDesiredVsyncPeriod := mDesiredVsyncPeriod cb;
       mModeSetFence := mModeSetFence cb;
       mTransientDuration := mTransientDuration cb |}
|}.

Definition refusing : Display Demo.Device Demo.ModeState :=
  {| iface := Demo.stableAt60 (Demo.deviceWith (- EINVAL) false) [Demo.mode60; Demo.mode120];
     mSkipFrame := false; active_mode := Demo.mode60; calls := [] |}.

Definition applyMode (m : DrmMode) (x : Display Demo.Device Demo.ModeState)
    : Display Demo.Device Demo.ModeState * Z :=
  @setActiveDrmMode Demo.Device Demo.ModeState Demo.deviceOps Demo.modeStateOps
    activeModeOps m x.

Definition applyConfig (config : Z) (x : Display Demo.Device Demo.ModeState)
    : Display Demo.Device Demo.ModeState * Z :=
  @setActiveConfig Demo.Device Demo.ModeState Demo.deviceOps Demo.modeStateOps
    activeModeOps config x.

End ActiveScenes.

(** * Properties *)

(** ** The framebuffer cache *)

Section FramebufferManagerFacts.
Import FramebufferManager.
Context {K : Type} {kops : DrmKernel K} {plat : Platform}.

Lemma cacheOf_markInuse s l s' m :
  cacheOf s (markInuseLayerLocked l s' m) = cacheOf s m.
Proof. destruct s; reflexivity. Qed.

Lemma cacheOf_setCache s c m : cacheOf s (setCache s c m) = c.
Proof. destruct s; reflexivity. Qed.

Lemma cacheOf_setCache_other s c m : cacheOf (negb s) (setCache s c m) = cacheOf (negb s) m.
Proof. destruct s; reflexivity. Qed.

Lemma cacheOf_setCleanBuffers s c m : cacheOf s (setCleanBuffers c m) = cacheOf s m.
Proof. destruct s; reflexivity. Qed.

Lemma mCleanBuffers_setCache s c m : mCleanBuffers (setCache s c m) = mCleanBuffers m.
Proof. destruct s; reflexivity. Qed.

(** A step of the world that leaves the manager alone and creates no
    framebuffer. *)
Definition quiet (w w' : World K) : Prop :=
  fbm w' = fbm w /\
  exists evs, trace w' = trace w ++ evs /\ countCalls isAddFB2 evs = O.

Lemma countCalls_app p (a b : list KernelCall) :
  countCalls p (a ++ b) = (countCalls p a + countCalls p b)%nat.
Proof. unfold countCalls. rewrite List.filter_app, length_app. reflexivity. Qed.

Lemma quiet_refl w : quiet w w.
Proof. split; [reflexivity|]. exists []. rewrite app_nil_r. split; reflexivity. Qed.

Lemma quiet_trans w1 w2 w3 : quiet w1 w2 -> quiet w2 w3 -> quiet w1 w3.
Proof.
  intros [Hm1 (e1 & Ht1 & Hc1)] [Hm2 (e2 & Ht2 & Hc2)]. split.
  - congruence.
  - exists (e1 ++ e2). rewrite Ht2, Ht1, <- app_assoc, countCalls_app, Hc1, Hc2.
    split; reflexivity.
Qed.

Lemma quiet_setManager w w' m :
  quiet w w' -> quiet (setManager w m) (setManager w' m).
Proof. intros [_ Hq]. split; [reflexivity | exact Hq]. Qed.

Lemma getBufHandleFromFd_quiet fd w : quiet w (getBufHandleFromFd fd w).1.
Proof.
  unfold getBufHandleFromFd.
  destruct (drmPrimeFDToHandle (kernel w) fd) as [k [ret h]]. simpl.
  split; [reflexivity|]. eexists. split; reflexivity.
Qed.

Lemma freeBufHandle_quiet h w : quiet w (freeBufHandle h w).
Proof.
  unfold freeBufHandle. destruct (h =? 0); [apply quiet_refl|].
  destruct (drmIoctlGemClose (kernel w) h) as [k ret]. simpl.
  split; [reflexivity|]. eexists. split; reflexivity.
Qed.

Lemma freeBufHandles_quiet hs w : quiet w (freeBufHandles hs w).
Proof.
  unfold freeBufHandles. revert w.
  induction hs as [|h hs IH]; intros w; simpl; [apply quiet_refl|].
  eapply quiet_trans; [apply freeBufHandle_quiet | apply IH].
Qed.

Lemma importBuffers_quiet config bpp n i a w :
  quiet w (importBuffers config bpp n i a w).1.
Proof.
  revert i a w. induction n as [|n IH]; intros i a w; simpl; [apply quiet_refl|].
  pose proof (getBufHandleFromFd_quiet (nth i (fd_idma config) (-1)) w) as Hq.
  destruct (getBufHandleFromFd (nth i (fd_idma config) (-1)) w) as [w1 h].
  simpl in Hq. destruct (h =? 0); simpl; [exact Hq|].
  eapply quiet_trans; [exact Hq | apply IH].
Qed.

Lemma addFB2WithModifiers_spec st req fb0 w w' ret fb :
  addFB2WithModifiers st req fb0 w = (w', (ret, fb)) ->
  fbm w' = fbm w /\
  exists evs, trace w' = trace w ++ evs /\
    (countCalls isAddFB2 evs <= 1)%nat /\
    (ret = 0 -> countCalls isAddFB2 evs = 1%nat).
Proof.
  unfold addFB2WithModifiers.
  destruct (negb (validateLayerInfo st (req_format req) (req_handles req)
                    (req_modifiers req))).
  - intros [= <- <- <-]. split; [reflexivity|]. exists [].
    rewrite app_nil_r. split; [reflexivity|].
    split; [unfold countCalls; simpl; lia|]. unfold EINVAL. lia.
  - destruct (drmModeAddFB2WithModifiers (kernel w) req) as [k [r b]].
    intros [= <- <- <-]. simpl. split; [reflexivity|].
    eexists. split; [reflexivity|].
    split; [unfold countCalls; simpl; lia | reflexivity].
Qed.

(** [getBuffer] from the kernel call on: at most one creation call; a
    failure leaves the manager as it was; a success caches the framebuffer
    exactly when the configuration has a layer or a buffer id. *)
Lemma createAndCache_spec config bw bh fmt nbuf a w w' ret fb :
  createAndCache config bw bh fmt nbuf a w = (w', (ret, fb)) ->
  exists evs, trace w' = trace w ++ evs /\
    (countCalls isAddFB2 evs <= 1)%nat /\
    (ret <> 0 -> fbm w' = fbm w) /\
    (ret = 0 ->
       countCalls isAddFB2 evs = 1%nat /\
       fbm w' = if negb (layer config =? 0) || negb (buffer_id config =? 0)
                then cacheBuffer config bw bh fmt fb (fbm w) else fbm w).
Proof.
  unfold createAndCache.
  match goal with |- context [addFB2WithModifiers ?s ?r ?f ?w] =>
    destruct (addFB2WithModifiers s r f w) as [w1 [ret1 fb1]] eqn:Hadd end.
  apply addFB2WithModifiers_spec in Hadd as (Hm1 & e1 & Ht1 & Hle & Hone).
  pose proof (freeBufHandles_quiet (take nbuf (handles a)) w1)
    as (Hm2 & e2 & Ht2 & Hc2).
  set (w2 := freeBufHandles (take nbuf (handles a)) w1) in *.
  assert (Htr : trace w2 = trace w ++ (e1 ++ e2))
    by (rewrite Ht2, Ht1, <- app_assoc; reflexivity).
  assert (Hcnt : countCalls isAddFB2 (e1 ++ e2) = countCalls isAddFB2 e1)
    by (rewrite countCalls_app, Hc2; lia).
  destruct (ret1 =? 0) eqn:Hret; simpl.
  - apply Z.eqb_eq in Hret. subst ret1.
    destruct (negb (layer config =? 0) || negb (buffer_id config =? 0));
      intros [= <- <- <-]; exists (e1 ++ e2); simpl; rewrite Hcnt;
      (split; [exact Htr|]); (split; [exact Hle|]);
      (split; [congruence|]); intros _; (split; [auto|]); congruence.
  - apply Z.eqb_neq in Hret. intros [= <- <- <-]. exists (e1 ++ e2).
    rewrite Hcnt. split; [exact Htr|]. split; [exact Hle|].
    split; [intros _; congruence | intros; contradiction].
Qed.

(** What the insertion does to the owner's bucket and to the reclaim list;
    every other bucket, and the other cache, stay as they were. *)
Lemma cacheBuffer_spec config bw bh fmt fb m :
  let s := protection config in
  let old := bucketOf (cacheOf s m) (layer config) in
  let entry := {| drmFd := mDrmFd m; fbId := fb;
                  desc := identityFor config bw bh fmt |} in
  let m' := cacheBuffer config bw bh fmt fb m in
  cacheOf (negb s) m' = cacheOf (negb s) m /\
  (forall l, l <> layer config -> cacheOf s m' !! l = cacheOf s m !! l) /\
  (if bool_decide (capFor config < length old)%nat
   then bucketOf (cacheOf s m') (layer config) = [entry] /\
        mCleanBuffers m' = mCleanBuffers m ++ old
   else bucketOf (cacheOf s m') (layer config) = entry :: old /\
        mCleanBuffers m' = mCleanBuffers m).
Proof.
  intros s old entry m'. subst m'. unfold cacheBuffer, capFor.
  fold s. fold old. fold entry.
  replace (if negb s then MAX_CACHED_BUFFERS_PER_LAYER
           else MAX_CACHED_SECURE_BUFFERS_PER_LAYER)
    with (if s then MAX_CACHED_SECURE_BUFFERS_PER_LAYER
          else MAX_CACHED_BUFFERS_PER_LAYER) by (destruct s; reflexivity).
  set (cap := if s then MAX_CACHED_SECURE_BUFFERS_PER_LAYER
              else MAX_CACHED_BUFFERS_PER_LAYER).
  unfold bucketOf.
  destruct (bool_decide (cap < length old)%nat);
    rewrite ?cacheOf_setCache, ?cacheOf_setCache_other, ?mCleanBuffers_setCache,
      ?cacheOf_setCleanBuffers, ?cacheOf_markInuse;
    (split; [reflexivity|]);
    (split; [intros l Hl; rewrite lookup_insert_ne by congruence; reflexivity|]);
    rewrite lookup_insert_eq; split; reflexivity.
Qed.

(** The three ways a [getBuffer] call can go: the configuration is rejected
    before the lookup; the lookup hits; or the lookup misses and the call
    goes on to import the buffers and create a framebuffer. *)
Lemma getBuffer_outcome config fb0 w w' ret fb :
  getBuffer config fb0 w = (w', (ret, fb)) ->
  let m1 := markInuseLayerLocked (layer config) (protection config) (fbm w) in
  (lookupIdentity config = None /\ w' = w /\ ret = - EINVAL /\ fb = fb0)
  \/ (exists d, lookupIdentity config = Some d /\ cachedFbId config (fbm w) <> 0 /\
        w' = setManager w m1 /\ ret = NO_ERROR /\ fb = cachedFbId config (fbm w))
  \/ (exists d, lookupIdentity config = Some d /\ cachedFbId config (fbm w) = 0 /\
        exists evs, trace w' = trace w ++ evs /\
          (countCalls isAddFB2 evs <= 1)%nat /\
          (ret <> 0 -> fbm w' = m1) /\
          (ret = 0 -> countCalls isAddFB2 evs = 1%nat /\
             exists bw bh fmt, identityFor config bw bh fmt = d /\
               fbm w' = if negb (layer config =? 0) || negb (buffer_id config =? 0)
                        then cacheBuffer config bw bh fmt fb m1 else m1)).
Proof.
  intros Hget m1.
  assert (Hbuf :
    state config = WIN_STATE_BUFFER \/ state config = WIN_STATE_RCD \/
    state config = WIN_STATE_COLOR \/
    (state config = WIN_STATE_CURSOR \/ state config = WIN_STATE_OTHER))
    by (destruct (state config); auto).
  unfold getBuffer, lookupIdentity, cachedFbId, lookupIdentity in *.
  destruct Hbuf as [Hs | [Hs | [Hs | Hs]]].
  4: { left. destruct Hs as [Hs | Hs]; rewrite Hs in *;
       injection Hget as <- <- <-; auto. }
  3: { rewrite Hs in *. unfold findCachedFbId in Hget.
       rewrite cacheOf_markInuse in Hget. fold m1 in Hget.
       set (hit := firstMatch (SolidColorDesc (dst_w config) (dst_h config))
                     (bucketOf (cacheOf (protection config) (fbm w)) (layer config))) in *.
       destruct (hit =? 0) eqn:Hhit; simpl in Hget.
       - apply Z.eqb_eq in Hhit. right. right. eexists. split; [reflexivity|].
         split; [exact Hhit|].
         apply createAndCache_spec in Hget as (evs & Ht & Hle & Hfail & Hok).
         exists evs. simpl in *. split; [exact Ht|]. split; [exact Hle|].
         split; [exact Hfail|]. intros Hr. destruct (Hok Hr) as [Hc Hm].
         split; [exact Hc|]. eexists _, _, _. split; [|exact Hm].
         unfold identityFor. rewrite Hs. reflexivity.
       - apply Z.eqb_neq in Hhit. right. left. eexists. split; [reflexivity|].
         injection Hget as <- <- <-. auto. }
  all: rewrite Hs in *;
    destruct (halFormatToExynosFormat (format config) (compression_type config))
      as [ef|]; [|left; injection Hget as <- <- <-; auto];
    destruct (drmFormat ef =? DRM_FORMAT_UNDEFINED);
      [left; injection Hget as <- <- <-; auto|];
    destruct (bool_decide (bufferNum ef = O));
      [left; injection Hget as <- <- <-; auto|];
    destruct (bool_decide (planeNum ef = O));
      [left; injection Hget as <- <- <-; auto|];
    destruct (bool_decide (MAX_PLANE_NUM < planeNum ef)%nat);
      [left; injection Hget as <- <- <-; auto|];
    simpl orb in *; cbv iota in *;
    unfold findCachedFbId in Hget; rewrite cacheOf_markInuse in Hget;
    fold m1 in Hget;
    set (hit := firstMatch (BufferDesc (buffer_id config) (drmFormat ef)
                              (protection config))
                  (bucketOf (cacheOf (protection config) (fbm w)) (layer config))) in *;
    destruct (hit =? 0) eqn:Hhit; simpl negb in Hget; cbv iota in Hget;
    [ apply Z.eqb_eq in Hhit; right; right; eexists; split; [reflexivity|];
      split; [exact Hhit|];
      match type of Hget with
      | context [importBuffers ?c ?b ?n ?i ?a ?w0] =>
          pose proof (importBuffers_quiet c b n i a w0) as (Hqm & e0 & Hqt & Hqc);
          destruct (importBuffers c b n i a w0) as [w1 [a1|]]
      end; simpl in Hqm, Hqt;
      [ apply createAndCache_spec in Hget as (evs & Ht & Hle & Hfail & Hok);
        exists (e0 ++ evs); rewrite countCalls_app, Hqc; simpl;
        split; [rewrite Ht, Hqt, <- app_assoc; reflexivity|];
        split; [exact Hle|];
        split; [intros Hr; rewrite (Hfail Hr); exact Hqm|];
        intros Hr; destruct (Hok Hr) as [Hc Hm]; split; [exact Hc|];
        eexists _, _, _; split; [|rewrite Hm, Hqm; reflexivity];
        unfold identityFor; rewrite Hs; reflexivity
      | injection Hget as <- <- <-; exists e0; rewrite Hqc;
        split; [exact Hqt|]; split; [lia|];
        split; [intros _; exact Hqm|];
        unfold ENOMEM; intros Hr; discriminate Hr ]
    | apply Z.eqb_neq in Hhit; right; left; eexists; split; [reflexivity|];
      injection Hget as <- <- <-; auto ].
Qed.


Lemma mCleanBuffers_markInuse l s m :
  mCleanBuffers (markInuseLayerLocked l s m) = mCleanBuffers m.
Proof. reflexivity. Qed.

Lemma tracked_flag config :
  layer config <> 0 \/ buffer_id config <> 0 ->
  negb (layer config =? 0) || negb (buffer_id config =? 0) = true.
Proof.
  intros [Hl | Hb]; [apply Z.eqb_neq in Hl; rewrite Hl; reflexivity|].
  apply Z.eqb_neq in Hb. rewrite Hb. apply orb_true_r.
Qed.




(** C3, as amended: when a miss leads to an insertion, the owner's bucket is
    spliced onto the end of the reclaim list exactly when it already held
    more entries than the cap before the insertion; the new entry then is
    the only entry of the bucket. A bucket of at most cap entries is kept,
    with the new entry in front. *)
Theorem getBuffer_insert_splices_overfull_bucket config fb0 w w' fb :
  getBuffer config fb0 w = (w', (NO_ERROR, fb)) ->
  cachedFbId config (fbm w) = 0 ->
  layer config <> 0 \/ buffer_id config <> 0 ->
  let s := protection config in
  let old := bucketOf (cacheOf s (fbm w)) (layer config) in
  exists entry,
    fbId entry = fb /\ lookupIdentity config = Some (desc entry) /\
    if bool_decide (capFor config < length old)%nat
    then bucketOf (cacheOf s (fbm w')) (layer config) = [entry] /\
         mCleanBuffers (fbm w') = mCleanBuffers (fbm w) ++ old
    else bucketOf (cacheOf s (fbm w')) (layer config) = entry :: old /\
         mCleanBuffers (fbm w') = mCleanBuffers (fbm w).
Proof.
  intros Hget Hmiss Htracked s old.
  apply getBuffer_outcome in Hget
    as [(_ & _ & Hret & _) | [(d & _ & Hhit & _) | (d & Hd & _ & Hrest)]].
  - discriminate Hret.
  - contradiction.
  - destruct Hrest as (evs & _ & _ & _ & Hok).
    destruct (Hok eq_refl) as (_ & bw & bh & fmt & Hid & Hm).
    rewrite tracked_flag in Hm by exact Htracked.
    pose proof (cacheBuffer_spec config bw bh fmt fb
                  (markInuseLayerLocked (layer config) (protection config) (fbm w)))
      as (_ & _ & Hb).
    cbv zeta in Hb. rewrite cacheOf_markInuse in Hb. rewrite <- Hm in Hb.
    exists {| drmFd := mDrmFd (fbm w); fbId := fb;
              desc := identityFor config bw bh fmt |}.
    split; [reflexivity|]. split; [simpl; congruence | exact Hb].
Qed.

(** C10: a successful creation for a configuration with neither a layer nor
    a buffer id leaves both caches and the reclaim list as they were, so the
    manager holds no reference to the new framebuffer; with a layer or a
    buffer id the new framebuffer is at the front of the owner's bucket. *)
Theorem getBuffer_caches_iff_tracked config fb0 w w' fb :
  getBuffer config fb0 w = (w', (NO_ERROR, fb)) ->
  cachedFbId config (fbm w) = 0 ->
  (layer config = 0 /\ buffer_id config = 0 ->
     mCachedLayerBuffers (fbm w') = mCachedLayerBuffers (fbm w) /\
     mCachedSecureLayerBuffers (fbm w') = mCachedSecureLayerBuffers (fbm w) /\
     mCleanBuffers (fbm w') = mCleanBuffers (fbm w)) /\
  (layer config <> 0 \/ buffer_id config <> 0 ->
     exists entry,
       fbId entry = fb /\ lookupIdentity config = Some (desc entry) /\
       head (bucketOf (cacheOf (protection config) (fbm w')) (layer config))
         = Some entry).
Proof.
  intros Hget Hmiss. split.
  - intros [Hl Hb].
    apply getBuffer_outcome in Hget
      as [(_ & _ & Hret & _) | [(d & _ & Hhit & _) | (d & Hd & _ & Hrest)]];
      [discriminate Hret | contradiction |].
    destruct Hrest as (evs & _ & _ & _ & Hok).
    destruct (Hok eq_refl) as (_ & bw & bh & fmt & _ & Hm).
    rewrite Hl, Hb in Hm. simpl in Hm. rewrite Hm. auto.
  - intros Htracked.
    apply getBuffer_outcome in Hget
      as [(_ & _ & Hret & _) | [(d & _ & Hhit & _) | (d & Hd & _ & Hrest)]];
      [discriminate Hret | contradiction |].
    destruct Hrest as (evs & _ & _ & _ & Hok).
    destruct (Hok eq_refl) as (_ & bw & bh & fmt & Hid & Hm).
    rewrite tracked_flag in Hm by exact Htracked.
    pose proof (cacheBuffer_spec config bw bh fmt fb
                  (markInuseLayerLocked (layer config) (protection config) (fbm w)))
      as (_ & _ & Hb).
    cbv zeta in Hb. rewrite <- Hm in Hb.
    exists {| drmFd := mDrmFd (fbm w); fbId := fb;
              desc := identityFor config bw bh fmt |}.
    split; [reflexivity|]. split; [simpl; congruence|].
    destruct (bool_decide _) in Hb; destruct Hb as [-> _]; reflexivity.
Qed.

(** A failed [getBuffer] call leaves both caches and the reclaim list as
    they were. *)
Lemma getBuffer_failure_keeps_cache config fb0 w w' ret fb :
  getBuffer config fb0 w = (w', (ret, fb)) ->
  ret <> 0 ->
  mCachedLayerBuffers (fbm w') = mCachedLayerBuffers (fbm w) /\
  mCachedSecureLayerBuffers (fbm w') = mCachedSecureLayerBuffers (fbm w) /\
  mCleanBuffers (fbm w') = mCleanBuffers (fbm w).
Proof.
  intros Hget Hret.
  apply getBuffer_outcome in Hget
    as [(_ & -> & _) | [(d & _ & _ & _ & Hok & _) | (d & _ & _ & Hrest)]].
  - auto.
  - contradiction.
  - destruct Hrest as (evs & _ & _ & Hfail & _). rewrite (Hfail Hret). auto.
Qed.

End FramebufferManagerFacts.
(** ** The framebuffer cache on the example platform *)

Section FramebufferManagerExamples.
Import FramebufferManager.

(** The scenario of the specification: [L1] requests [B1]; the miss creates
    framebuffer 101; the request of the next frame hits. *)
Example first_request_creates :
  (Demo.request Demo.configB1 Demo.world0).2 = (NO_ERROR, 101) /\
  countCalls isAddFB2 (trace Demo.world1) = 1%nat.
Proof. vm_compute. split; reflexivity. Qed.

Example second_request_hits :
  (Demo.request Demo.configB1 Demo.world1).2 = (NO_ERROR, 101) /\
  countCalls isAddFB2 (trace (Demo.request Demo.configB1 Demo.world1).1) = 1%nat.
Proof. vm_compute. split; reflexivity. Qed.



(** C3 at a bucket above its limit: [L1] holds three entries, the limit is
    two, and a miss on [B9] splices the three onto the reclaim list and
    leaves the new entry alone in the bucket. *)
Lemma getBuffer_insert_splices_overfull_bucket_witness :
  let w := Scenes.worldOverCap in
  let w' := (Demo.request Scenes.configB9 w).1 in
  let old := bucketOf (mCachedLayerBuffers (fbm w)) Demo.L1 in
  (MAX_CACHED_BUFFERS_PER_LAYER (Platform := Demo.platform) < length old)%nat /\
  exists entry,
    fbId entry = 102 /\
    lookupIdentity (plat := Demo.platform) Scenes.configB9 = Some (desc entry) /\
    bucketOf (mCachedLayerBuffers (fbm w')) Demo.L1 = [entry] /\
    mCleanBuffers (fbm w') = mCleanBuffers (fbm w) ++ old.
Proof.
  split; [vm_compute; lia|].
  destruct (@getBuffer_insert_splices_overfull_bucket Demo.Kernel Demo.kernelOps
              Demo.platform Scenes.configB9 0 Scenes.worldOverCap
              (Demo.request Scenes.configB9 Scenes.worldOverCap).1 102)
    as (entry & Hfb & Hd & Hb).
  - vm_compute. reflexivity.
  - vm_compute. reflexivity.
  - left. vm_compute. discriminate.
  - exists entry. split; [exact Hfb|]. split; [exact Hd|]. exact Hb.
Defined.

(** C3, counterexample: the bucket of [L1] holds exactly as many entries as
    the cap allows. The insertion takes it over the cap, to three entries;
    nothing is spliced onto the reclaim list. *)
Lemma getBuffer_at_cap_grows_past_cap :
  let w' := (Demo.request Demo.configB1 Demo.worldAtCap).1 in
  length (bucketOf (mCachedLayerBuffers (fbm Demo.worldAtCap)) Demo.L1)
    = MAX_CACHED_BUFFERS_PER_LAYER (Platform := Demo.platform) /\
  bucketOf (mCachedLayerBuffers (fbm w')) Demo.L1
    = [ {| drmFd := 3; fbId := 101; desc := BufferDesc 7 875708993 false |};
        Demo.fbOf 21; Demo.fbOf 20 ] /\
  mCleanBuffers (fbm w') = [].
Proof. vm_compute. split; [|split]; reflexivity. Qed.

Lemma getBuffer_caches_iff_tracked_witness :
  mCachedLayerBuffers (fbm (Demo.request Demo.configWriteback Demo.world0).1) = ∅ /\
  mCachedSecureLayerBuffers (fbm (Demo.request Demo.configWriteback Demo.world0).1) = ∅ /\
  mCleanBuffers (fbm (Demo.request Demo.configWriteback Demo.world0).1) = [].
Proof.
  apply (@getBuffer_caches_iff_tracked Demo.Kernel Demo.kernelOps Demo.platform
           Demo.configWriteback 0 Demo.world0
           (Demo.request Demo.configWriteback Demo.world0).1 101).
  - vm_compute. reflexivity.
  - vm_compute. reflexivity.
  - split; vm_compute; reflexivity.
Defined.

(** C7, the failing input: a frame of two buffers whose second descriptor
    does not resolve. [getBuffer] returns [-ENOMEM] after the two import
    calls; the handle it got for the first buffer is never closed. *)
Theorem getBuffer_import_failure_leaks_handle :
  let r := Demo.request Demo.configTwoBuffers Demo.world0 in
  r.2 = (- ENOMEM, 0) /\
  trace r.1 = [CallPrimeFDToHandle 5 0 1005; CallPrimeFDToHandle 9 (-9) 0] /\
  countCalls (isGemCloseOf 1005) (trace r.1) = O.
Proof. vm_compute. split; [|split]; reflexivity. Qed.

(** The sibling path: when it is the creation that fails, both imported
    handles are closed before [getBuffer] returns. *)
Example getBuffer_creation_failure_closes_handles :
  let r := Demo.request Demo.configTwoGoodBuffers Demo.worldOutOfMemory in
  r.2 = (- ENOMEM, 0) /\
  List.filter (fun c => negb (isAddFB2 c)) (trace r.1)
    = [CallPrimeFDToHandle 5 0 1005; CallPrimeFDToHandle 6 0 1006;
       CallGemClose 1005 0; CallGemClose 1006 0] /\
  fbm r.1 = fbm Demo.worldOutOfMemory.
Proof. vm_compute. split; [|split]; reflexivity. Qed.

End FramebufferManagerExamples.

(** ** Flip *)

Section FlipFacts.
Import FramebufferManager.

Lemma elem_of_inOrder (m : LayerMap) l bufs :
  (l, bufs) ∈ inOrder m <-> m !! l = Some bufs.
Proof.
  unfold inOrder. rewrite merge_sort_Permutation. apply elem_of_map_to_list.
Qed.

Lemma spliceBucket_keeps clean entry fb :
  fb ∈ clean \/ fb ∈ entry.2 -> fb ∈ spliceBucket clean entry.
Proof.
  unfold spliceBucket. destruct entry as [l bufs]. simpl.
  case_bool_decide as Hlen.
  - intros [Hin | Hin]; [exact Hin|].
    destruct bufs; [inversion Hin | discriminate Hlen].
  - rewrite elem_of_app. tauto.
Qed.

Lemma fold_spliceBucket_keeps entries clean fb :
  fb ∈ clean \/ (exists l bufs, (l, bufs) ∈ entries /\ fb ∈ bufs) ->
  fb ∈ fold_left spliceBucket entries clean.
Proof.
  revert clean. induction entries as [|e entries IH]; intros clean Hin; simpl.
  - destruct Hin as [Hin | (l & bufs & Hnil & _)]; [exact Hin | inversion Hnil].
  - apply IH. destruct Hin as [Hin | (l & bufs & Hel & Hin)].
    + left. apply spliceBucket_keeps. auto.
    + apply elem_of_cons in Hel as [<- | Hel].
      * left. apply spliceBucket_keeps. auto.
      * right. eauto.
Qed.

(** The loop of [destroyUnusedLayers] loses no framebuffer: what was on the
    reclaim list stays there, and a cached framebuffer is still in its
    bucket or has moved to the reclaim list. *)
Lemma fold_dropIfUnused_keeps inuse entries (c : LayerMap) clean :
  (forall l b bufs, (l, b) ∈ entries -> c !! l = Some bufs -> bufs = b) ->
  let r := fold_left (dropIfUnused inuse) entries (c, clean) in
  (forall fb, fb ∈ clean -> fb ∈ r.2) /\
  (forall l bufs fb, c !! l = Some bufs -> fb ∈ bufs ->
     r.1 !! l = Some bufs \/ fb ∈ r.2).
Proof.
  revert c clean.
  induction entries as [|[l0 b0] entries IH]; intros c clean Hcons; simpl.
  - auto.
  - change (dropIfUnused inuse (c, clean) (l0, b0))
      with (if bool_decide (l0 ∈ inuse) then (c, clean)
            else (delete l0 c, clean ++ b0)).
    case_bool_decide as Hin.
    + apply IH. intros l b bufs Hel. apply Hcons. right. exact Hel.
    + destruct (IH (delete l0 c) (clean ++ b0)) as [Hclean Hcache].
      { intros l b bufs Hel Hl. apply (Hcons l b bufs); [right; exact Hel|].
        apply lookup_delete_Some in Hl as [_ Hl]. exact Hl. }
      split.
      * intros fb Hfb. apply Hclean. apply elem_of_app. auto.
      * intros l bufs fb Hl Hfb. destruct (decide (l = l0)) as [-> | Hne].
        -- right. apply Hclean. apply elem_of_app. right.
           rewrite <- (Hcons l0 b0 bufs); [exact Hfb | left | exact Hl].
        -- apply (Hcache l bufs fb); [|exact Hfb].
           rewrite lookup_delete_ne by congruence. exact Hl.
Qed.

Lemma destroyUnusedLayers_keeps pending inuse (c : LayerMap) clean :
  let r := destroyUnusedLayers pending inuse c clean in
  (forall fb, fb ∈ clean -> fb ∈ r.1.2) /\
  (forall l bufs fb, c !! l = Some bufs -> fb ∈ bufs ->
     r.1.1.2 !! l = Some bufs \/ fb ∈ r.1.2).
Proof.
  unfold destroyUnusedLayers.
  destruct (negb pending || bool_decide (size inuse = size c)); simpl; [auto|].
  apply fold_dropIfUnused_keeps.
  intros l b bufs Hel Hl. apply elem_of_inOrder in Hel. congruence.
Qed.

Lemma destroyUnusedLayersLocked_keeps_secure m l bufs fb :
  mCachedSecureLayerBuffers m !! l = Some bufs -> fb ∈ bufs ->
  mCachedSecureLayerBuffers (destroyUnusedLayersLocked m) !! l = Some bufs
  \/ fb ∈ mCleanBuffers (destroyUnusedLayersLocked m).
Proof.
  intros Hl Hfb. unfold destroyUnusedLayersLocked.
  destruct (destroyUnusedLayers (mCacheShrinkPending m) (mCachedLayersInuse m)
              (mCachedLayerBuffers m) (mCleanBuffers m))
    as [[[inuse1 c1] clean1] b1].
  pose proof (destroyUnusedLayers_keeps (mCacheSecureShrinkPending m)
                (mCachedSecureLayersInuse m) (mCachedSecureLayerBuffers m) clean1)
    as [_ Hcache].
  destruct (destroyUnusedLayers (mCacheSecureShrinkPending m)
              (mCachedSecureLayersInuse m) (mCachedSecureLayerBuffers m) clean1)
    as [[[inuse2 c2] clean2] b2].
  simpl in *. eauto.
Qed.

(** C2: after [flip] for a frame without secure content the secure cache
    has no bucket left, whatever it held, and every framebuffer it held is
    on the reclaim list. *)
Theorem flip_without_secure_content_empties_secure_cache m :
  mCachedSecureLayerBuffers (flip false m).1 = ∅ /\
  forall l bufs fb,
    mCachedSecureLayerBuffers m !! l = Some bufs -> fb ∈ bufs ->
    fb ∈ mCleanBuffers (flip false m).1.
Proof.
  unfold flip. simpl. split; [reflexivity|].
  intros l bufs fb Hl Hfb. apply fold_spliceBucket_keeps.
  destruct (destroyUnusedLayersLocked_keeps_secure m l bufs fb Hl Hfb) as [Hc | Hc].
  - right. exists l, bufs. split; [apply elem_of_inOrder; exact Hc | exact Hfb].
  - left. exact Hc.
Qed.

(** C8, as amended: [flip] signals [mFlipDone] exactly when the reclaim list
    is not empty once the call has done its evictions, whether the entries
    were put there by this call or were there before it. *)
Theorem flip_signals_iff_reclaim_list_nonempty hasSecureBuffer m :
  (flip hasSecureBuffer m).2 = true <->
  mCleanBuffers (flip hasSecureBuffer m).1 <> [].
Proof.
  unfold flip. simpl. rewrite bool_decide_eq_true.
  destruct (mCleanBuffers _); simpl; split; intros Hx; try lia; congruence.
Qed.

(** C8, counterexample: a framebuffer is already on the reclaim list and the
    frame evicts nothing. The list is the same after the call as before it,
    so it did not become non-empty through this call; [flip] signals all
    the same. *)
Lemma flip_signals_for_a_backlog :
  (flip true Demo.managerWithBacklog).2 = true /\
  mCleanBuffers (flip true Demo.managerWithBacklog).1
    = mCleanBuffers Demo.managerWithBacklog /\
  mCleanBuffers Demo.managerWithBacklog <> [].
Proof. vm_compute. split; [reflexivity|]. split; [reflexivity | discriminate]. Qed.

(** Two layers hold secure buffers where one is allowed: [checkShrink] marks
    the secure cache for shrinking, the frame uses [L1] only, and [flip]
    moves the bucket of the other layer to the reclaim list. *)
Example flip_shrinks_unused_secure_layer :
  let m1 := checkShrink (plat := Demo.platform) Demo.managerWithSecure in
  let m2 := markInuseLayerLocked Demo.L1 true m1 in
  mCacheSecureShrinkPending m1 = true /\
  mCachedSecureLayerBuffers (flip true m2).1
    = {[ Demo.L1 := [Demo.fbOf 31; Demo.fbOf 30] ]} /\
  mCleanBuffers (flip true m2).1 = [Demo.fbOf 32] /\
  (flip true m2).2 = true.
Proof. vm_compute. repeat split; reflexivity. Qed.

(** The same frame without secure content: every secure bucket goes, in the
    order of the layers. *)
Example flip_drops_secure_buckets_in_layer_order :
  mCleanBuffers (flip false Demo.managerWithSecure).1
    = [Demo.fbOf 31; Demo.fbOf 30; Demo.fbOf 32] /\
  mCachedLayerBuffers (flip false Demo.managerWithSecure).1
    = {[ Demo.L1 := [Demo.fbOf 20] ]}.
Proof. vm_compute. split; reflexivity. Qed.

(** [cleanup] of a layer moves its buckets of both caches to the reclaim
    list. *)
Example cleanup_moves_both_buckets :
  mCleanBuffers (cleanup Demo.L1 Demo.managerWithSecure)
    = [Demo.fbOf 20; Demo.fbOf 31; Demo.fbOf 30] /\
  mCachedLayerBuffers (cleanup Demo.L1 Demo.managerWithSecure) = ∅ /\
  mCachedSecureLayerBuffers (cleanup Demo.L1 Demo.managerWithSecure)
    = {[ 8192 := [Demo.fbOf 32] ]}.
Proof. vm_compute. repeat split; reflexivity. Qed.

End FlipFacts.

(** ** Transactions *)

Section TransactionFacts.
Import DisplayInterface.
Context {K MS : Type} {dev : DrmDevice K} {msops : ModeStateOps MS}.

(** C5, as amended: a write to an unsupported property fails with [-EINVAL]
    when it is required, whatever the value, and succeeds when it is
    optional; a write of the value the property already has succeeds when
    the property is supported or the write is optional. In all three cases
    the transaction and the log of calls are as before. *)
Theorem atomicAddProperty_unsupported_or_unchanged object property v optional r
    (d : Interface K MS) :
  (id property = 0 -> optional = false ->
     atomicAddProperty object property v optional r d = (d, r, - EINVAL)) /\
  (id property = 0 -> optional = true ->
     atomicAddProperty object property v optional r d = (d, r, NO_ERROR)) /\
  (v = current property -> id property <> 0 \/ optional = true ->
     atomicAddProperty object property v optional r d = (d, r, NO_ERROR)).
Proof.
  unfold atomicAddProperty, validateChange. split; [|split].
  - intros -> ->. reflexivity.
  - intros -> ->. reflexivity.
  - intros -> Hcase. rewrite Z.eqb_refl. simpl. rewrite andb_false_r.
    destruct Hcase as [Hid | ->].
    + apply Z.eqb_neq in Hid. rewrite Hid, andb_false_r. reflexivity.
    + reflexivity.
Qed.

(** What [commit] returns and records, by the result of the kernel: a
    [-EPERM] in the trusted UI gives [NO_ERROR] and leaves the transaction,
    its error included, as it was; any other negative result is recorded as
    the error of the transaction and returned; a result that is not negative
    is returned and nothing is recorded. *)
Lemma commit_result_and_error flags loggingForDebug r (d : Interface K MS) :
  let answer := drmModeAtomicCommit (drm d) (mPset r) flags in
  let out := commit flags loggingForDebug r d in
  (answer.2 = - EPERM -> IsDrmInTUI answer.1 = true ->
     out.2 = NO_ERROR /\ out.1.2 = r) /\
  (answer.2 < 0 -> ~ (answer.2 = - EPERM /\ IsDrmInTUI answer.1 = true) ->
     out.2 = answer.2 /\ mError out.1.2 = answer.2) /\
  (0 <= answer.2 -> out.2 = answer.2 /\ out.1.2 = r).
Proof.
  intros answer out. subst out answer. unfold commit.
  destruct (drmModeAtomicCommit (drm d) (mPset r) flags) as [k ret0].
  simpl fst. simpl snd.
  set (d1 := emit k [CallAtomicCommit (mPset r) flags ret0] d).
  change (drm d1) with k.
  split; [|split].
  - intros -> ->. rewrite Z.eqb_refl. split; reflexivity.
  - intros Hneg Hnot.
    assert (Hguard : (ret0 =? - EPERM) && IsDrmInTUI k = false).
    { destruct (ret0 =? - EPERM) eqn:He; [|reflexivity].
      apply Z.eqb_eq in He. destruct (IsDrmInTUI k); [|reflexivity].
      exfalso. apply Hnot. auto. }
    rewrite Hguard. apply Z.ltb_lt in Hneg. rewrite Hneg. split; reflexivity.
  - intros Hpos.
    assert (He : (ret0 =? - EPERM) = false) by (apply Z.eqb_neq; unfold EPERM; lia).
    assert (Hl : (ret0 <? 0) = false) by (apply Z.ltb_ge; lia).
    rewrite He, Hl. split; reflexivity.
Qed.

(** C4: [drmModeAtomicCommit] answers [0] or a negative error number. For
    every such answer, a [-EPERM] while the device is in the trusted UI is
    swallowed: [commit] returns [NO_ERROR] and the transaction, its error
    included, is as it was. Any other answer that is not zero is recorded as
    the error of the transaction and returned. *)
Theorem commit_protected_failure_swallowed flags loggingForDebug r (d : Interface K MS) :
  let answer := drmModeAtomicCommit (drm d) (mPset r) flags in
  let out := commit flags loggingForDebug r d in
  answer.2 <= 0 ->
  (answer.2 = - EPERM -> IsDrmInTUI answer.1 = true ->
     out.2 = NO_ERROR /\ out.1.2 = r) /\
  (answer.2 <> 0 -> ~ (answer.2 = - EPERM /\ IsDrmInTUI answer.1 = true) ->
     out.2 = answer.2 /\ mError out.1.2 = answer.2).
Proof.
  intros answer out Hle.
  destruct (commit_result_and_error flags loggingForDebug r d) as (Hswallow & Hneg & _).
  split.
  - exact Hswallow.
  - intros Hnz Hnot. apply Hneg; [|exact Hnot]. fold answer. lia.
Qed.

End TransactionFacts.

Section TransactionExamples.
Import DisplayInterface.

Lemma commit_protected_failure_swallowed_witness :
  let d := Demo.stableAt60 (Demo.deviceWith (- EPERM) true) [Demo.mode60; Demo.mode120] in
  let answer := @drmModeAtomicCommit _ Demo.deviceOps (drm d) (mPset newDrmModeAtomicReq) 0 in
  let out := Demo.commitOn (Demo.deviceWith (- EPERM) true) newDrmModeAtomicReq in
  (answer.2 = - EPERM -> @IsDrmInTUI _ Demo.deviceOps answer.1 = true ->
     out.2 = NO_ERROR /\ out.1.2 = newDrmModeAtomicReq) /\
  (answer.2 <> 0 ->
   ~ (answer.2 = - EPERM /\ @IsDrmInTUI _ Demo.deviceOps answer.1 = true) ->
     out.2 = answer.2 /\ mError out.1.2 = answer.2).
Proof.
  apply (@commit_protected_failure_swallowed Demo.Device Demo.ModeState Demo.deviceOps
           Demo.modeStateOps 0 false newDrmModeAtomicReq
           (Demo.stableAt60 (Demo.deviceWith (- EPERM) true) [Demo.mode60; Demo.mode120])).
  vm_compute. discriminate.
Defined.

Example commit_swallows_eperm_in_tui :
  let out := Demo.commitOn (Demo.deviceWith (- EPERM) true) newDrmModeAtomicReq in
  out.2 = NO_ERROR /\ mError out.1.2 = 0.
Proof. vm_compute. split; reflexivity. Qed.

Example commit_records_eperm_outside_tui :
  let out := Demo.commitOn (Demo.deviceWith (- EPERM) false) newDrmModeAtomicReq in
  out.2 = - EPERM /\ mError out.1.2 = - EPERM.
Proof. vm_compute. split; reflexivity. Qed.

Example commit_records_einval :
  let out := Demo.commitOn (Demo.deviceWith (- EINVAL) false) newDrmModeAtomicReq in
  out.2 = - EINVAL /\ mError out.1.2 = - EINVAL.
Proof. vm_compute. split; reflexivity. Qed.

(** C5, counterexample: a required write of the value the property already
    has, to a property the kernel does not support. The value is unchanged,
    and the call fails with [-EINVAL]. *)
Lemma atomicAddProperty_required_unchanged_value_fails :
  let property := {| id := 0; current := 5 |} in
  let out := Demo.addProperty 50 property 5 false newDrmModeAtomicReq in
  5 = current property /\ out.2 = - EINVAL /\ out.1.2 = newDrmModeAtomicReq.
Proof. vm_compute. repeat split; reflexivity. Qed.

Example addProperty_writes_a_changed_value :
  let out := Demo.addProperty 50 {| id := 11; current := 0 |} 1 false
               newDrmModeAtomicReq in
  out.2 = NO_ERROR /\
  mPset out.1.2 = [{| object_id := 50; property_id := 11; value := 1 |}].
Proof. vm_compute. split; reflexivity. Qed.

End TransactionExamples.

(** ** The vsync callback *)

Section VsyncFacts.
Import DisplayInterface.
Context {clock : FenceClock}.

Lemma to_int32_small x : - 2 ^ 31 <= x < 2 ^ 31 -> to_int32 x = x.
Proof. intros Hx. unfold to_int32. rewrite Z.mod_small; lia. Qed.

(** The period [Callback] works with: the distance to the previous
    timestamp, or the period it already had when there is no previous
    timestamp. *)
Lemma Callback_period timestamp cb :
  mVsyncPeriod (Callback timestamp cb).1 =
    if 0 <? mVsyncTimeStamp cb then timestamp - mVsyncTimeStamp cb
    else mVsyncPeriod cb.
Proof.
  unfold Callback. simpl.
  repeat match goal with |- context [if ?b then (_, _) else _] => destruct b end;
    reflexivity.
Qed.

(** C6, as amended: with no desired period pending the callback reports the
    switch as applied, whatever the timestamp. With a desired period pending
    it reports it as applied exactly when the observed period is within a
    fifth of the desired period of it, or the mode-set fence has a signal
    time that is neither invalid nor pending and the timestamp exceeds that
    signal time plus the observed period times the transient duration, less
    that fifth. The observed period is the distance to the previous
    timestamp and, when none was recorded, the period the callback already
    had. The pending case is stated where the fixed-width arithmetic of the
    code does not wrap: the fifth of the desired period and the difference
    of the desired and the observed period fit 32-bit signed integers, the
    timestamp is not before the previous one, and timestamps, periods and
    the bound of the timeout are not negative and below 2^63, where signed
    and unsigned 64-bit arithmetic agree. *)
Theorem Callback_applied_iff timestamp cb :
  let desired := mDesiredVsyncPeriod cb in
  let observed := if 0 <? mVsyncTimeStamp cb then timestamp - mVsyncTimeStamp cb
                  else mVsyncPeriod cb in
  let signalTime := getSignalTime (mModeSetFence cb) in
  (desired = 0 -> (Callback timestamp cb).2 = true) /\
  (0 < desired -> desired / 5 < 2 ^ 31 ->
   - 2 ^ 31 < desired - observed < 2 ^ 31 ->
   0 <= mVsyncTimeStamp cb <= timestamp -> timestamp < 2 ^ 63 ->
   0 <= mVsyncPeriod cb < 2 ^ 63 ->
   0 <= mTransientDuration cb ->
   (signalTime <> SIGNAL_TIME_INVALID -> signalTime <> SIGNAL_TIME_PENDING ->
    0 <= signalTime /\
    desired / 5 <= signalTime + observed * mTransientDuration cb < 2 ^ 63) ->
   ((Callback timestamp cb).2 = true <->
      Z.abs (desired - observed) < desired / 5
      \/ (signalTime <> SIGNAL_TIME_INVALID /\ signalTime <> SIGNAL_TIME_PENDING /\
          signalTime + observed * mTransientDuration cb - desired / 5 < timestamp))).
Proof.
  intros desired observed signalTime. split.
  { intros Hidle. unfold Callback. simpl. fold desired. rewrite Hidle. reflexivity. }
  intros Hpos Hmargin Hdiff _ _ _ _ _.
  unfold Callback. simpl. fold desired. fold observed. fold signalTime.
  rewrite Z.quot_div_nonneg by lia.
  rewrite (to_int32_small (desired / 5))
    by (split; [pose proof (Z.div_pos desired 5); lia | lia]).
  rewrite (to_int32_small (desired - observed)) by lia.
  destruct (desired =? 0) eqn:Hzero; [apply Z.eqb_eq in Hzero; lia|].
  destruct (Z.abs (desired - observed) <? desired / 5) eqn:Hnear.
  { apply Z.ltb_lt in Hnear. simpl. tauto. }
  apply Z.ltb_ge in Hnear.
  destruct (signalTime =? SIGNAL_TIME_INVALID) eqn:Hinv; simpl.
  { apply Z.eqb_eq in Hinv. split; [discriminate|].
    intros [? | (? & _)]; [lia | contradiction]. }
  apply Z.eqb_neq in Hinv.
  destruct (signalTime =? SIGNAL_TIME_PENDING) eqn:Hpend; simpl.
  { apply Z.eqb_eq in Hpend. split; [discriminate|].
    intros [? | (_ & ? & _)]; [lia | contradiction]. }
  apply Z.eqb_neq in Hpend.
  destruct (signalTime + observed * mTransientDuration cb - desired / 5 <? timestamp)
    eqn:Hlate; simpl.
  - apply Z.ltb_lt in Hlate. split; [auto|reflexivity].
  - apply Z.ltb_ge in Hlate. split; [discriminate|].
    intros [? | (_ & _ & ?)]; lia.
Qed.

End VsyncFacts.

Section VsyncExamples.
Import DisplayInterface.

(** The 120 Hz scenario of the specification: after two vsyncs 16.6 ms
    apart the third comes 8.3 ms after the second, and the switch is
    reported as applied. *)
Example third_vsync_applies :
  (Demo.onVsync 1016666666 Demo.pendingFence40).2 = false /\
  (Demo.onVsync 1024999999 (Demo.onVsync 1016666666 Demo.pendingFence40).1).2 = true.
Proof. vm_compute. split; reflexivity. Qed.

(** A gap of 2^32 ns plus the desired period between two vsyncs: the
    difference to the desired period is a multiple of 2^32, the cast to
    [int32_t] makes it zero, and the callback takes the period for the
    desired one. The theorem above leaves such gaps out. *)
Example vsync_gap_wraps_in_int32 :
  (Demo.onVsync (1000000000 + 2 ^ 32 + 8333333) Demo.pendingFence40).2 = true /\
  mVsyncPeriod (Demo.onVsync (1000000000 + 2 ^ 32 + 8333333) Demo.pendingFence40).1
    = 2 ^ 32 + 8333333.
Proof. vm_compute. split; reflexivity. Qed.

(** Without a mode-set fence there is no signal time and the callback does
    not time out: vsyncs 16.6 ms apart leave the switch to 120 Hz pending. *)
Example no_fence_no_timeout :
  (Demo.onVsync 1016666666 Demo.pendingNoFence).2 = false.
Proof. vm_compute. reflexivity. Qed.

Lemma Callback_applied_iff_witness :
  (Demo.onVsync 1008333333 Demo.pendingFence40).2 = true <->
    Z.abs (8333333 - 8333333) < 8333333 / 5
    \/ (1000000000 <> -1 /\ 1000000000 <> 2 ^ 63 - 1 /\
        1000000000 + 8333333 * 2 - 8333333 / 5 < 1008333333).
Proof.
  destruct (@Callback_applied_iff Demo.fenceClock 1008333333 Demo.pendingFence40)
    as [_ Hpending].
  apply Hpending.
  - vm_compute. reflexivity.
  - vm_compute. reflexivity.
  - vm_compute. split; reflexivity.
  - vm_compute. split; discriminate.
  - vm_compute. reflexivity.
  - vm_compute. split; [discriminate | reflexivity].
  - vm_compute. discriminate.
  - intros _ _. vm_compute. split; [discriminate|]. split; [discriminate | reflexivity].
Defined.

(** C6, counterexample: three inputs with a switch to 120 Hz pending on
    which the callback and the rule of the specification disagree.

    First, the fence signalled at one second, the previous period was
    16.6 ms and the vsync comes 40 ms after the previous one. The timestamp
    is past the bound taken with the previous period, so the specified rule
    holds; the callback takes the bound with the 40 ms it just observed and
    reports the switch as not applied.

    Second, no timestamp is recorded and the callback holds the desired
    period. The distance of the timestamp to zero is not near the desired
    period and the fence has not signalled, so the specified rule fails; the
    callback keeps the period it holds and reports the switch as applied.

    Third, the vsync comes 2^32 ns plus the desired period after the
    previous one and the fence has not signalled. The specified rule fails;
    the cast to [int32_t] makes the difference to the desired period zero
    and the callback reports the switch as applied. *)
Lemma Callback_differs_from_specified_rule :
  ((Demo.onVsync 1040000000 Demo.pendingFence40).2 = false /\
   specifiedApplied (clock := Demo.fenceClock) 1040000000 Demo.pendingFence40) /\
  ((Demo.onVsync 5000000000 Scenes.freshPendingFence41).2 = true /\
   ~ specifiedApplied (clock := Demo.fenceClock) 5000000000 Scenes.freshPendingFence41) /\
  ((Demo.onVsync (1000000000 + 2 ^ 32 + 8333333) Scenes.pendingFence41).2 = true /\
   ~ specifiedApplied (clock := Demo.fenceClock) (1000000000 + 2 ^ 32 + 8333333)
       Scenes.pendingFence41).
Proof.
  split; [|split].
  - split; [vm_compute; reflexivity|]. right. right. vm_compute. reflexivity.
  - split; [vm_compute; reflexivity|].
    intros [H | [H | H]]; vm_compute in H; discriminate H.
  - split; [vm_compute; reflexivity|].
    intros [H | [H | H]]; vm_compute in H; discriminate H.
Qed.

End VsyncExamples.

(** ** Mode requests *)

Section ModeRequestFacts.
Import DisplayInterface.
Context {K MS : Type} {dev : DrmDevice K} {msops : ModeStateOps MS}.

Lemma find_mode_some config (ms : list DrmMode) :
  (exists m, In m ms /\ mode_id m = config) ->
  exists m, List.find (fun m => mode_id m =? config) ms = Some m.
Proof.
  intros (m & Hin & Hid).
  destruct (List.find (fun m => mode_id m =? config) ms) as [m'|] eqn:Hfind;
    [eauto|].
  pose proof (List.find_none _ _ Hfind m Hin) as Hno. simpl in Hno.
  apply Z.eqb_neq in Hno. contradiction.
Qed.

(** C9, as amended: when [config] is one of the modes of the connector, no
    mode change is pending and [config] is the active mode under a blob id
    that is not zero, [setActiveConfigWithConstraints] returns success; it
    leaves the active and the desired mode state and the device as they
    were, and the only call it makes is the one that enables vsync: no blob
    is created and no property is added to a transaction. When [config] is
    not one of the modes of the connector, the call returns
    [HWC2_ERROR_BAD_CONFIG] and leaves the interface, the device and the log
    of calls included, as it was. *)
Theorem setActiveConfigWithConstraints_same_mode config test (d : Interface K MS) :
  let out := setActiveConfigWithConstraints config test d in
  ((exists m, In m (modes d) /\ mode_id m = config) ->
   needsModeSet (mDesiredModeState d) = false ->
   blob_id (mActiveModeState d) <> 0 ->
   mode_id (mode (mActiveModeState d)) = config ->
   out.2 = HWC2_ERROR_NONE /\
   mActiveModeState out.1 = mActiveModeState d /\
   mDesiredModeState out.1 = mDesiredModeState d /\
   drm out.1 = drm d /\
   log out.1 = log d ++ [CallVSyncControl true]) /\
  ((forall m, In m (modes d) -> mode_id m <> config) ->
   out = (d, HWC2_ERROR_BAD_CONFIG)).
Proof.
  intros out. subst out. split.
  - intros Hmode Hidle Hblob Hactive.
    unfold setActiveConfigWithConstraints.
    destruct (find_mode_some config (modes d) Hmode) as [m ->].
    apply Z.eqb_neq in Hblob. apply Z.eqb_eq in Hactive.
    rewrite Hidle, Hblob, Hactive. simpl. auto.
  - intros Hnone. unfold setActiveConfigWithConstraints.
    destruct (List.find (fun m => mode_id m =? config) (modes d)) as [m|] eqn:Hfind;
      [|reflexivity].
    apply List.find_some in Hfind as [Hin Hid]. apply Z.eqb_eq in Hid.
    exfalso. exact (Hnone m Hin Hid).
Qed.

End ModeRequestFacts.

Section ModeRequestExamples.
Import DisplayInterface.

Lemma setActiveConfigWithConstraints_same_mode_witness :
  let d := Demo.stableAt60 (Demo.deviceWith 0 false) [Demo.mode60; Demo.mode120] in
  (Demo.requestMode 1 false d).2 = HWC2_ERROR_NONE /\
  mActiveModeState (Demo.requestMode 1 false d).1 = mActiveModeState d /\
  mDesiredModeState (Demo.requestMode 1 false d).1 = mDesiredModeState d /\
  drm (Demo.requestMode 1 false d).1 = drm d /\
  log (Demo.requestMode 1 false d).1 = log d ++ [CallVSyncControl true].
Proof.
  destruct (@setActiveConfigWithConstraints_same_mode Demo.Device Demo.ModeState
              Demo.deviceOps Demo.modeStateOps 1 false
              (Demo.stableAt60 (Demo.deviceWith 0 false) [Demo.mode60; Demo.mode120]))
    as [Hsame _].
  apply Hsame.
  - exists Demo.mode60. split; [left; reflexivity | reflexivity].
  - vm_compute. reflexivity.
  - vm_compute. discriminate.
  - vm_compute. reflexivity.
Defined.

(** C9, counterexample: mode 1 is active under blob 7 and nothing is
    pending, and the connector lists no mode, as after the display was
    unplugged. The request for mode 1 is refused with
    [HWC2_ERROR_BAD_CONFIG]. *)
Lemma setActiveConfigWithConstraints_unlisted_mode :
  let d := Demo.stableAt60 (Demo.deviceWith 0 false) [] in
  needsModeSet (ModeStateOps := Demo.modeStateOps) (mDesiredModeState d) = false /\
  blob_id (ModeStateOps := Demo.modeStateOps) (mActiveModeState d) = 7 /\
  mode_id (mode (ModeStateOps := Demo.modeStateOps) (mActiveModeState d)) = 1 /\
  (Demo.requestMode 1 false d).2 = HWC2_ERROR_BAD_CONFIG.
Proof. vm_compute. repeat split; reflexivity. Qed.

(** A request for another mode creates a blob and makes it the desired
    mode. *)
Example request_other_mode_creates_blob :
  let d := Demo.stableAt60 (Demo.deviceWith 0 false) [Demo.mode60; Demo.mode120] in
  let out := Demo.requestMode 2 false d in
  out.2 = HWC2_ERROR_NONE /\
  mDesiredModeState out.1
    = {| Demo.ms_mode := Demo.mode120; Demo.ms_blob_id := 70; Demo.ms_old_blob_id := 0 |} /\
  mIsResolutionSwitchInProgress out.1 = true /\
  log out.1 = [CallCreatePropertyBlob 2 0 70; CallSetVBlankOffDelay 0;
               CallDestroyPropertyBlob 0].
Proof. vm_compute. repeat split; reflexivity. Qed.

(** A test-only request for another mode writes the three mode properties,
    commits them as a test and destroys the blob it created. *)
Example test_request_commits_test_only :
  let d := Demo.stableAt60 (Demo.deviceWith 0 false) [Demo.mode60] in
  let out := Demo.requestMode 1 true
               {| drm := drm d; log := []; modes := modes d;
                  mActiveModeState := mActiveModeState d;
                  mDesiredModeState :=
                    {| Demo.ms_mode := Demo.mode120; Demo.ms_blob_id := 9;
                       Demo.ms_old_blob_id := 0 |};
                  mIsResolutionSwitchInProgress := false;
                  mVsyncCallback := mVsyncCallback d;
                  mLastDumpDrmAtomicMessageTime := 0;
                  crtc := crtc d; connector := connector d;
                  active_property := active_property d;
                  mode_property := mode_property d;
                  crtc_id_property := crtc_id_property d;
                  configChangeCallback := false;
                  mOperationRateManager := false |} in
  out.2 = HWC2_ERROR_NONE /\
  List.filter (fun e => negb (isAtomicAddProperty e)) (log out.1)
    = [CallCreatePropertyBlob 1 0 70;
       CallAtomicCommit
         [{| object_id := 50; property_id := 11; value := 1 |};
          {| object_id := 50; property_id := 12; value := 70 |};
          {| object_id := 60; property_id := 13; value := 50 |}] 256 0;
       CallDestroyPropertyBlob 70].
Proof. vm_compute. repeat split; reflexivity. Qed.

End ModeRequestExamples.

(** * Further properties of the modelled code *)

(** ** Layer removal and uncaching *)

Section ReclaimFacts.
Import FramebufferManager FramebufferReclaim.

(** X1: [cleanup] of a layer removes its bucket from both caches and appends
    the entries, those of the non-secure bucket first, to the reclaim list;
    the buckets of every other layer stay as they are. *)
Theorem cleanup_moves_the_layer l m :
  mCachedLayerBuffers (cleanup l m) !! l = None /\
  mCachedSecureLayerBuffers (cleanup l m) !! l = None /\
  mCleanBuffers (cleanup l m)
    = mCleanBuffers m ++ bucketOf (mCachedLayerBuffers m) l
        ++ bucketOf (mCachedSecureLayerBuffers m) l /\
  forall l', l' <> l ->
    mCachedLayerBuffers (cleanup l m) !! l' = mCachedLayerBuffers m !! l' /\
    mCachedSecureLayerBuffers (cleanup l m) !! l' = mCachedSecureLayerBuffers m !! l'.
Proof.
  unfold cleanup, cleanLayer, bucketOf.
  destruct (mCachedLayerBuffers m !! l) as [b1|] eqn:H1;
    destruct (mCachedSecureLayerBuffers m !! l) as [b2|] eqn:H2; simpl;
    rewrite ?lookup_delete_eq, ?app_nil_r, <- ?app_assoc;
    repeat split; try assumption; try reflexivity;
    rewrite ?lookup_delete_ne by congruence; reflexivity.
Qed.

Lemma spliceRemoved_spec removed fbList clean need :
  spliceRemoved removed fbList clean need
  = (List.filter (fun fb => negb (removed fb)) fbList,
     clean ++ List.filter removed fbList,
     need || negb (bool_decide (List.filter removed fbList = []))).
Proof.
  revert clean need. induction fbList as [|fb rest IH]; intros clean need; simpl.
  - rewrite app_nil_r, orb_false_r. reflexivity.
  - destruct (removed fb); simpl.
    + rewrite IH, <- app_assoc. simpl. rewrite orb_true_r. reflexivity.
    + rewrite IH. reflexivity.
Qed.

Lemma destroyCachedBuffersLocked_spec removed l (c : LayerMap) clean need :
  let r := destroyCachedBuffersLocked removed l c clean need in
  let moved := List.filter removed (bucketOf c l) in
  bucketOf r.1.1 l = List.filter (fun fb => negb (removed fb)) (bucketOf c l) /\
  (forall l', l' <> l -> r.1.1 !! l' = c !! l') /\
  r.1.2 = clean ++ moved /\
  r.2 = need || negb (bool_decide (moved = [])).
Proof.
  unfold destroyCachedBuffersLocked, bucketOf.
  destruct (c !! l) as [b|] eqn:Hl; simpl.
  - rewrite spliceRemoved_spec. simpl. rewrite lookup_insert_eq. simpl.
    split; [reflexivity|]. split; [|split; reflexivity].
    intros l' Hne. rewrite lookup_insert_ne by congruence. reflexivity.
  - rewrite Hl. simpl. rewrite app_nil_r, orb_false_r. auto.
Qed.

(** X2: [uncacheLayerBuffers] takes out of the two buckets of the layer
    exactly the entries that the removed set counts, keeps the others in
    their order, and appends the removed ones to the reclaim list. It
    signals [mFlipDone] exactly when it moved at least one entry, leaves the
    buckets of every other layer alone and returns [NO_ERROR]. *)
Theorem uncacheLayerBuffers_moves_only_removed removed l m :
  let out := uncacheLayerBuffers removed l m in
  let m' := out.1.1 in
  let moved := List.filter removed (bucketOf (mCachedLayerBuffers m) l)
               ++ List.filter removed (bucketOf (mCachedSecureLayerBuffers m) l) in
  out.2 = NO_ERROR /\
  bucketOf (mCachedLayerBuffers m') l
    = List.filter (fun fb => negb (removed fb)) (bucketOf (mCachedLayerBuffers m) l) /\
  bucketOf (mCachedSecureLayerBuffers m') l
    = List.filter (fun fb => negb (removed fb)) (bucketOf (mCachedSecureLayerBuffers m) l) /\
  mCleanBuffers m' = mCleanBuffers m ++ moved /\
  (out.1.2 = true <-> moved <> []) /\
  forall l', l' <> l ->
    mCachedLayerBuffers m' !! l' = mCachedLayerBuffers m !! l' /\
    mCachedSecureLayerBuffers m' !! l' = mCachedSecureLayerBuffers m !! l'.
Proof.
  unfold uncacheLayerBuffers.
  pose proof (destroyCachedBuffersLocked_spec removed l (mCachedLayerBuffers m)
                (mCleanBuffers m) false) as (Hb1 & Ho1 & Hc1 & Hn1).
  destruct (destroyCachedBuffersLocked removed l (mCachedLayerBuffers m)
              (mCleanBuffers m) false) as [[c1 clean1] need1].
  pose proof (destroyCachedBuffersLocked_spec removed l (mCachedSecureLayerBuffers m)
                clean1 need1) as (Hb2 & Ho2 & Hc2 & Hn2).
  destruct (destroyCachedBuffersLocked removed l (mCachedSecureLayerBuffers m)
              clean1 need1) as [[c2 clean2] need2].
  simpl in *. subst clean1 clean2 need1 need2.
  split; [reflexivity|]. split; [exact Hb1|]. split; [exact Hb2|].
  split; [rewrite <- app_assoc; reflexivity|]. split; [|auto].
  set (a := List.filter removed (bucketOf (mCachedLayerBuffers m) l)).
  set (b := List.filter removed (bucketOf (mCachedSecureLayerBuffers m) l)).
  destruct a, b; simpl; split; intros Hx; try discriminate; try reflexivity;
    try congruence.
Qed.




End ReclaimFacts.
(** ** Conservation of framebuffers *)

Section ConservationFacts.
Import FramebufferManager FramebufferReclaim.

Lemma flat_delete (c : LayerMap) l b :
  c !! l = Some b -> flat c ≡ₚ b ++ flat (delete l c).
Proof.
  intros Hl. unfold flat.
  rewrite <- (map_to_list_delete c l b Hl). reflexivity.
Qed.

Lemma flat_insert_fresh (c : LayerMap) l b :
  c !! l = None -> flat (<[l := b]> c) ≡ₚ b ++ flat c.
Proof.
  intros Hl. unfold flat. rewrite (map_to_list_insert c l b Hl). reflexivity.
Qed.

Lemma flat_insert (c : LayerMap) l b :
  bucketOf c l ++ flat (<[l := b]> c) ≡ₚ b ++ flat c.
Proof.
  unfold bucketOf. destruct (c !! l) as [old|] eqn:Hl; simpl.
  - rewrite <- (insert_delete_eq c l b).
    rewrite flat_insert_fresh by apply lookup_delete_eq.
    rewrite (flat_delete c l old Hl).
    rewrite !app_assoc. apply Permutation_app_tail, Permutation_app_comm.
  - apply flat_insert_fresh. exact Hl.
Qed.

Lemma flat_empty : flat (∅ : LayerMap) = [].
Proof. unfold flat. rewrite map_to_list_empty. reflexivity. Qed.

Lemma flat_inOrder (c : LayerMap) : concat (map snd (inOrder c)) ≡ₚ flat c.
Proof. unfold inOrder, flat. rewrite merge_sort_Permutation. reflexivity. Qed.

Lemma NoDup_inOrder_keys (c : LayerMap) : NoDup (map fst (inOrder c)).
Proof.
  unfold inOrder. rewrite merge_sort_Permutation. apply NoDup_fst_map_to_list.
Qed.

Lemma fold_spliceBucket_eq entries clean :
  fold_left spliceBucket entries clean = clean ++ concat (map snd entries).
Proof.
  revert clean. induction entries as [|[l b] entries IH]; intros clean; simpl.
  - rewrite app_nil_r. reflexivity.
  - rewrite IH. unfold spliceBucket. simpl. case_bool_decide as Hlen.
    + destruct b; [reflexivity | discriminate Hlen].
    + rewrite <- app_assoc. reflexivity.
Qed.

Lemma fold_dropIfUnused_conserves inuse entries (c : LayerMap) clean :
  NoDup (map fst entries) ->
  (forall l b, (l, b) ∈ entries -> c !! l = Some b) ->
  let r := fold_left (dropIfUnused inuse) entries (c, clean) in
  flat r.1 ++ r.2 ≡ₚ flat c ++ clean.
Proof.
  revert c clean.
  induction entries as [|[l0 b0] entries IH]; intros c clean Hnd Hin; simpl.
  - reflexivity.
  - change (dropIfUnused inuse (c, clean) (l0, b0))
      with (if bool_decide (l0 ∈ inuse) then (c, clean)
            else (delete l0 c, clean ++ b0)).
    simpl in Hnd. apply NoDup_cons in Hnd as [Hfresh Hnd].
    case_bool_decide as Huse.
    + apply IH; [exact Hnd|]. intros l b Hel. apply Hin. right. exact Hel.
    + rewrite IH; [|exact Hnd|].
      * rewrite (flat_delete c l0 b0) by (apply Hin; left). solve_Permutation.
      * intros l b Hel. rewrite lookup_delete_ne.
        -- apply Hin. right. exact Hel.
        -- intros <-. apply Hfresh. apply list_elem_of_fmap. exists (l0, b). auto.
Qed.

Lemma destroyUnusedLayers_conserves pending inuse (c : LayerMap) clean :
  let r := destroyUnusedLayers pending inuse c clean in
  flat r.1.1.2 ++ r.1.2 ≡ₚ flat c ++ clean.
Proof.
  unfold destroyUnusedLayers.
  destruct (negb pending || bool_decide (size inuse = size c)); simpl; [reflexivity|].
  apply fold_dropIfUnused_conserves; [apply NoDup_inOrder_keys|].
  intros l b Hel. apply elem_of_inOrder. exact Hel.
Qed.

Lemma destroyUnusedLayersLocked_conserves m :
  held (destroyUnusedLayersLocked m) ≡ₚ held m.
Proof.
  unfold held, destroyUnusedLayersLocked.
  pose proof (destroyUnusedLayers_conserves (mCacheShrinkPending m)
                (mCachedLayersInuse m) (mCachedLayerBuffers m) (mCleanBuffers m)) as H1.
  destruct (destroyUnusedLayers (mCacheShrinkPending m) (mCachedLayersInuse m)
              (mCachedLayerBuffers m) (mCleanBuffers m)) as [[[inuse1 c1] clean1] b1].
  pose proof (destroyUnusedLayers_conserves (mCacheSecureShrinkPending m)
                (mCachedSecureLayersInuse m) (mCachedSecureLayerBuffers m) clean1) as H2.
  destruct (destroyUnusedLayers (mCacheSecureShrinkPending m)
              (mCachedSecureLayersInuse m) (mCachedSecureLayerBuffers m) clean1)
    as [[[inuse2 c2] clean2] b2].
  simpl in *. rewrite H2.
  rewrite (Permutation_app_swap_app (flat c1)), H1. solve_Permutation.
Qed.

Lemma destroyAllSecureBuffersLocked_conserves m :
  held (destroyAllSecureBuffersLocked m) ≡ₚ held m.
Proof.
  unfold held, destroyAllSecureBuffersLocked. simpl.
  rewrite flat_empty, fold_spliceBucket_eq, flat_inOrder. simpl.
  solve_Permutation.
Qed.

(** X4: [flip] neither drops nor duplicates a framebuffer: the framebuffers
    held in the two caches and on the reclaim list after the call are those
    held before it. *)
Theorem flip_conserves_framebuffers hasSecureBuffer m :
  held (flip hasSecureBuffer m).1 ≡ₚ held m.
Proof.
  unfold flip. simpl. destruct hasSecureBuffer; simpl.
  - apply destroyUnusedLayersLocked_conserves.
  - rewrite destroyAllSecureBuffersLocked_conserves.
    apply destroyUnusedLayersLocked_conserves.
Qed.

Lemma cleanLayer_conserves l (c : LayerMap) clean :
  flat (cleanLayer l c clean).1 ++ (cleanLayer l c clean).2 ≡ₚ flat c ++ clean.
Proof.
  unfold cleanLayer. destruct (c !! l) as [b|] eqn:Hl; simpl; [|reflexivity].
  rewrite (flat_delete c l b Hl). solve_Permutation.
Qed.

Lemma destroyCachedBuffersLocked_conserves removed l (c : LayerMap) clean need :
  let r := destroyCachedBuffersLocked removed l c clean need in
  flat r.1.1 ++ r.1.2 ≡ₚ flat c ++ clean.
Proof.
  unfold destroyCachedBuffersLocked.
  destruct (c !! l) as [b|] eqn:Hl; simpl; [|reflexivity].
  rewrite spliceRemoved_spec. simpl.
  pose proof (flat_insert c l (List.filter (fun fb => negb (removed fb)) b)) as Hins.
  unfold bucketOf in Hins. rewrite Hl in Hins. simpl in Hins.
  assert (Hsplit : b ≡ₚ List.filter (fun fb => negb (removed fb)) b
                       ++ List.filter removed b).
  { clear. induction b as [|fb b IH]; simpl; [reflexivity|].
    destruct (removed fb); simpl.
    - rewrite <- Permutation_middle. constructor. exact IH.
    - constructor. exact IH. }
  apply (Permutation_app_inv_l b).
  rewrite !app_assoc, Hins. rewrite Hsplit at 3. solve_Permutation.
Qed.

(** X5: [cleanup], [uncacheLayerBuffers] and [destroyAllSecureBuffers] only
    move framebuffers: what the manager holds after any of them is what it
    held before; [destroyAllSecureBuffers] leaves the secure cache empty. *)
Theorem cleanup_and_uncache_conserve_framebuffers removed l m :
  held (cleanup l m) ≡ₚ held m /\
  held (uncacheLayerBuffers removed l m).1.1 ≡ₚ held m /\
  held (destroyAllSecureBuffers m).1 ≡ₚ held m /\
  mCachedSecureLayerBuffers (destroyAllSecureBuffers m).1 = ∅.
Proof.
  split; [|split; [|split; [apply destroyAllSecureBuffersLocked_conserves | reflexivity]]].
  - unfold held, cleanup.
    pose proof (cleanLayer_conserves l (mCachedLayerBuffers m) (mCleanBuffers m)) as H1.
    destruct (cleanLayer l (mCachedLayerBuffers m) (mCleanBuffers m)) as [c1 clean1].
    pose proof (cleanLayer_conserves l (mCachedSecureLayerBuffers m) clean1) as H2.
    destruct (cleanLayer l (mCachedSecureLayerBuffers m) clean1) as [c2 clean2].
    simpl in *. rewrite H2.
    rewrite (Permutation_app_swap_app (flat c1)), H1. solve_Permutation.
  - unfold held, uncacheLayerBuffers.
    pose proof (destroyCachedBuffersLocked_conserves removed l (mCachedLayerBuffers m)
                  (mCleanBuffers m) false) as H1.
    destruct (destroyCachedBuffersLocked removed l (mCachedLayerBuffers m)
                (mCleanBuffers m) false) as [[c1 clean1] need1].
    pose proof (destroyCachedBuffersLocked_conserves removed l
                  (mCachedSecureLayerBuffers m) clean1 need1) as H2.
    destruct (destroyCachedBuffersLocked removed l (mCachedSecureLayerBuffers m)
                clean1 need1) as [[c2 clean2] need2].
    simpl in *. rewrite H2.
    rewrite (Permutation_app_swap_app (flat c1)), H1. solve_Permutation.
Qed.

End ConservationFacts.

(** ** What [getBuffer] does to the caches, whatever its outcome *)

Section GetBufferInvariants.
Import FramebufferManager FramebufferReclaim.
Context {K : Type} {kops : DrmKernel K} {plat : Platform}.

(** Either the caches and the reclaim list are as before, or the call
    succeeded and ran the insertion block. *)
Lemma getBuffer_cache_step config fb0 w w' ret fb :
  getBuffer config fb0 w = (w', (ret, fb)) ->
  (mCachedLayerBuffers (fbm w') = mCachedLayerBuffers (fbm w) /\
   mCachedSecureLayerBuffers (fbm w') = mCachedSecureLayerBuffers (fbm w) /\
   mCleanBuffers (fbm w') = mCleanBuffers (fbm w))
  \/ (ret = NO_ERROR /\
      exists bw bh fmt,
        fbm w' = cacheBuffer config bw bh fmt fb
                   (markInuseLayerLocked (layer config) (protection config) (fbm w))).
Proof.
  intros Hget.
  apply getBuffer_outcome in Hget
    as [(_ & -> & _) | [(d & _ & _ & -> & _) | (d & _ & _ & evs & _ & _ & Hfail & Hok)]].
  - left. auto.
  - left. simpl. auto.
  - destruct (decide (ret = 0)) as [-> | Hne].
    + destruct (Hok eq_refl) as (_ & bw & bh & fmt & _ & Hm).
      destruct (negb (layer config =? 0) || negb (buffer_id config =? 0)).
      * right. split; [reflexivity|]. eauto.
      * left. rewrite Hm. auto.
    + left. rewrite (Hfail Hne). auto.
Qed.

Lemma cacheBuffer_other_cache config bw bh fmt fb m :
  cacheOf (negb (protection config)) (cacheBuffer config bw bh fmt fb m)
  = cacheOf (negb (protection config)) m.
Proof. exact (proj1 (cacheBuffer_spec config bw bh fmt fb m)). Qed.

(** X6: [getBuffer] touches at most one bucket: the cache of the other
    protection class, and in the cache of its own class the bucket of every
    other layer, are after the call as they were before it, whatever the
    outcome. *)
Theorem getBuffer_touches_one_bucket config fb0 w w' ret fb :
  getBuffer config fb0 w = (w', (ret, fb)) ->
  cacheOf (negb (protection config)) (fbm w')
    = cacheOf (negb (protection config)) (fbm w) /\
  forall l, l <> layer config ->
    cacheOf (protection config) (fbm w') !! l
      = cacheOf (protection config) (fbm w) !! l.
Proof.
  intros Hget.
  apply getBuffer_cache_step in Hget as [(H1 & H2 & _) | (_ & bw & bh & fmt & ->)].
  - unfold cacheOf. destruct (protection config); simpl; rewrite ?H1, ?H2; auto.
  - pose proof (cacheBuffer_spec config bw bh fmt fb
                  (markInuseLayerLocked (layer config) (protection config) (fbm w)))
      as (Hother & Hrest & _).
    cbv zeta in *. rewrite !cacheOf_markInuse in *. auto.
Qed.

(** X7: the bound on the buckets is an invariant of [getBuffer]: if no
    bucket holds more than one entry above its cap before the call, none
    does after it. *)
Theorem getBuffer_keeps_buckets_bounded config fb0 w w' ret fb :
  getBuffer config fb0 w = (w', (ret, fb)) ->
  bounded (fbm w) -> bounded (fbm w').
Proof.
  intros Hget [Hns Hsec].
  apply getBuffer_cache_step in Hget as [(H1 & H2 & _) | (_ & bw & bh & fmt & ->)].
  - unfold bounded. rewrite H1, H2. auto.
  - set (m1 := markInuseLayerLocked (layer config) (protection config) (fbm w)).
    pose proof (cacheBuffer_spec config bw bh fmt fb m1) as (Hother & Hrest & Hb).
    cbv zeta in *. unfold capFor, bucketOf in Hb.
    assert (Hmine : forall l b,
              cacheOf (protection config) (cacheBuffer config bw bh fmt fb m1) !! l
                = Some b ->
              (length b <= capFor config + 1)%nat).
    { intros l b Hl. destruct (decide (l = layer config)) as [-> | Hne].
      - rewrite Hl in Hb. simpl in Hb. unfold capFor.
        case_bool_decide as Hover; destruct Hb as [-> _]; simpl; lia.
      - rewrite Hrest in Hl by exact Hne. subst m1.
        rewrite cacheOf_markInuse in Hl. unfold capFor, cacheOf in *.
        destruct (protection config); eauto. }
    subst m1. rewrite cacheOf_markInuse in Hother.
    unfold bounded, capFor, cacheOf in *.
    destruct (protection config); simpl in *; split; intros l b Hl;
      try (apply (Hmine l b Hl)); rewrite Hother in Hl; eauto.
Qed.

Lemma held_cacheBuffer config bw bh fmt fb m :
  held (cacheBuffer config bw bh fmt fb m)
  ≡ₚ {| drmFd := mDrmFd m; fbId := fb; desc := identityFor config bw bh fmt |}
       :: held m.
Proof.
  pose proof (cacheBuffer_spec config bw bh fmt fb m) as (Hother & _ & _).
  unfold cacheBuffer in *. cbv zeta in *.
  set (entry := {| drmFd := mDrmFd m; fbId := fb;
                   desc := identityFor config bw bh fmt |}) in *.
  set (old := bucketOf (cacheOf (protection config) m) (layer config)) in *.
  set (m1 := markInuseLayerLocked (layer config) (protection config) m) in *.
  assert (Hm1 : mCachedLayerBuffers m1 = mCachedLayerBuffers m /\
                mCachedSecureLayerBuffers m1 = mCachedSecureLayerBuffers m /\
                mCleanBuffers m1 = mCleanBuffers m) by (subst m1; auto).
  destruct Hm1 as (Hn1 & Hs1 & Hc1).
  pose proof (flat_insert (cacheOf (protection config) m) (layer config)) as Hins.
  fold old in Hins. clear Hother.
  destruct (bool_decide _); unfold held, cacheOf, setCache, setCleanBuffers in *;
    destruct (protection config); simpl in *;
    rewrite ?Hn1, ?Hs1, ?Hc1;
    match goal with
    | |- context [flat (<[_ := ?b]> _)] => specialize (Hins b)
    end;
    apply (Permutation_app_inv_l old);
    [ transitivity (flat (mCachedLayerBuffers m)
                      ++ (old ++ flat (<[layer config := [entry]]>
                                         (mCachedSecureLayerBuffers m)))
                      ++ mCleanBuffers m ++ old); [solve_Permutation|]
    | transitivity ((old ++ flat (<[layer config := [entry]]> (mCachedLayerBuffers m)))
                      ++ flat (mCachedSecureLayerBuffers m)
                      ++ mCleanBuffers m ++ old); [solve_Permutation|]
    | transitivity (flat (mCachedLayerBuffers m)
                      ++ (old ++ flat (<[layer config := entry :: old]>
                                         (mCachedSecureLayerBuffers m)))
                      ++ mCleanBuffers m); [solve_Permutation|]
    | transitivity ((old ++ flat (<[layer config := entry :: old]>
                                    (mCachedLayerBuffers m)))
                      ++ flat (mCachedSecureLayerBuffers m)
                      ++ mCleanBuffers m); [solve_Permutation|] ];
    rewrite Hins; solve_Permutation.
Qed.

(** X8: [getBuffer] never drops a framebuffer the manager holds: what the
    caches and the reclaim list hold after the call is what they held
    before it, with at most one more entry, which then carries the id the
    successful call returns. *)
Theorem getBuffer_conserves_framebuffers config fb0 w w' ret fb :
  getBuffer config fb0 w = (w', (ret, fb)) ->
  held (fbm w') ≡ₚ held (fbm w)
  \/ exists entry,
       ret = NO_ERROR /\ fbId entry = fb /\ held (fbm w') ≡ₚ entry :: held (fbm w).
Proof.
  intros Hget.
  apply getBuffer_cache_step in Hget as [(H1 & H2 & H3) | (Hret & bw & bh & fmt & ->)].
  - left. unfold held. rewrite H1, H2, H3. reflexivity.
  - right.
    exists {| drmFd := mDrmFd (fbm w); fbId := fb;
              desc := identityFor config bw bh fmt |}.
    split; [exact Hret|]. split; [reflexivity|].
    exact (held_cacheBuffer config bw bh fmt fb
             (markInuseLayerLocked (layer config) (protection config) (fbm w))).
Qed.

End GetBufferInvariants.

(** ** Imported handles *)

Section HandleFacts.
Import FramebufferManager FramebufferReclaim.
Context {K : Type} {kops : DrmKernel K} {plat : Platform}.

Lemma importedHandles_app a b :
  importedHandles (a ++ b) = importedHandles a ++ importedHandles b.
Proof. unfold importedHandles. apply omap_app. Qed.

Lemma closedHandles_app a b :
  closedHandles (a ++ b) = closedHandles a ++ closedHandles b.
Proof. unfold closedHandles. apply omap_app. Qed.

Lemma freeBufHandles_trace hs w :
  exists evs, trace (freeBufHandles hs w) = trace w ++ evs /\
    countCalls isAddFB2 evs = O /\
    importedHandles evs = [] /\
    closedHandles evs = List.filter (fun h => negb (h =? 0)) hs.
Proof.
  unfold freeBufHandles. revert w.
  induction hs as [|h hs IH]; intros w; simpl.
  - exists []. rewrite app_nil_r. auto.
  - destruct (IH (freeBufHandle h w)) as (evs & Ht & Hn & Hi & Hc). rewrite Ht.
    unfold freeBufHandle. destruct (h =? 0); simpl.
    + exists evs. auto.
    + destruct (drmIoctlGemClose (kernel w) h) as [k ret]. simpl.
      exists (CallGemClose h ret :: evs). rewrite <- app_assoc. simpl.
      rewrite Hc. unfold importedHandles, countCalls in *. simpl. auto.
Qed.

(** What a completed import leaves: one import call per buffer, no handle
    closed, every handle non-zero and stored in its slot. *)
Lemma importBuffers_handles config bpp n i a w w1 a1 :
  importBuffers config bpp n i a w = (w1, Some a1) ->
  (i + n <= length (handles a))%nat ->
  exists evs, trace w1 = trace w ++ evs /\
    countCalls isAddFB2 evs = O /\
    closedHandles evs = [] /\
    importedHandles evs = take n (drop i (handles a1)) /\
    Forall (fun h => h <> 0) (importedHandles evs) /\
    length (handles a1) = length (handles a) /\
    take i (handles a1) = take i (handles a).
Proof.
  revert i a w. induction n as [|n IH]; intros i a w Himp Hlen; simpl in Himp.
  - injection Himp as <- <-. exists []. rewrite app_nil_r, take_0.
    repeat split; constructor.
  - unfold getBufHandleFromFd in Himp.
    destruct (drmPrimeFDToHandle (kernel w) (nth i (fd_idma config) (-1)))
      as [k [ret h]].
    destruct (h =? 0) eqn:Hh; [discriminate Himp|]. apply Z.eqb_neq in Hh.
    apply IH in Himp as (evs & Ht & Hc & Hcl & Him & Hnz & Hl & Htk);
      [|simpl; rewrite length_insert; lia].
    simpl in *. rewrite length_insert in Hl.
    assert (Hslot : handles a1 !! i = Some h).
    { assert (Hx : take (S i) (handles a1) !! i
                   = take (S i) (<[i := h]> (handles a)) !! i) by (rewrite Htk; reflexivity).
      rewrite !lookup_take_lt in Hx by lia. rewrite Hx.
      apply list_lookup_insert_eq. lia. }
    exists (CallPrimeFDToHandle (nth i (fd_idma config) (-1)) ret h :: evs).
    rewrite Ht, <- app_assoc. simpl.
    split; [reflexivity|]. split; [exact Hc|].
    split; [exact Hcl|].
    unfold importedHandles in *. simpl.
    rewrite (drop_S _ _ _ Hslot). simpl. rewrite Him.
    split; [reflexivity|]. split; [constructor; [exact Hh | rewrite <- Him; exact Hnz]|].
    split; [exact Hl|].
    assert (Hx : take i (take (S i) (handles a1))
                 = take i (take (S i) (<[i := h]> (handles a)))) by (rewrite Htk; reflexivity).
    rewrite !take_take, !Nat.min_l in Hx by lia. rewrite Hx.
    apply take_insert_ge. lia.
Qed.

Lemma sharePlanes_first n j a :
  (1 <= j)%nat ->
  take 1 (handles (sharePlanes n j a)) = take 1 (handles a).
Proof.
  revert j a. induction n as [|n IH]; intros j a Hj; simpl; [reflexivity|].
  rewrite IH by lia. simpl. apply take_insert_ge. lia.
Qed.

Lemma createAndCache_trace config bw bh fmt nbuf a w :
  exists evs,
    trace (createAndCache config bw bh fmt nbuf a w).1 = trace w ++ evs /\
    importedHandles evs = [] /\
    closedHandles evs
      = List.filter (fun h => negb (h =? 0)) (take nbuf (handles a)) /\
    (validateLayerInfo (state config) fmt (handles a) (modifiers a) = false ->
       countCalls isAddFB2 evs = O /\
       (createAndCache config bw bh fmt nbuf a w).2.1 = - EINVAL).
Proof.
  unfold createAndCache, addFB2WithModifiers. simpl.
  destruct (validateLayerInfo (state config) fmt (handles a) (modifiers a)) eqn:Hv;
    simpl.
  - match goal with |- context [drmModeAddFB2WithModifiers ?k ?r] =>
      destruct (drmModeAddFB2WithModifiers k r) as [k1 [ret fb]] eqn:Hadd end.
    match goal with |- context [freeBufHandles ?hs ?w1] =>
      destruct (freeBufHandles_trace hs w1) as (post & Ht & Hn & Hi & Hc);
      set (w2 := freeBufHandles hs w1) in * end.
    simpl in Ht. rewrite <- app_assoc in Ht.
    eexists. split; [|split; [|split; [|discriminate]]].
    + destruct (negb (ret =? 0)); [exact Ht|].
      destruct (negb (layer config =? 0) || negb (buffer_id config =? 0)); exact Ht.
    + simpl. exact Hi.
    + simpl. exact Hc.
  - match goal with |- context [freeBufHandles ?hs ?w1] =>
      destruct (freeBufHandles_trace hs w1) as (post & Ht & Hn & Hi & Hc);
      set (w2 := freeBufHandles hs w1) in * end.
    exists post. simpl. auto.
Qed.

(** The ways through [getBuffer], with what each does to the trace: a
    return before any kernel call; an import that fails; or an import that
    succeeds, followed by the creation step. *)
Lemma getBuffer_paths config fb0 w w' ret fb :
  getBuffer config fb0 w = (w', (ret, fb)) ->
  (forall ef, halFormatToExynosFormat (format config) (compression_type config) = Some ef ->
     (bufferNum ef <= 4)%nat) ->
  (trace w' = trace w /\ (ret = NO_ERROR \/ ret = - EINVAL))
  \/ (ret = - ENOMEM /\
      exists evs, trace w' = trace w ++ evs /\ countCalls isAddFB2 evs = O)
  \/ (exists w1 e0 bw bh fmt nbuf a,
        trace w1 = trace w ++ e0 /\
        countCalls isAddFB2 e0 = O /\
        closedHandles e0 = [] /\
        importedHandles e0 = take nbuf (handles a) /\
        Forall (fun h => h <> 0) (importedHandles e0) /\
        (state config <> WIN_STATE_COLOR ->
           exists ef, halFormatToExynosFormat (format config) (compression_type config)
                        = Some ef /\ fmt = drmFormat ef) /\
        createAndCache config bw bh fmt nbuf a w1 = (w', (ret, fb))).
Proof.
  intros Hget Hfour.
  assert (Hbuf :
    state config = WIN_STATE_BUFFER \/ state config = WIN_STATE_RCD \/
    state config = WIN_STATE_COLOR \/
    (state config = WIN_STATE_CURSOR \/ state config = WIN_STATE_OTHER))
    by (destruct (state config); auto).
  unfold getBuffer in Hget.
  destruct Hbuf as [Hs | [Hs | [Hs | Hs]]].
  4: { left. destruct Hs as [Hs | Hs]; rewrite Hs in *;
       injection Hget as <- <- <-; auto. }
  3: { rewrite Hs in *. unfold findCachedFbId in Hget.
       match type of Hget with context [negb (?hit =? 0)] =>
         destruct (hit =? 0) eqn:Hhit end; simpl in Hget.
       - right. right.
         match type of Hget with createAndCache _ _ _ _ _ _ ?w1 = _ =>
           eexists w1, [], _, _, _, O, _ end. rewrite app_nil_r.
         split; [reflexivity|]. split; [reflexivity|]. split; [reflexivity|].
         split; [reflexivity|]. split; [constructor|].
         split; [intros Hne; contradiction|]. exact Hget.
       - left. injection Hget as <- <- <-. auto. }
  all: rewrite Hs in *;
    destruct (halFormatToExynosFormat (format config) (compression_type config))
      as [ef|] eqn:Hef; [|left; injection Hget as <- <- <-; auto];
    specialize (Hfour ef eq_refl);
    destruct (drmFormat ef =? DRM_FORMAT_UNDEFINED);
      [left; injection Hget as <- <- <-; auto|];
    destruct (bool_decide (bufferNum ef = O));
      [left; injection Hget as <- <- <-; auto|];
    destruct (bool_decide (planeNum ef = O));
      [left; injection Hget as <- <- <-; auto|];
    destruct (bool_decide (MAX_PLANE_NUM < planeNum ef)%nat);
      [left; injection Hget as <- <- <-; auto|];
    simpl orb in *; cbv iota in *;
    unfold findCachedFbId in Hget;
    match type of Hget with context [negb (?hit =? 0)] =>
      destruct (hit =? 0) eqn:Hhit end; simpl negb in Hget; cbv iota in Hget;
    [ | left; injection Hget as <- <- <-; auto ];
    match type of Hget with
    | context [importBuffers ?c ?b ?n ?i ?a ?w0] =>
        pose proof (importBuffers_quiet c b n i a w0) as (_ & e0 & Hqt & Hqc);
        pose proof (importBuffers_handles c b n i a w0) as Hh;
        destruct (importBuffers c b n i a w0) as [w1 [a1|]]
    end; simpl in Hqt;
    [ | right; left; injection Hget as <- <- <-; split; [reflexivity|];
        exists e0; auto ];
    destruct (Hh w1 a1 eq_refl) as (evs & Ht & Hc & Hcl & Him & Hnz & Hl & _);
      [simpl; lia|];
    simpl in Ht; rewrite drop_0 in Him;
    right; right;
    eexists w1, evs, _, _, _, (bufferNum ef), _;
    (split; [exact Ht|]); (split; [exact Hc|]); (split; [exact Hcl|]);
    (split; [|split; [exact Hnz|split; [intros _; exists ef; split; reflexivity
                                        | exact Hget]]]);
    rewrite Him;
    destruct (bool_decide (bufferNum ef = 1%nat)) eqn:Hone; simpl; [|reflexivity];
    destruct (bool_decide (bufferNum ef < planeNum ef)%nat); simpl; [|reflexivity];
    apply bool_decide_eq_true in Hone; rewrite Hone;
    rewrite sharePlanes_first by lia; reflexivity.
Qed.

(** X9: when [getBuffer] gets as far as the creation step, and in particular
    whenever it succeeds, it closes every GEM handle it imported during the
    call, in the order of import. The formats of the table are taken to have
    at most four buffers, the number of slots of the handle array. *)
Theorem getBuffer_closes_imported_handles config fb0 w w' ret fb evs :
  (forall ef, halFormatToExynosFormat (format config) (compression_type config) = Some ef ->
     (bufferNum ef <= 4)%nat) ->
  getBuffer config fb0 w = (w', (ret, fb)) ->
  trace w' = trace w ++ evs ->
  ret = NO_ERROR \/ (0 < countCalls isAddFB2 evs)%nat ->
  closedHandles evs = importedHandles evs.
Proof.
  intros Hfour Hget Htrace Hreached.
  apply getBuffer_paths in Hget
    as [(Hsame & _) | [(Hret & e & Ht & Hc) | Hcreate]]; [| |  |exact Hfour].
  - assert (Hnil : evs = [])
      by (apply (app_inv_head (trace w)); rewrite app_nil_r; congruence).
    subst evs. reflexivity.
  - rewrite Htrace in Ht. apply app_inv_head in Ht. subst e.
    destruct Hreached as [-> | Hpos]; [discriminate Hret | lia].
  - destruct Hcreate as (w1 & e0 & bw & bh & fmt & nbuf & a & Ht0 & _ & Hcl0 & Him0
                         & Hnz & _ & Hcc).
    destruct (createAndCache_trace config bw bh fmt nbuf a w1)
      as (e1 & Ht1 & Hi1 & Hc1 & _).
    rewrite Hcc in Ht1. simpl in Ht1.
    rewrite Ht0, <- app_assoc, Htrace in Ht1. apply app_inv_head in Ht1. subst evs.
    rewrite closedHandles_app, importedHandles_app, Hcl0, Hi1, Hc1, app_nil_r.
    simpl. rewrite <- Him0.
    clear -Hnz. induction Hnz as [|h hs Hh Hhs IH]; simpl; [reflexivity|].
    apply Z.eqb_neq in Hh. rewrite Hh. simpl. f_equal. exact IH.
Qed.

(** X10: for a rounded-corner layer ([WIN_STATE_RCD]) whose format does not
    map to [DRM_FORMAT_C8], [getBuffer] never asks the kernel to create a
    framebuffer: the call makes no creation call and, unless the lookup hits,
    it fails. *)
Theorem getBuffer_rcd_requires_c8 config fb0 w w' ret fb evs ef :
  state config = WIN_STATE_RCD ->
  halFormatToExynosFormat (format config) (compression_type config) = Some ef ->
  drmFormat ef <> DRM_FORMAT_C8 ->
  (bufferNum ef <= 4)%nat ->
  getBuffer config fb0 w = (w', (ret, fb)) ->
  trace w' = trace w ++ evs ->
  countCalls isAddFB2 evs = O /\ (cachedFbId config (fbm w) = 0 -> ret <> NO_ERROR).
Proof.
  intros Hs Hef Hfmt Hfour Hget Htrace.
  pose proof Hget as Hout. apply getBuffer_outcome in Hout.
  apply getBuffer_paths in Hget
    as [(Hsame & Hret) | [(Hret & e & Ht & Hc) | Hcreate]].
  - assert (Hnil : evs = [])
      by (apply (app_inv_head (trace w)); rewrite app_nil_r; congruence).
    subst evs. split; [reflexivity|].
    intros Hzero Hok.
    destruct Hout as [(_ & _ & Hr & _) | [(d & _ & Hhit & _) | (d & _ & _ & e & Ht & _ & _ & Hone)]].
    + rewrite Hok in Hr. discriminate Hr.
    + contradiction.
    + destruct (Hone Hok) as [Hcnt _]. rewrite Htrace in Ht.
      apply app_inv_head in Ht. subst e. discriminate Hcnt.
  - rewrite Htrace in Ht. apply app_inv_head in Ht. subst e.
    split; [exact Hc|]. intros _ Hok. rewrite Hok in Hret. discriminate Hret.
  - destruct Hcreate as (w1 & e0 & bw & bh & fmt & nbuf & a & Ht0 & Hc0 & _ & _
                         & _ & Hfmt' & Hcc).
    destruct Hfmt' as (ef' & Hef' & ->); [rewrite Hs; discriminate|].
    rewrite Hef in Hef'. injection Hef' as <-.
    destruct (createAndCache_trace config bw bh (drmFormat ef) nbuf a w1)
      as (e1 & Ht1 & _ & _ & Hinvalid).
    rewrite Hcc in Ht1, Hinvalid. simpl in Ht1, Hinvalid.
    rewrite Ht0, <- app_assoc, Htrace in Ht1. apply app_inv_head in Ht1. subst evs.
    destruct Hinvalid as [Hnone Hret].
    { unfold validateLayerInfo. rewrite Hs.
      apply Z.eqb_neq in Hfmt. rewrite Hfmt. reflexivity. }
    rewrite countCalls_app, Hc0, Hnone. split; [reflexivity|].
    intros _ Hok. rewrite Hok in Hret. discriminate Hret.
  - intros ef' Hef'. rewrite Hef in Hef'. injection Hef' as <-. exact Hfour.
Qed.

End HandleFacts.

(** ** Shrinking *)

Section ShrinkFacts.
Import FramebufferManager FramebufferReclaim.

Lemma fold_dropIfUnused_None inuse entries (c : LayerMap) clean l :
  c !! l = None ->
  (fold_left (dropIfUnused inuse) entries (c, clean)).1 !! l = None.
Proof.
  revert c clean.
  induction entries as [|[l0 b0] entries IH]; intros c clean Hc; simpl; [exact Hc|].
  change (dropIfUnused inuse (c, clean) (l0, b0))
    with (if bool_decide (l0 ∈ inuse) then (c, clean)
          else (delete l0 c, clean ++ b0)).
  case_bool_decide; apply IH; [exact Hc|].
  rewrite lookup_delete_None. auto.
Qed.

Lemma fold_dropIfUnused_lookup inuse entries (c : LayerMap) clean l :
  let r := fold_left (dropIfUnused inuse) entries (c, clean) in
  (l ∈ inuse -> r.1 !! l = c !! l) /\
  (l ∉ inuse -> l ∈ map fst entries -> r.1 !! l = None).
Proof.
  revert c clean.
  induction entries as [|[l0 b0] entries IH]; intros c clean; simpl.
  - split; [reflexivity|]. intros _ Hel. inversion Hel.
  - change (dropIfUnused inuse (c, clean) (l0, b0))
      with (if bool_decide (l0 ∈ inuse) then (c, clean)
            else (delete l0 c, clean ++ b0)).
    case_bool_decide as Huse.
    + destruct (IH c clean) as [Hin Hout]. split; [exact Hin|].
      intros Hl Hel. apply elem_of_cons in Hel as [-> | Hel];
        [contradiction | auto].
    + destruct (IH (delete l0 c) (clean ++ b0)) as [Hin Hout]. split.
      * intros Hl. rewrite (Hin Hl). apply lookup_delete_ne. intros ->. contradiction.
      * intros Hl Hel. apply elem_of_cons in Hel as [-> | Hel]; [|auto].
        apply fold_dropIfUnused_None, lookup_delete_eq.
Qed.

Lemma destroyUnusedLayers_lookup pending inuse (c : LayerMap) clean l :
  let r := destroyUnusedLayers pending inuse c clean in
  r.1.1.1 = ∅ /\
  (pending = false -> r.1.1.2 = c) /\
  (l ∈ inuse -> r.1.1.2 !! l = c !! l) /\
  (pending = true -> size inuse <> size c -> l ∉ inuse -> r.1.1.2 !! l = None).
Proof.
  unfold destroyUnusedLayers.
  destruct pending; simpl.
  - case_bool_decide as Hsize; simpl.
    + split; [reflexivity|]. split; [discriminate|]. split; [reflexivity|].
      intros _ Hne. contradiction.
    + destruct (fold_dropIfUnused_lookup inuse (inOrder c) c clean l) as [Hin Hout].
      split; [reflexivity|]. split; [discriminate|]. split; [exact Hin|].
      intros _ _ Hl. destruct (c !! l) as [b|] eqn:Hc.
      * apply Hout; [exact Hl|]. apply list_elem_of_fmap. exists (l, b).
        split; [reflexivity|]. apply elem_of_inOrder. exact Hc.
      * apply fold_dropIfUnused_None. exact Hc.
  - split; [reflexivity|]. split; [reflexivity|]. split; [reflexivity|discriminate].
Qed.

(** X11: [flip] clears both in-use sets. It never evicts the non-secure
    bucket of a layer that was marked in use, and it leaves the whole
    non-secure cache alone when no shrink of it is pending. *)
Theorem flip_keeps_layers_in_use hasSecureBuffer m :
  mCachedLayersInuse (flip hasSecureBuffer m).1 = ∅ /\
  mCachedSecureLayersInuse (flip hasSecureBuffer m).1 = ∅ /\
  (mCacheShrinkPending m = false ->
     mCachedLayerBuffers (flip hasSecureBuffer m).1 = mCachedLayerBuffers m) /\
  (forall l, l ∈ mCachedLayersInuse m ->
     mCachedLayerBuffers (flip hasSecureBuffer m).1 !! l = mCachedLayerBuffers m !! l).
Proof.
  unfold flip, destroyUnusedLayersLocked. simpl.
  assert (Hall : forall l,
    let r := destroyUnusedLayers (mCacheShrinkPending m) (mCachedLayersInuse m)
               (mCachedLayerBuffers m) (mCleanBuffers m) in
    r.1.1.1 = ∅ /\
    (mCacheShrinkPending m = false -> r.1.1.2 = mCachedLayerBuffers m) /\
    (l ∈ mCachedLayersInuse m -> r.1.1.2 !! l = mCachedLayerBuffers m !! l)).
  { intros l. destruct (destroyUnusedLayers_lookup (mCacheShrinkPending m)
      (mCachedLayersInuse m) (mCachedLayerBuffers m) (mCleanBuffers m) l)
      as (H1 & H2 & H3 & _). auto. }
  destruct (destroyUnusedLayers (mCacheShrinkPending m) (mCachedLayersInuse m)
              (mCachedLayerBuffers m) (mCleanBuffers m)) as [[[inuse1 c1] clean1] b1].
  pose proof (destroyUnusedLayers_lookup (mCacheSecureShrinkPending m)
                (mCachedSecureLayersInuse m) (mCachedSecureLayerBuffers m) clean1 0)
    as (Hs & _).
  destruct (destroyUnusedLayers (mCacheSecureShrinkPending m)
              (mCachedSecureLayersInuse m) (mCachedSecureLayerBuffers m) clean1)
    as [[[inuse2 c2] clean2] b2].
  simpl in *.
  destruct hasSecureBuffer; simpl;
    (split; [exact (proj1 (Hall 0))|]); (split; [exact Hs|]);
    (split; [exact (proj1 (proj2 (Hall 0)))|]);
    intros l Hl; exact (proj2 (proj2 (Hall l)) Hl).
Qed.

(** X12: when a shrink of the non-secure cache is pending and the in-use set
    and the cache differ in size, [flip] leaves no bucket of a layer that
    was not marked in use. *)
Theorem flip_shrinks_to_layers_in_use hasSecureBuffer m l :
  mCacheShrinkPending m = true ->
  size (mCachedLayersInuse m) <> size (mCachedLayerBuffers m) ->
  l ∉ mCachedLayersInuse m ->
  mCachedLayerBuffers (flip hasSecureBuffer m).1 !! l = None.
Proof.
  intros Hpending Hsize Hl. unfold flip, destroyUnusedLayersLocked. simpl.
  pose proof (destroyUnusedLayers_lookup (mCacheShrinkPending m)
                (mCachedLayersInuse m) (mCachedLayerBuffers m) (mCleanBuffers m) l)
    as (_ & _ & _ & Hout).
  destruct (destroyUnusedLayers (mCacheShrinkPending m) (mCachedLayersInuse m)
              (mCachedLayerBuffers m) (mCleanBuffers m)) as [[[inuse1 c1] clean1] b1].
  destruct (destroyUnusedLayers (mCacheSecureShrinkPending m)
              (mCachedSecureLayersInuse m) (mCachedSecureLayerBuffers m) clean1)
    as [[[inuse2 c2] clean2] b2].
  simpl in *. destruct hasSecureBuffer; simpl; auto.
Qed.

End ShrinkFacts.

(** ** Commit: acknowledgement and the resolution-switch flag *)

Section CommitFacts.
Import DisplayInterface DisplayLog.
Context {K MS : Type} {dev : DrmDevice K} {msops : ModeStateOps MS}.

Lemma plainStep_refl (d : Interface K MS) : plainStep d d.
Proof.
  repeat split. exists []. rewrite app_nil_r. auto.
Qed.

Lemma plainStep_trans (d1 d2 d3 : Interface K MS) : plainStep d1 d2 -> plainStep d2 d3 -> plainStep d1 d3.
Proof.
  intros (Ha1 & Hd1 & Hf1 & e1 & Hl1 & Hk1 & Hv1) (Ha2 & Hd2 & Hf2 & e2 & Hl2 & Hk2 & Hv2).
  split; [congruence|]. split; [congruence|]. split; [congruence|].
  exists (e1 ++ e2). rewrite Hl2, Hl1, <- app_assoc, !List.filter_app, Hk1, Hk2, Hv1, Hv2.
  auto.
Qed.

Lemma plainStep_emit k es (d : Interface K MS) :
  List.filter isAckCallback es = [] ->
  List.filter isSetVBlankOffDelay es = [] ->
  plainStep d (emit k es d).
Proof. intros Hk Hv. repeat split. exists es. auto. Qed.

Lemma writeIntToKernelFile_plain v (d : Interface K MS) :
  plainStep d (writeIntToKernelFile v d).1.
Proof.
  unfold writeIntToKernelFile. destruct (openKernelFile (drm d)) as [k opened].
  destruct opened; simpl; apply plainStep_emit; reflexivity.
Qed.

Lemma dumpDrmAtomicCommitMessage_plain err r (d : Interface K MS) :
  plainStep d (dumpDrmAtomicCommitMessage err r d).
Proof.
  unfold dumpDrmAtomicCommitMessage.
  destruct (systemTime (drm d)) as [k1 now].
  set (d1 := emit k1 [] d).
  assert (H1 : plainStep d d1) by (apply plainStep_emit; reflexivity).
  destruct (_ <? _); [exact H1|].
  pose proof (writeIntToKernelFile_plain kEnableDrmAtomicMessage d1) as H2.
  destruct (writeIntToKernelFile kEnableDrmAtomicMessage d1) as [d2 failed].
  simpl in H2. destruct (negb (failed =? 0)); [eapply plainStep_trans; eassumption|].
  destruct (drmModeAtomicCommit (drm d2) (mPset r) DRM_MODE_ATOMIC_TEST_ONLY) as [k3 ret].
  set (d3 := emit k3 [CallAtomicCommit (mPset r) DRM_MODE_ATOMIC_TEST_ONLY ret] d2).
  assert (H3 : plainStep d2 d3) by (apply plainStep_emit; reflexivity).
  pose proof (writeIntToKernelFile_plain kDisableDrmDebugMessage d3) as H4.
  destruct (writeIntToKernelFile kDisableDrmDebugMessage d3) as [d4 ign].
  simpl in H4. destruct (systemTime (drm d4)) as [k5 t].
  eapply plainStep_trans; [exact H1|]. eapply plainStep_trans; [exact H2|].
  eapply plainStep_trans; [exact H3|]. eapply plainStep_trans; [exact H4|].
  repeat split. exists []. rewrite app_nil_r. auto.
Qed.

(** X13: [commit] invokes the acknowledgement callback exactly when a
    callback is registered, the result it returns is [0] and the flags do not
    ask for a test-only commit; it then invokes it once. In particular a
    failed commit and a test-only commit never acknowledge, and a commit
    whose [-EPERM] is swallowed in the trusted UI does. *)
Theorem commit_acknowledges_iff flags loggingForDebug r (d : Interface K MS) :
  let out := commit flags loggingForDebug r d in
  exists evs, log out.1.1 = log d ++ evs /\
    List.filter isAckCallback evs =
      match mAckCallback r with
      | Some cb =>
          if (out.2 =? 0) && (Z.land flags DRM_MODE_ATOMIC_TEST_ONLY =? 0)
          then [CallAckCallback cb] else []
      | None => []
      end.
Proof.
  unfold commit.
  destruct (drmModeAtomicCommit (drm d) (mPset r) flags) as [k ret0].
  set (d1 := emit k [CallAtomicCommit (mPset r) flags ret0] d).
  assert (H1 : plainStep d d1) by (apply plainStep_emit; reflexivity).
  assert (Hmid : exists d2 r2 ret,
    (if (ret0 =? - EPERM) && IsDrmInTUI (drm d1) then (d1, r, NO_ERROR)
     else if ret0 <? 0
          then (if ret0 =? - EINVAL then dumpDrmAtomicCommitMessage ret0 r d1 else d1,
                setError ret0 r, ret0)
          else (d1, r, ret0)) = (d2, r2, ret)
    /\ plainStep d d2 /\ mAckCallback r2 = mAckCallback r).
  { destruct ((ret0 =? - EPERM) && IsDrmInTUI (drm d1)).
    - eexists _, _, _. split; [reflexivity|]. auto.
    - destruct (ret0 <? 0).
      + eexists _, _, _. split; [reflexivity|]. split; [|reflexivity].
        destruct (ret0 =? - EINVAL); [|exact H1].
        eapply plainStep_trans; [exact H1 | apply dumpDrmAtomicCommitMessage_plain].
      + eexists _, _, _. split; [reflexivity|]. auto. }
  destruct Hmid as (d2 & r2 & ret & -> & H2 & Hack). simpl. rewrite Hack.
  destruct H2 as (_ & _ & _ & e2 & Hl2 & Hk2 & _).
  destruct (mAckCallback r) as [cb|].
  - destruct ((ret =? 0) && (Z.land flags DRM_MODE_ATOMIC_TEST_ONLY =? 0)).
    + match goal with |- context [if ?c then _ else _] => destruct c end; simpl;
        rewrite Hl2.
      * exists (e2 ++ [CallAckCallback cb] ++ [CallSetVBlankOffDelay 1]).
        rewrite <- !app_assoc, !List.filter_app, Hk2. auto.
      * exists (e2 ++ [CallAckCallback cb]).
        rewrite <- !app_assoc, !List.filter_app, Hk2. auto.
    + match goal with |- context [if ?c then _ else _] => destruct c end; simpl;
        rewrite Hl2.
      * exists (e2 ++ [CallSetVBlankOffDelay 1]).
        rewrite <- !app_assoc, !List.filter_app, Hk2. auto.
      * exists e2. auto.
  - match goal with |- context [if ?c then _ else _] => destruct c end; simpl;
      rewrite Hl2.
    + exists (e2 ++ [CallSetVBlankOffDelay 1]).
      rewrite <- !app_assoc, !List.filter_app, Hk2. auto.
    + exists e2. auto.
Qed.

(** X14: [commit] never changes the desired mode state, and it never
    returns with the resolution-switch flag set while the desired mode state
    needs no mode set. It clears the flag, with one call that turns the
    vblank-off delay back on, exactly in that case. *)
Theorem commit_settles_resolution_switch flags loggingForDebug r (d : Interface K MS) :
  let out := commit flags loggingForDebug r d in
  mDesiredModeState out.1.1 = mDesiredModeState d /\
  mIsResolutionSwitchInProgress out.1.1
    = mIsResolutionSwitchInProgress d && needsModeSet (mDesiredModeState d) /\
  exists evs, log out.1.1 = log d ++ evs /\
    List.filter isSetVBlankOffDelay evs =
      if mIsResolutionSwitchInProgress d && negb (needsModeSet (mDesiredModeState d))
      then [CallSetVBlankOffDelay 1] else [].
Proof.
  unfold commit.
  destruct (drmModeAtomicCommit (drm d) (mPset r) flags) as [k ret0].
  set (d1 := emit k [CallAtomicCommit (mPset r) flags ret0] d).
  assert (H1 : plainStep d d1) by (apply plainStep_emit; reflexivity).
  assert (Hmid : exists d2 r2 ret,
    (if (ret0 =? - EPERM) && IsDrmInTUI (drm d1) then (d1, r, NO_ERROR)
     else if ret0 <? 0
          then (if ret0 =? - EINVAL then dumpDrmAtomicCommitMessage ret0 r d1 else d1,
                setError ret0 r, ret0)
          else (d1, r, ret0)) = (d2, r2, ret)
    /\ plainStep d d2).
  { destruct ((ret0 =? - EPERM) && IsDrmInTUI (drm d1)).
    - eexists _, _, _. split; [reflexivity|]. auto.
    - destruct (ret0 <? 0).
      + eexists _, _, _. split; [reflexivity|].
        destruct (ret0 =? - EINVAL); [|exact H1].
        eapply plainStep_trans; [exact H1 | apply dumpDrmAtomicCommitMessage_plain].
      + eexists _, _, _. split; [reflexivity|]. auto. }
  destruct Hmid as (d2 & r2 & ret & -> & H2). simpl.
  set (d3 := match mAckCallback r2 with
             | Some cb =>
                 if (ret =? 0) && (Z.land flags DRM_MODE_ATOMIC_TEST_ONLY =? 0)
                 then emit (drm d2) [CallAckCallback cb] d2 else d2
             | None => d2
             end).
  assert (H3 : mDesiredModeState d3 = mDesiredModeState d /\
               mIsResolutionSwitchInProgress d3 = mIsResolutionSwitchInProgress d /\
               exists evs, log d3 = log d ++ evs /\
                 List.filter isSetVBlankOffDelay evs = []).
  { destruct H2 as (_ & Hd2 & Hf2 & e2 & Hl2 & _ & Hv2). subst d3.
    destruct (mAckCallback r2) as [cb|];
      [destruct ((ret =? 0) && (Z.land flags DRM_MODE_ATOMIC_TEST_ONLY =? 0))|];
      simpl; (split; [exact Hd2|]); (split; [exact Hf2|]).
    - exists (e2 ++ [CallAckCallback cb]). rewrite Hl2, <- app_assoc, List.filter_app, Hv2.
      auto.
    - exists e2. auto.
    - exists e2. auto. }
  clearbody d3. destruct H3 as (Hd3 & Hf3 & e3 & Hl3 & Hv3). rewrite Hd3, Hf3.
  destruct (mIsResolutionSwitchInProgress d);
    destruct (needsModeSet (mDesiredModeState d)); simpl;
    (split; [first [assumption | reflexivity]|]);
    (split; [first [assumption | reflexivity]|]).
  - exists e3. auto.
  - exists (e3 ++ [CallSetVBlankOffDelay 1]).
    rewrite Hl3, <- app_assoc, List.filter_app, Hv3. auto.
  - exists e3. auto.
  - exists e3. auto.
Qed.

End CommitFacts.

(** ** Mode requests: what a test and what a real request may do *)

Section RequestFacts.
Import DisplayInterface DisplayLog.
Context {K MS : Type} {dev : DrmDevice K} {msops : ModeStateOps MS}.

Lemma step_refl ok (d : Interface K MS) : step ok d d.
Proof. repeat split; auto. exists []. rewrite app_nil_r. auto. Qed.

Lemma step_trans ok (d1 d2 d3 : Interface K MS) :
  step ok d1 d2 -> step ok d2 d3 -> step ok d1 d3.
Proof.
  intros (Ha1 & Hd1 & Hf1 & e1 & Hl1 & Hk1) (Ha2 & Hd2 & Hf2 & e2 & Hl2 & Hk2).
  split; [congruence|]. split; [congruence|]. split; [auto|].
  exists (e1 ++ e2). rewrite Hl2, Hl1, <- app_assoc, forallb_app, Hk1, Hk2. auto.
Qed.

Lemma step_weaken (ok ok' : Event -> bool) (d d' : Interface K MS) :
  (forall e, ok e = true -> ok' e = true) -> step ok d d' -> step ok' d d'.
Proof.
  intros Himp (Ha & Hd & Hf & evs & Hl & Hk). repeat split; auto.
  exists evs. split; [exact Hl|]. rewrite forallb_forall in *. auto.
Qed.

Lemma step_emit ok k es (d : Interface K MS) :
  forallb ok es = true -> step ok d (emit k es d).
Proof. intros Hk. repeat split; auto. exists es. auto. Qed.

Lemma calm_noBlobEvent e : calm e = true -> noBlobEvent e = true.
Proof. unfold calm. intros H. apply andb_true_iff in H. tauto. Qed.

Lemma noBlobEvent_blobs evs :
  forallb noBlobEvent evs = true -> createdBlobs evs = [] /\ destroyedBlobs evs = [].
Proof.
  induction evs as [|e evs IH]; simpl; [auto|]. intros H.
  apply andb_true_iff in H as [He H]. destruct (IH H) as [Hc Hd].
  unfold createdBlobs, destroyedBlobs in *. simpl.
  destruct e; simpl in He; try discriminate; rewrite ?Hc, ?Hd; auto.
Qed.

Lemma calm_no_commit evs :
  forallb calm evs = true -> List.filter isAtomicCommit evs = [].
Proof.
  induction evs as [|e evs IH]; simpl; [auto|]. intros H.
  apply andb_true_iff in H as [He H]. unfold calm in He.
  apply andb_true_iff in He as [_ He]. destruct (isAtomicCommit e); [discriminate|auto].
Qed.

Lemma createdBlobs_app l1 l2 : createdBlobs (l1 ++ l2) = createdBlobs l1 ++ createdBlobs l2.
Proof. apply omap_app. Qed.

Lemma destroyedBlobs_app l1 l2 :
  destroyedBlobs (l1 ++ l2) = destroyedBlobs l1 ++ destroyedBlobs l2.
Proof. apply omap_app. Qed.

Lemma atomicAddProperty_step object property v optional r (d : Interface K MS) :
  step calm d (atomicAddProperty object property v optional r d).1.1 /\
  mOldBlobs (atomicAddProperty object property v optional r d).1.2 = mOldBlobs r.
Proof.
  unfold atomicAddProperty.
  destruct (negb optional && _); [split; [apply step_refl | reflexivity]|].
  destruct (_ && _); [|split; [apply step_refl | reflexivity]].
  destruct (drmModeAtomicAddProperty _ _ _ _) as [pset ret].
  destruct (ret <? 0); simpl; (split; [apply step_emit; reflexivity | reflexivity]).
Qed.

Lemma setDisplayMode_step r modeBlob modeId (d : Interface K MS) :
  step calm d (setDisplayMode r modeBlob modeId d).1.1 /\
  mOldBlobs (setDisplayMode r modeBlob modeId d).1.2 = mOldBlobs r.
Proof.
  unfold setDisplayMode.
  pose proof (atomicAddProperty_step (crtc d) (active_property d) 1 false r d) as [H1 O1].
  destruct (atomicAddProperty (crtc d) (active_property d) 1 false r d) as [[d1 r1] ret1].
  simpl in H1, O1. destruct (ret1 <? 0); [simpl; auto|].
  pose proof (atomicAddProperty_step (crtc d1) (mode_property d1) modeBlob false r1 d1)
    as [H2 O2].
  destruct (atomicAddProperty (crtc d1) (mode_property d1) modeBlob false r1 d1)
    as [[d2 r2] ret2].
  simpl in H2, O2.
  assert (H12 : step calm d d2) by (eapply step_trans; eassumption).
  destruct (ret2 <? 0); [simpl; split; [auto | congruence]|].
  pose proof (atomicAddProperty_step (connector d2) (crtc_id_property d2) (crtc d2)
                false r2 d2) as [H3 O3].
  destruct (atomicAddProperty (connector d2) (crtc_id_property d2) (crtc d2) false r2 d2)
    as [[d3 r3] ret3].
  simpl in H3, O3.
  assert (H13 : step calm d d3) by (eapply step_trans; eassumption).
  destruct (ret3 <? 0); simpl; [split; [auto | congruence]|].
  split; [auto|]. destruct (configChangeCallback d3); simpl; congruence.
Qed.

Lemma writeIntToKernelFile_step v (d : Interface K MS) :
  step noBlobEvent d (writeIntToKernelFile v d).1.
Proof.
  unfold writeIntToKernelFile. destruct (openKernelFile (drm d)) as [k opened].
  destruct opened; simpl; apply step_emit; reflexivity.
Qed.

Lemma dumpDrmAtomicCommitMessage_step err r (d : Interface K MS) :
  step noBlobEvent d (dumpDrmAtomicCommitMessage err r d).
Proof.
  unfold dumpDrmAtomicCommitMessage.
  destruct (systemTime (drm d)) as [k1 now].
  set (d1 := emit k1 [] d).
  assert (H1 : step noBlobEvent d d1) by (apply step_emit; reflexivity).
  destruct (_ <? _); [exact H1|].
  pose proof (writeIntToKernelFile_step kEnableDrmAtomicMessage d1) as H2.
  destruct (writeIntToKernelFile kEnableDrmAtomicMessage d1) as [d2 failed].
  simpl in H2. destruct (negb (failed =? 0)); [eapply step_trans; eassumption|].
  destruct (drmModeAtomicCommit (drm d2) (mPset r) DRM_MODE_ATOMIC_TEST_ONLY) as [k3 ret].
  set (d3 := emit k3 [CallAtomicCommit (mPset r) DRM_MODE_ATOMIC_TEST_ONLY ret] d2).
  assert (H3 : step noBlobEvent d2 d3) by (apply step_emit; reflexivity).
  pose proof (writeIntToKernelFile_step kDisableDrmDebugMessage d3) as H4.
  destruct (writeIntToKernelFile kDisableDrmDebugMessage d3) as [d4 ign].
  simpl in H4. destruct (systemTime (drm d4)) as [k5 t].
  eapply step_trans; [exact H1|]. eapply step_trans; [exact H2|].
  eapply step_trans; [exact H3|]. eapply step_trans; [exact H4|].
  repeat split; auto. exists []. rewrite app_nil_r. auto.
Qed.

(** [commit] keeps the mode states and the queued blobs; the first thing it
    logs is the commit itself, and nothing it logs is about a blob. *)
Lemma commit_step flags loggingForDebug r (d : Interface K MS) :
  let out := commit flags loggingForDebug r d in
  mActiveModeState out.1.1 = mActiveModeState d /\
  mDesiredModeState out.1.1 = mDesiredModeState d /\
  (mIsResolutionSwitchInProgress out.1.1 = true ->
   mIsResolutionSwitchInProgress d = true) /\
  mOldBlobs out.1.2 = mOldBlobs r /\
  exists e evs, log out.1.1 = log d ++ e :: evs /\ isAtomicCommit e = true /\
    forallb noBlobEvent evs = true.
Proof.
  unfold commit.
  destruct (drmModeAtomicCommit (drm d) (mPset r) flags) as [k ret0].
  set (e0 := CallAtomicCommit (mPset r) flags ret0).
  set (d1 := emit k [e0] d).
  assert (Hlog1 : log d1 = log d ++ [e0]) by reflexivity.
  assert (Hmid : exists d2 r2 ret,
    (if (ret0 =? - EPERM) && IsDrmInTUI (drm d1) then (d1, r, NO_ERROR)
     else if ret0 <? 0
          then (if ret0 =? - EINVAL then dumpDrmAtomicCommitMessage ret0 r d1 else d1,
                setError ret0 r, ret0)
          else (d1, r, ret0)) = (d2, r2, ret)
    /\ step noBlobEvent d1 d2 /\ mOldBlobs r2 = mOldBlobs r).
  { destruct ((ret0 =? - EPERM) && IsDrmInTUI (drm d1)).
    - eexists _, _, _. split; [reflexivity|]. split; [apply step_refl | reflexivity].
    - destruct (ret0 <? 0).
      + eexists _, _, _. split; [reflexivity|]. split; [|reflexivity].
        destruct (ret0 =? - EINVAL);
          [apply dumpDrmAtomicCommitMessage_step | apply step_refl].
      + eexists _, _, _. split; [reflexivity|]. split; [apply step_refl | reflexivity]. }
  destruct Hmid as (d2 & r2 & ret & -> & H2 & Hold). simpl.
  set (d3 := match mAckCallback r2 with
             | Some cb =>
                 if (ret =? 0) && (Z.land flags DRM_MODE_ATOMIC_TEST_ONLY =? 0)
                 then emit (drm d2) [CallAckCallback cb] d2 else d2
             | None => d2
             end).
  assert (H3 : step noBlobEvent d2 d3).
  { subst d3. destruct (mAckCallback r2) as [cb|];
      [destruct ((ret =? 0) && (Z.land flags DRM_MODE_ATOMIC_TEST_ONLY =? 0))|];
      first [apply step_refl | apply step_emit; reflexivity]. }
  clearbody d3. pose proof (step_trans _ _ _ _ H2 H3) as (Ha & Hd & Hf & evs & Hl & Hk).
  destruct (mIsResolutionSwitchInProgress d3 && negb (needsModeSet (mDesiredModeState d3)));
    simpl.
  - split; [exact Ha|]. split; [exact Hd|]. split; [discriminate|]. split; [exact Hold|].
    exists e0, (evs ++ [CallSetVBlankOffDelay 1]).
    rewrite Hl, Hlog1, <- !app_assoc, forallb_app, Hk. auto.
  - split; [exact Ha|]. split; [exact Hd|]. split; [exact Hf|]. split; [exact Hold|].
    exists e0, evs. rewrite Hl, Hlog1, <- !app_assoc. auto.
Qed.

(** Destroying the queued blobs logs one destruction per queued blob, in
    order, and touches nothing else of the mode machine. *)
Lemma destroyOldBlobs_spec r (d : Interface K MS) :
  mActiveModeState (destroyOldBlobs r d) = mActiveModeState d /\
  mDesiredModeState (destroyOldBlobs r d) = mDesiredModeState d /\
  mIsResolutionSwitchInProgress (destroyOldBlobs r d) = mIsResolutionSwitchInProgress d /\
  mVsyncCallback (destroyOldBlobs r d) = mVsyncCallback d /\
  log (destroyOldBlobs r d) = log d ++ map CallDestroyPropertyBlob (mOldBlobs r).
Proof.
  unfold destroyOldBlobs. generalize (mOldBlobs r) as l. intros l. revert d.
  induction l as [|b l IH]; intros d; simpl.
  - rewrite app_nil_r. auto.
  - destruct (DestroyPropertyBlob (drm d) b) as [k z].
    destruct (IH (emit k [CallDestroyPropertyBlob b] d)) as (Ha & Hd & Hf & Hv & Hl).
    rewrite Ha, Hd, Hf, Hv, Hl. simpl. rewrite <- app_assoc. auto.
Qed.

Lemma destroyOldBlobs_nil r (d : Interface K MS) :
  mOldBlobs r = [] -> destroyOldBlobs r d = d.
Proof. unfold destroyOldBlobs. intros ->. reflexivity. Qed.

Lemma find_mode_id config (l : list DrmMode) m :
  List.find (fun m => mode_id m =? config) l = Some m -> mode_id m = config.
Proof. intros H. apply List.find_some in H as [_ H]. lia. Qed.

End RequestFacts.

Section TestRequestFacts.
Import DisplayInterface DisplayLog.
Context {K MS : Type} {dev : DrmDevice K} {msops : ModeStateOps MS}.

(** What the blob-creation step of a mode request leaves behind. *)
Lemma createModeBlob_step (m : DrmMode) (d : Interface K MS) :
  let out := createModeBlob m d in
  mActiveModeState out.1 = mActiveModeState d /\
  mDesiredModeState out.1 = mDesiredModeState d /\
  mIsResolutionSwitchInProgress out.1 = mIsResolutionSwitchInProgress d /\
  mVsyncCallback out.1 = mVsyncCallback d /\
  exists raw, log out.1 = log d ++ [CallCreatePropertyBlob (mode_id m) raw out.2.2] /\
    (out.2.1 = NO_ERROR <-> raw = 0).
Proof.
  unfold createModeBlob. destruct (CreatePropertyBlob (drm d) m) as [k [ret blob]].
  destruct (ret =? 0) eqn:E; simpl; repeat split; auto; exists ret; split; auto;
    unfold NO_ERROR; split; intros; lia.
Qed.

(** The ways a test request can end. *)
Lemma test_request_paths config (d : Interface K MS) :
  let out := setActiveConfigWithConstraints config true d in
  mActiveModeState out.1 = mActiveModeState d /\
  mDesiredModeState out.1 = mDesiredModeState d /\
  (mIsResolutionSwitchInProgress out.1 = true ->
   mIsResolutionSwitchInProgress d = true) /\
  exists evs, log out.1 = log d ++ evs /\
    ((out.2 = HWC2_ERROR_BAD_CONFIG /\ createdBlobs evs = [] /\ destroyedBlobs evs = [] /\
      List.filter isAtomicCommit evs = [])
     \/ (out.2 = HWC2_ERROR_NONE /\ destroyedBlobs evs = createdBlobs evs)
     \/ (out.2 < 0 /\ List.filter isAtomicCommit evs = [] /\ destroyedBlobs evs = [] /\
         (mode_id (mode (mDesiredModeState d)) <> config ->
          exists blob, In (CallCreatePropertyBlob config 0 blob) evs))
     \/ (out.2 <> 0 /\ List.filter isAtomicCommit evs <> [])).
Proof.
  unfold setActiveConfigWithConstraints.
  destruct (List.find _ (modes d)) as [m|] eqn:Hfind.
  2:{ simpl. repeat split; auto. exists []. rewrite app_nil_r. split; auto. }
  pose proof (find_mode_id _ _ _ Hfind) as Hid.
  destruct (negb (needsModeSet (mDesiredModeState d)) && _ && _).
  { simpl. repeat split; auto. exists [CallVSyncControl true]. split; auto. }
  assert (Hcreate : exists d1 ret modeBlob evs1,
    (if negb (mode_id (mode (mDesiredModeState d)) =? config)
     then createModeBlob m d else (d, (NO_ERROR, 0))) = (d1, (ret, modeBlob)) /\
    mActiveModeState d1 = mActiveModeState d /\
    mDesiredModeState d1 = mDesiredModeState d /\
    mIsResolutionSwitchInProgress d1 = mIsResolutionSwitchInProgress d /\
    log d1 = log d ++ evs1 /\
    List.filter isAtomicCommit evs1 = [] /\ destroyedBlobs evs1 = [] /\
    (ret <> NO_ERROR -> createdBlobs evs1 = []) /\
    (ret = NO_ERROR ->
     createdBlobs evs1 = (if modeBlob =? 0 then [] else [modeBlob]) /\
     (mode_id (mode (mDesiredModeState d)) <> config ->
      evs1 = [CallCreatePropertyBlob config 0 modeBlob]))).
  { destruct (mode_id (mode (mDesiredModeState d)) =? config) eqn:Esame; simpl.
    - exists d, NO_ERROR, 0, []. rewrite app_nil_r. repeat split; auto. lia.
    - pose proof (createModeBlob_step m d) as (Ha & Hd & Hf & _ & raw & Hl & Hraw).
      destruct (createModeBlob m d) as [d1 [ret modeBlob]]. simpl in *.
      exists d1, ret, modeBlob, [CallCreatePropertyBlob (mode_id m) raw modeBlob].
      repeat split; auto.
      + intros Hne. unfold createdBlobs. simpl.
        destruct (raw =? 0) eqn:E; [|reflexivity]. exfalso. apply Hne, Hraw. lia.
      + apply Hraw in H. subst raw. unfold createdBlobs. simpl.
        destruct (modeBlob =? 0); reflexivity.
      + apply Hraw in H. subst raw. rewrite Hid. reflexivity. }
  destruct Hcreate as (d1 & ret & modeBlob & evs1 & -> & Ha1 & Hd1 & Hf1 & Hl1 & Hk1 &
                       Hx1 & Hbad & Hgood).
  destruct (ret =? NO_ERROR) eqn:Eret; simpl.
  2:{ rewrite destroyOldBlobs_nil by reflexivity. repeat split; auto; try congruence.
      exists evs1. split; [exact Hl1|]. left. repeat split; auto. apply Hbad. lia. }
  assert (Hret : ret = NO_ERROR) by lia. destruct (Hgood Hret) as [Hc1 Hev1].
  clear Hbad Hgood.
  pose (finish := fun (drmReq' : DrmModeAtomicReq) (d' : Interface K MS) =>
    (destroyOldBlobs drmReq'
       (if negb (modeBlob =? 0)
        then let '(k, _) := DestroyPropertyBlob (drm d') modeBlob in
             emit k [CallDestroyPropertyBlob modeBlob] d'
        else d'), HWC2_ERROR_NONE)).
  assert (Hfinish : forall drmReq' d' evs',
    mOldBlobs drmReq' = [] ->
    mActiveModeState d' = mActiveModeState d ->
    mDesiredModeState d' = mDesiredModeState d ->
    (mIsResolutionSwitchInProgress d' = true -> mIsResolutionSwitchInProgress d = true) ->
    log d' = log d ++ evs1 ++ evs' ->
    createdBlobs evs' = [] -> destroyedBlobs evs' = [] ->
    let out := finish drmReq' d' in
    mActiveModeState out.1 = mActiveModeState d /\
    mDesiredModeState out.1 = mDesiredModeState d /\
    (mIsResolutionSwitchInProgress out.1 = true ->
     mIsResolutionSwitchInProgress d = true) /\
    exists evs, log out.1 = log d ++ evs /\
      out.2 = HWC2_ERROR_NONE /\ destroyedBlobs evs = createdBlobs evs).
  { intros r' d' evs' Hold Ha Hd Hf Hl Hc Hx. subst finish. simpl.
    rewrite destroyOldBlobs_nil by exact Hold.
    destruct (modeBlob =? 0) eqn:Eblob; simpl.
    - repeat split; auto. exists (evs1 ++ evs'). split; [exact Hl|]. split; [reflexivity|].
      rewrite createdBlobs_app, destroyedBlobs_app, Hc, Hx, Hc1, Hx1. reflexivity.
    - destruct (DestroyPropertyBlob (drm d') modeBlob) as [k z]. simpl.
      repeat split; auto. exists (evs1 ++ evs' ++ [CallDestroyPropertyBlob modeBlob]).
      split; [rewrite Hl, <- !app_assoc; reflexivity|]. split; [reflexivity|].
      rewrite !createdBlobs_app, !destroyedBlobs_app, Hc, Hx, Hc1, Hx1. reflexivity. }
  destruct (negb (negb (blob_id (mActiveModeState d1) =? 0)
                  && isFullModeSwitch (mActiveModeState d1) m)).
  2:{ destruct (Hfinish newDrmModeAtomicReq d1 []) as (Ha & Hd & Hf & evs & Hl & Hr & Hb);
        auto; try congruence.
      { rewrite app_nil_r. exact Hl1. }
      split; [exact Ha|]. split; [exact Hd|]. split; [exact Hf|].
      exists evs. split; [exact Hl|]. right. left. split; [exact Hr | exact Hb]. }
  match goal with |- context [setDisplayMode ?r ?b ?i d1] =>
    pose proof (setDisplayMode_step r b i d1) as [Hs Os];
    destruct (setDisplayMode r b i d1) as [[d2 drmReq1] ret1]
  end.
  simpl in Hs, Os. destruct Hs as (Ha2 & Hd2 & Hf2 & evs2 & Hl2 & Hk2).
  pose proof (calm_no_commit _ Hk2) as Hnc2.
  assert (Hnb2 : forallb noBlobEvent evs2 = true).
  { rewrite forallb_forall in *. intros e He. apply calm_noBlobEvent. auto. }
  destruct (noBlobEvent_blobs _ Hnb2) as [Hc2 Hx2].
  destruct (ret1 <? 0) eqn:E1.
  { simpl. rewrite destroyOldBlobs_nil by exact Os.
    split; [congruence|]. split; [congruence|]. split; [rewrite <- Hf1; exact Hf2|].
    exists (evs1 ++ evs2). split; [rewrite Hl2, Hl1, <- app_assoc; reflexivity|].
    right. right. left. split; [lia|].
    rewrite List.filter_app, destroyedBlobs_app, Hk1, Hnc2, Hx1, Hx2.
    repeat split; auto. intros Hne. exists modeBlob. rewrite (Hev1 Hne). simpl. auto. }
  pose proof (commit_step DRM_MODE_ATOMIC_TEST_ONLY true drmReq1 d2)
    as (Ha3 & Hd3 & Hf3 & Os3 & e & evs3 & Hl3 & He & Hk3).
  destruct (commit DRM_MODE_ATOMIC_TEST_ONLY true drmReq1 d2) as [[d3 drmReq2] ret2].
  simpl in Ha3, Hd3, Hf3, Os3, Hl3.
  destruct (noBlobEvent_blobs _ Hk3) as [Hc3 Hx3].
  destruct (ret2 =? 0) eqn:E2; simpl.
  - destruct (Hfinish drmReq2 d3 (evs2 ++ e :: evs3))
      as (Ha & Hd & Hf & evs & Hl & Hr & Hb); try congruence.
    + rewrite <- Hf1. auto.
    + rewrite Hl3, Hl2, Hl1, <- !app_assoc. reflexivity.
    + rewrite createdBlobs_app, Hc2. unfold createdBlobs in *. simpl.
      destruct e; simpl in He; try discriminate. exact Hc3.
    + rewrite destroyedBlobs_app, Hx2. unfold destroyedBlobs in *. simpl.
      destruct e; simpl in He; try discriminate. exact Hx3.
    + split; [exact Ha|]. split; [exact Hd|]. split; [exact Hf|].
      exists evs. split; [exact Hl|]. right. left. split; [exact Hr | exact Hb].
  - pose proof (destroyOldBlobs_spec (addOldBlob modeBlob drmReq2) d3)
      as (Ha & Hd & Hf & _ & Hl).
    split; [congruence|]. split; [congruence|].
    split; [rewrite Hf, <- Hf1; auto|].
    eexists. split; [rewrite Hl, Hl3, Hl2, Hl1, <- !app_assoc; reflexivity|].
    right. right. right. split; [lia|].
    rewrite !List.filter_app. simpl. rewrite He.
    intros Hnil. apply app_eq_nil in Hnil as [_ Hnil]. apply app_eq_nil in Hnil as [_ Hnil].
    discriminate.
Qed.

(** X15: a test request never changes the active or the desired mode state
    and never starts a resolution switch, whatever it returns. *)
Theorem setActiveConfigWithConstraints_test_keeps_mode_state config (d : Interface K MS) :
  let out := setActiveConfigWithConstraints config true d in
  mActiveModeState out.1 = mActiveModeState d /\
  mDesiredModeState out.1 = mDesiredModeState d /\
  (mIsResolutionSwitchInProgress out.1 = true ->
   mIsResolutionSwitchInProgress d = true).
Proof.
  intros out. destruct (test_request_paths config d) as (Ha & Hd & Hf & _). auto.
Qed.

(** X16: a test request that returns [HWC2_ERROR_NONE] has destroyed exactly
    the property blobs it created: no blob outlives a successful test. *)
Theorem setActiveConfigWithConstraints_test_success_frees_blob config
    (d : Interface K MS) :
  let out := setActiveConfigWithConstraints config true d in
  out.2 = HWC2_ERROR_NONE ->
  exists evs, log out.1 = log d ++ evs /\ destroyedBlobs evs = createdBlobs evs.
Proof.
  intros out Hok. destruct (test_request_paths config d) as (_ & _ & _ & evs & Hl & Hcase).
  fold out in Hl, Hcase. exists evs. split; [exact Hl|].
  destruct Hcase as [(Hr & _) | [(_ & Hb) | [(Hr & _) | (Hr & _)]]]; auto;
    rewrite Hok in Hr; unfold HWC2_ERROR_NONE, HWC2_ERROR_BAD_CONFIG in *; try lia;
    try discriminate.
Qed.

(** X17: a test request that fails before it reaches its commit (the result
    is negative and no commit was issued) has destroyed no blob; when the
    desired mode differed from the requested one, a blob was created for the
    request, so that blob is left allocated. *)
Theorem setActiveConfigWithConstraints_test_early_failure_keeps_blob config
    (d : Interface K MS) :
  let out := setActiveConfigWithConstraints config true d in
  out.2 < 0 ->
  exists evs, log out.1 = log d ++ evs /\
    (List.filter isAtomicCommit evs = [] ->
     destroyedBlobs evs = [] /\
     (mode_id (mode (mDesiredModeState d)) <> config ->
      exists blob, In (CallCreatePropertyBlob config 0 blob) evs)).
Proof.
  intros out Hneg. destruct (test_request_paths config d) as (_ & _ & _ & evs & Hl & Hcase).
  fold out in Hl, Hcase. exists evs. split; [exact Hl|]. intros Hnc.
  destruct Hcase as [(Hr & _) | [(Hr & _) | [(_ & _ & Hx & Hin) | (_ & Hc)]]]; auto;
    try (rewrite Hr in Hneg; unfold HWC2_ERROR_NONE, HWC2_ERROR_BAD_CONFIG in *; lia).
  contradiction.
Qed.

End TestRequestFacts.

Section RealRequestFacts.
Import DisplayInterface DisplayLog.
Context {K MS : Type} {dev : DrmDevice K} {msops : ModeStateOps MS}.

Lemma destroy_events_not_atomic (l : list Z) :
  forallb (fun e => negb (isAtomicCall e)) (map CallDestroyPropertyBlob l) = true.
Proof. induction l; simpl; auto. Qed.

(** X18: a request that is not a test never reaches the atomic interface: it
    adds no property and commits nothing. It returns [HWC2_ERROR_NONE] or
    [HWC2_ERROR_BAD_CONFIG], never changes the active mode state, and when it
    returns [HWC2_ERROR_BAD_CONFIG] the desired mode state, the
    resolution-switch flag and the vsync callback are as before and no blob
    was destroyed. *)
Theorem setActiveConfigWithConstraints_real_request_only_records config
    (d : Interface K MS) :
  let out := setActiveConfigWithConstraints config false d in
  (out.2 = HWC2_ERROR_NONE \/ out.2 = HWC2_ERROR_BAD_CONFIG) /\
  mActiveModeState out.1 = mActiveModeState d /\
  exists evs, log out.1 = log d ++ evs /\
    forallb (fun e => negb (isAtomicCall e)) evs = true /\
    (out.2 = HWC2_ERROR_BAD_CONFIG ->
     mDesiredModeState out.1 = mDesiredModeState d /\
     mIsResolutionSwitchInProgress out.1 = mIsResolutionSwitchInProgress d /\
     mVsyncCallback out.1 = mVsyncCallback d /\
     destroyedBlobs evs = []).
Proof.
  unfold setActiveConfigWithConstraints.
  destruct (List.find _ (modes d)) as [m|] eqn:Hfind.
  2:{ simpl. repeat split; auto. exists []. rewrite app_nil_r. repeat split; auto. }
  destruct (negb (needsModeSet (mDesiredModeState d)) && _ && _).
  { simpl. repeat split; auto. exists [CallVSyncControl true]. repeat split; auto;
      discriminate. }
  assert (Hcreate : exists d1 ret modeBlob evs1,
    (if negb (mode_id (mode (mDesiredModeState d)) =? config)
     then createModeBlob m d else (d, (NO_ERROR, 0))) = (d1, (ret, modeBlob)) /\
    mActiveModeState d1 = mActiveModeState d /\
    mDesiredModeState d1 = mDesiredModeState d /\
    mIsResolutionSwitchInProgress d1 = mIsResolutionSwitchInProgress d /\
    mVsyncCallback d1 = mVsyncCallback d /\
    log d1 = log d ++ evs1 /\
    forallb (fun e => negb (isAtomicCall e)) evs1 = true /\ destroyedBlobs evs1 = []).
  { destruct (mode_id (mode (mDesiredModeState d)) =? config) eqn:Esame; simpl.
    - exists d, NO_ERROR, 0, []. rewrite app_nil_r. repeat split; auto.
    - pose proof (createModeBlob_step m d) as (Ha & Hd & Hf & Hv & raw & Hl & Hraw).
      destruct (createModeBlob m d) as [d1 [ret modeBlob]]. simpl in *.
      exists d1, ret, modeBlob, [CallCreatePropertyBlob (mode_id m) raw modeBlob].
      repeat split; auto. }
  destruct Hcreate as (d1 & ret & modeBlob & evs1 & -> & Ha1 & Hd1 & Hf1 & Hv1 & Hl1 &
                       Hk1 & Hx1).
  destruct (ret =? NO_ERROR) eqn:Eret; simpl.
  2:{ rewrite destroyOldBlobs_nil by reflexivity. repeat split; auto.
      exists evs1. repeat split; auto. }
  destruct (modeBlob =? 0) eqn:Eblob; simpl.
  { rewrite destroyOldBlobs_nil by reflexivity. repeat split; auto.
    exists evs1. repeat split; auto; discriminate. }
  match goal with |- context [setMode ?ms m modeBlob newDrmModeAtomicReq] =>
    destruct (setMode ms m modeBlob newDrmModeAtomicReq) as [desired drmReq1]
  end.
  match goal with |- context [destroyOldBlobs drmReq1 ?x] => set (d4 := x) end.
  assert (H4 : mActiveModeState d4 = mActiveModeState d /\
               exists evs, log d4 = log d ++ evs /\
                 forallb (fun e => negb (isAtomicCall e)) evs = true).
  { subst d4. destruct (isFullModeSwitch (mDesiredModeState d1) m);
      destruct (mOperationRateManager _); simpl; (split; [exact Ha1|]); rewrite Hl1.
    - exists (evs1 ++ [CallSetVBlankOffDelay 0]
                   ++ [CallOperationRateOnConfig config; CallHandleTargetOperationRate]).
      rewrite <- !app_assoc, !forallb_app, Hk1. auto.
    - exists (evs1 ++ [CallSetVBlankOffDelay 0]).
      rewrite <- !app_assoc, !forallb_app, Hk1. auto.
    - exists (evs1 ++ [CallOperationRateOnConfig config; CallHandleTargetOperationRate]).
      rewrite <- !app_assoc, !forallb_app, Hk1. auto.
    - exists evs1. auto. }
  clearbody d4. destruct H4 as (Ha4 & evs4 & Hl4 & Hk4).
  pose proof (destroyOldBlobs_spec drmReq1 d4) as (Ha & _ & _ & _ & Hl). simpl.
  split; [auto|]. split; [simpl; rewrite Ha; exact Ha4|].
  exists (evs4 ++ map CallDestroyPropertyBlob (mOldBlobs drmReq1)).
  split; [rewrite Hl, Hl4, <- app_assoc; reflexivity|].
  split; [rewrite forallb_app, Hk4; apply destroy_events_not_atomic|]. discriminate.
Qed.

(** X19: asking again for the mode that is already pending changes nothing:
    when the desired mode state still needs its mode set and holds the
    requested mode, a request that is not a test returns [HWC2_ERROR_NONE]
    and leaves the interface, log included, exactly as it was. *)
Theorem setActiveConfigWithConstraints_pending_mode_again config m
    (d : Interface K MS) :
  List.find (fun m => mode_id m =? config) (modes d) = Some m ->
  needsModeSet (mDesiredModeState d) = true ->
  mode_id (mode (mDesiredModeState d)) = config ->
  setActiveConfigWithConstraints config false d = (d, HWC2_ERROR_NONE).
Proof.
  intros Hfind Hneeds Hsame. unfold setActiveConfigWithConstraints.
  rewrite Hfind, Hneeds. simpl.
  replace (mode_id (mode (mDesiredModeState d)) =? config) with true by lia.
  simpl. reflexivity.
Qed.

End RealRequestFacts.

(** ** Examples for the further properties *)

Section FurtherExamples.
Import FramebufferManager FramebufferReclaim DisplayInterface DisplayLog.


Lemma getBuffer_touches_one_bucket_witness :
  cacheOf (negb (protection Demo.configB1))
      (fbm (Demo.request Demo.configB1 Demo.worldAtCap).1)
    = cacheOf (negb (protection Demo.configB1)) (fbm Demo.worldAtCap) /\
  forall l, l <> layer Demo.configB1 ->
    cacheOf (protection Demo.configB1)
        (fbm (Demo.request Demo.configB1 Demo.worldAtCap).1) !! l
      = cacheOf (protection Demo.configB1) (fbm Demo.worldAtCap) !! l.
Proof.
  apply (@getBuffer_touches_one_bucket Demo.Kernel Demo.kernelOps Demo.platform
           Demo.configB1 0 Demo.worldAtCap
           (Demo.request Demo.configB1 Demo.worldAtCap).1 NO_ERROR 101).
  vm_compute. reflexivity.
Defined.

Lemma getBuffer_keeps_buckets_bounded_witness :
  @bounded Demo.platform (fbm (Demo.request Demo.configB1 Demo.worldAtCap).1).
Proof.
  apply (@getBuffer_keeps_buckets_bounded Demo.Kernel Demo.kernelOps Demo.platform
           Demo.configB1 0 Demo.worldAtCap
           (Demo.request Demo.configB1 Demo.worldAtCap).1 NO_ERROR 101).
  - vm_compute. reflexivity.
  - split; intros l b H; simpl in H.
    + apply lookup_singleton_Some in H as [_ <-]. simpl. lia.
    + rewrite lookup_empty in H. discriminate.
Defined.

Lemma getBuffer_conserves_framebuffers_witness :
  held (fbm (Demo.request Demo.configB1 Demo.worldAtCap).1) ≡ₚ held (fbm Demo.worldAtCap)
  \/ exists entry,
       NO_ERROR = NO_ERROR /\ fbId entry = 101 /\
       held (fbm (Demo.request Demo.configB1 Demo.worldAtCap).1)
         ≡ₚ entry :: held (fbm Demo.worldAtCap).
Proof.
  apply (@getBuffer_conserves_framebuffers Demo.Kernel Demo.kernelOps Demo.platform
           Demo.configB1 0 Demo.worldAtCap
           (Demo.request Demo.configB1 Demo.worldAtCap).1 NO_ERROR 101).
  vm_compute. reflexivity.
Defined.

Lemma getBuffer_closes_imported_handles_witness :
  closedHandles (trace (Demo.request Demo.configTwoGoodBuffers Demo.world0).1)
    = importedHandles (trace (Demo.request Demo.configTwoGoodBuffers Demo.world0).1).
Proof.
  apply (@getBuffer_closes_imported_handles Demo.Kernel Demo.kernelOps Demo.platform
           Demo.configTwoGoodBuffers 0 Demo.world0
           (Demo.request Demo.configTwoGoodBuffers Demo.world0).1 NO_ERROR 101).
  - intros ef H. vm_compute in H. injection H as <-. simpl. lia.
  - vm_compute. reflexivity.
  - vm_compute. reflexivity.
  - left. reflexivity.
Defined.

Lemma getBuffer_rcd_requires_c8_witness :
  countCalls isAddFB2 (trace (Demo.request Scenes.configRcd Demo.world0).1) = O /\
  (@cachedFbId Demo.platform Scenes.configRcd (fbm Demo.world0) = 0 -> - EINVAL <> NO_ERROR).
Proof.
  apply (@getBuffer_rcd_requires_c8 Demo.Kernel Demo.kernelOps Demo.platform
           Scenes.configRcd 0 Demo.world0
           (Demo.request Scenes.configRcd Demo.world0).1 (- EINVAL) 0
           (trace (Demo.request Scenes.configRcd Demo.world0).1)
           {| drmFormat := 875708993; bufferNum := 1; planeNum := 1 |}).
  - reflexivity.
  - vm_compute. reflexivity.
  - vm_compute. discriminate.
  - simpl. lia.
  - vm_compute. reflexivity.
  - vm_compute. reflexivity.
Defined.

Lemma flip_shrinks_to_layers_in_use_witness :
  mCachedLayerBuffers (flip false Scenes.managerShrinking).1 !! 8192 = None.
Proof.
  apply (flip_shrinks_to_layers_in_use false Scenes.managerShrinking 8192).
  - reflexivity.
  - vm_compute. discriminate.
  - vm_compute. intros H. discriminate.
Defined.

Lemma setActiveConfigWithConstraints_test_success_frees_blob_witness :
  exists evs,
    log (Demo.requestMode 2 true
           (Demo.stableAt60 (Demo.deviceWith 0 false) [Demo.mode60; Demo.mode120])).1
      = log (Demo.stableAt60 (Demo.deviceWith 0 false) [Demo.mode60; Demo.mode120]) ++ evs /\
    destroyedBlobs evs = createdBlobs evs.
Proof.
  apply (@setActiveConfigWithConstraints_test_success_frees_blob
           Demo.Device Demo.ModeState Demo.deviceOps Demo.modeStateOps 2
           (Demo.stableAt60 (Demo.deviceWith 0 false) [Demo.mode60; Demo.mode120])).
  vm_compute. reflexivity.
Defined.

Lemma setActiveConfigWithConstraints_test_early_failure_keeps_blob_witness :
  exists evs,
    log (Demo.requestMode 3 true Scenes.noActiveProperty).1
      = log Scenes.noActiveProperty ++ evs /\
    (List.filter isAtomicCommit evs = [] ->
     destroyedBlobs evs = [] /\
     (mode_id (@mode _ Demo.modeStateOps (mDesiredModeState Scenes.noActiveProperty)) <> 3 ->
      exists blob, In (CallCreatePropertyBlob 3 0 blob) evs)).
Proof.
  apply (@setActiveConfigWithConstraints_test_early_failure_keeps_blob
           Demo.Device Demo.ModeState Demo.deviceOps Demo.modeStateOps 3
           Scenes.noActiveProperty).
  vm_compute. reflexivity.
Defined.

Lemma setActiveConfigWithConstraints_pending_mode_again_witness :
  Demo.requestMode 2 false Scenes.pendingAt120 = (Scenes.pendingAt120, HWC2_ERROR_NONE).
Proof.
  apply (@setActiveConfigWithConstraints_pending_mode_again
           Demo.Device Demo.ModeState Demo.deviceOps Demo.modeStateOps 2 Demo.mode120
           Scenes.pendingAt120).
  - vm_compute. reflexivity.
  - reflexivity.
  - reflexivity.
Defined.

End FurtherExamples.

(** ** The fake EDID and the identification data *)

Section EdidFacts.
Import Edid.
Variable kDefaultRefreshRateFrequency : Z.
Variable mMonitorDescription : list Z.

Lemma length_memcpy dst off src n :
  (n <= length src)%nat -> (off + n <= length dst)%nat ->
  length (memcpy dst off src n) = length dst.
Proof.
  intros Hn Hoff. unfold memcpy. rewrite !length_app, !length_take, length_drop. lia.
Qed.

Lemma length_edid_buf0 : length edid_buf0 = 128%nat.
Proof. reflexivity. Qed.

Lemma accumulate_from l a : fold_left Z.add l a = a + accumulate l.
Proof.
  unfold accumulate. revert a. induction l as [|x l IH]; intros a; simpl; [lia|].
  rewrite IH, (IH (0 + x)). lia.
Qed.

Lemma accumulate_snoc l x : accumulate (l ++ [x]) = accumulate l + x.
Proof.
  unfold accumulate at 1. rewrite fold_left_app. simpl. reflexivity.
Qed.

Lemma checksum_closes s : (s + u8 (Z.land (0x100 - Z.land s 0xFF) 0xFF)) mod 256 = 0.
Proof.
  unfold u8. change 0xFF with (Z.ones 8). rewrite !Z.land_ones by lia.
  change (2 ^ 8) with 256. change 0x100 with 256.
  rewrite Z.mod_mod by lia.
  pose proof (Z.mod_pos_bound s 256 ltac:(lia)) as Hr.
  rewrite (Z.div_mod s 256) at 1 by lia.
  set (r := s mod 256) in *. set (q := s / 256).
  destruct (Z.eq_dec r 0) as [->|Hne].
  - rewrite Z.sub_0_r, Z.mod_same by lia.
    replace (256 * q + 0 + 0) with (q * 256) by lia. apply Z.mod_mul. lia.
  - rewrite (Z.mod_small (256 - r)) by lia.
    replace (256 * q + r + (256 - r)) with ((q + 1) * 256) by lia. apply Z.mod_mul. lia.
Qed.

Abbreviation beforeChecksum :=
  (Edid.beforeChecksum kDefaultRefreshRateFrequency mMonitorDescription).

Lemma fakeEdid_unfold width height :
  fakeEdid kDefaultRefreshRateFrequency mMonitorDescription width height
  = <[127%nat := u8 (Z.land (0x100 - Z.land (accumulate (take 127 (beforeChecksum width height)))
                                        0xFF) 0xFF)]>
      (beforeChecksum width height).
Proof. reflexivity. Qed.

Lemma length_beforeChecksum width height :
  (length mMonitorDescription <= 32)%nat -> length (beforeChecksum width height) = 128%nat.
Proof.
  intros Hlen. unfold Edid.beforeChecksum.
  destruct (negb _).
  - rewrite length_memcpy; [| lia | rewrite !length_insert, length_edid_buf0; lia].
    rewrite !length_insert. reflexivity.
  - rewrite !length_insert. reflexivity.
Qed.

Lemma fakeEdid_split width height :
  (length mMonitorDescription <= 32)%nat ->
  fakeEdid kDefaultRefreshRateFrequency mMonitorDescription width height
  = take 127 (beforeChecksum width height)
    ++ [u8 (Z.land (0x100 - Z.land (accumulate (take 127 (beforeChecksum width height)))
                               0xFF) 0xFF)].
Proof.
  intros Hlen. rewrite fakeEdid_unfold.
  pose proof (length_beforeChecksum width height Hlen) as H128.
  rewrite insert_take_drop by lia. rewrite drop_ge by lia. reflexivity.
Qed.

Lemma byte_u8 x : 0 <= u8 x < 256.
Proof. unfold u8. apply Z.mod_pos_bound. lia. Qed.

(** X20: the fake EDID is a well-formed base block whenever the monitor
    description fits in front of the checksum byte (at most 32 bytes): it is
    128 bytes long, it starts with the fixed header, its bytes add up to a
    multiple of 256, and all of them are bytes when those of the monitor
    description are. *)
Theorem fakeEdid_is_a_valid_block width height :
  (length mMonitorDescription <= 32)%nat ->
  let edid := fakeEdid kDefaultRefreshRateFrequency mMonitorDescription width height in
  length edid = 128%nat /\
  take 8 edid = [0x00; 0xFF; 0xFF; 0xFF; 0xFF; 0xFF; 0xFF; 0x00] /\
  accumulate edid mod 256 = 0 /\
  (Forall (fun b => 0 <= b < 256) mMonitorDescription ->
   Forall (fun b => 0 <= b < 256) edid).
Proof.
  intros Hlen edid. subst edid.
  pose proof (length_beforeChecksum width height Hlen) as H128.
  split; [rewrite fakeEdid_unfold, length_insert; exact H128|].
  split.
  { rewrite fakeEdid_unfold, take_insert_ge by lia. unfold Edid.beforeChecksum.
    destruct (negb _); [|reflexivity].
    unfold memcpy. rewrite take_app_le, take_take; [reflexivity|].
    rewrite length_take, !length_insert, length_edid_buf0. lia. }
  split.
  { rewrite fakeEdid_split by exact Hlen. rewrite accumulate_snoc. apply checksum_closes. }
  intros Hdesc. rewrite fakeEdid_unfold. apply Forall_insert; [|apply byte_u8].
  assert (H0 : Forall (fun b => 0 <= b < 256) edid_buf0).
  { assert (Hall : forallb (fun b => (0 <=? b) && (b <? 256)) edid_buf0 = true)
      by reflexivity.
    rewrite forallb_forall in Hall. apply Forall_forall. intros b Hb.
    apply list_elem_of_In, Hall in Hb. lia. }
  unfold Edid.beforeChecksum.
  assert (H5 : forall a b c d e,
    Forall (fun b => 0 <= b < 256)
      (<[61%nat := u8 a]> (<[59%nat := u8 b]> (<[58%nat := u8 c]>
         (<[56%nat := u8 d]> (<[55%nat := u8 e]> edid_buf0)))))).
  { intros. repeat (apply Forall_insert; [|apply byte_u8]). exact H0. }
  destruct (negb _); [|apply H5].
  unfold memcpy. apply Forall_app. split; [apply Forall_take, H5|].
  apply Forall_app. split; [apply Forall_take, Hdesc | apply Forall_drop, H5].
Qed.

Lemma nth_beforeChecksum width height (i : nat) :
  (i < 95)%nat ->
  nth i (fakeEdid kDefaultRefreshRateFrequency mMonitorDescription width height) 0
  = nth i (<[61%nat := u8 (Z.land (Z.shiftr height 4) 0xf0)]>
             (<[59%nat := u8 (Z.land height 0xff)]>
                (<[58%nat := u8 (Z.land (Z.shiftr width 4) 0xf0)]>
                   (<[56%nat := u8 (Z.land width 0xff)]>
                      (<[55%nat := u8 (Z.shiftr
                           (wrap32 (width * height * kDefaultRefreshRateFrequency) / 10000) 8)]>
                         edid_buf0))))) 0.
Proof.
  intros Hi. rewrite fakeEdid_unfold, !nth_lookup.
  rewrite list_lookup_insert_ne by lia. unfold Edid.beforeChecksum.
  destruct (negb _); [|reflexivity].
  unfold memcpy.
  rewrite lookup_app_l by (rewrite length_take, !length_insert, length_edid_buf0; lia).
  rewrite lookup_take_lt by lia. reflexivity.
Qed.

Lemma decode_nibbles w :
  u8 (Z.land w 0xff) + 256 * (u8 (Z.land (Z.shiftr w 4) 0xf0) / 16) = w mod 4096.
Proof.
  unfold u8. change 0xff with (Z.ones 8). rewrite Z.land_ones by lia.
  change (2 ^ 8) with 256. rewrite Z.mod_mod by lia.
  assert (Hhi : Z.land (Z.shiftr w 4) 0xf0 = 16 * ((w / 256) mod 16)).
  { apply Z.bits_inj'. intros n Hn.
    rewrite Z.land_spec, Z.shiftr_spec by lia.
    replace (16 * ((w / 256) mod 16)) with (Z.shiftl (Z.land (Z.shiftr w 8) (Z.ones 4)) 4).
    2:{ rewrite Z.land_ones, Z.shiftl_mul_pow2, Z.shiftr_div_pow2 by lia.
        change (2 ^ 8) with 256. change (2 ^ 4) with 16. lia. }
    destruct (Z.lt_ge_cases n 4) as [Hlt|Hge].
    - rewrite Z.shiftl_spec_low by lia.
      assert (Hc : Z.testbit 0xf0 n = false).
      { assert (Hn4 : n = 0 \/ n = 1 \/ n = 2 \/ n = 3) by lia.
        destruct Hn4 as [->|[->|[->| ->]]]; reflexivity. }
      rewrite Hc. apply andb_false_r.
    - rewrite Z.shiftl_spec by lia. rewrite Z.land_spec, Z.shiftr_spec by lia.
      replace (n - 4 + 8) with (n + 4) by lia. f_equal.
      change 0xf0 with (Z.shiftl (Z.ones 4) 4). rewrite Z.shiftl_spec by lia. reflexivity. }
  rewrite Hhi.
  pose proof (Z.mod_pos_bound (w / 256) 16 ltac:(lia)) as Hb.
  rewrite (Z.mod_small (16 * _)) by lia.
  replace (16 * ((w / 256) mod 16) / 16) with ((w / 256) mod 16)
    by (rewrite Z.mul_comm, Z.div_mul; lia).
  change 4096 with (256 * 16). rewrite Z.rem_mul_r by lia. reflexivity.
Qed.

(** X21: the fake EDID spells the resolution of the display in twelve bits
    each: the active width and height that bytes 56/58 and 59/61 decode to
    are [mXres] and [mYres] modulo 4096, so a dimension is reported exactly
    when it is below 4096. *)
Theorem fakeEdid_reports_resolution_mod_4096 width height :
  let edid := fakeEdid kDefaultRefreshRateFrequency mMonitorDescription width height in
  decodeActive edid 56 = width mod 4096 /\ decodeActive edid 59 = height mod 4096.
Proof.
  intros edid. subst edid. unfold decodeActive.
  rewrite !nth_beforeChecksum by lia. simpl. split; apply decode_nibbles.
Qed.

Lemma memcpy_front (buf src : list Z) (n : nat) :
  (n <= length src)%nat ->
  take n (memcpy buf 0 src n) = take n src /\ drop n (memcpy buf 0 src n) = drop n buf.
Proof.
  intros Hn. unfold memcpy. simpl.
  assert (Hlen : length (take n src) = n) by (rewrite length_take; lia).
  split.
  - rewrite take_app_le by lia. rewrite take_take. f_equal. lia.
  - rewrite drop_app_length' by (symmetry; exact Hlen). reflexivity.
Qed.

(** X22: a successful [getDisplayIdentificationData] never writes past the
    size the caller gave. The data come from the EDID blob of the connector,
    or from the fake EDID exactly when the blob id of the property is zero;
    with a buffer, the size reported is the smaller of the caller's size and
    the length of the data, that many bytes of the buffer are the first bytes
    of the data, and the rest of the buffer is as it was; without a buffer,
    the size reported is the full length and nothing else is set. *)
Theorem getDisplayIdentificationData_copies_within_size m1 m2 p1 p2 s size data out info :
  0 <= size ->
  getDisplayIdentificationData kDefaultRefreshRateFrequency mMonitorDescription
    m1 m2 p1 p2 s (Some (size, data)) = (HWC2_ERROR_NONE, Some out, info) ->
  exists src,
    (if (edid_property_value s).2 =? 0
     then src = fakeEdid kDefaultRefreshRateFrequency mMonitorDescription (mXres s) (mYres s)
     else propertyBlob s = Some src) /\
    match data with
    | Some buf =>
        outDataSize out = Z.min size (Z.of_nat (length src)) /\
        exists buf', outData out = Some buf' /\
          take (Z.to_nat (outDataSize out)) buf' = take (Z.to_nat (outDataSize out)) src /\
          drop (Z.to_nat (outDataSize out)) buf' = drop (Z.to_nat (outDataSize out)) buf
    | None =>
        outDataSize out = Z.of_nat (length src) /\ outData out = None /\ info = None
    end.
Proof.
  intros Hsize. unfold getDisplayIdentificationData.
  destruct (negb (hasDevice s) || negb (hasConnector s)); [discriminate|].
  destruct (edid_property_id s =? 0); [discriminate|].
  destruct (edid_property_value s) as [ret blobId]. simpl.
  destruct (negb (ret =? 0)); [discriminate|].
  destruct (blobId =? 0).
  - unfold getDisplayFakeEdid. set (edid := fakeEdid _ _ _ _).
    destruct data as [buf|]; intros H; injection H as <- <-; exists edid;
      (split; [reflexivity|]); simpl.
    + split; [reflexivity|]. eexists. split; [reflexivity|].
      apply memcpy_front. lia.
    + auto.
  - destruct (propertyBlob s) as [blob|]; [|discriminate].
    destruct data as [buf|]; intros H; injection H as <- <-; exists blob;
      (split; [reflexivity|]); simpl.
    + split; [reflexivity|]. eexists. split; [reflexivity|].
      apply memcpy_front. lia.
    + auto.
Qed.

End EdidFacts.

Section EdidExamples.
Import Edid.

Lemma fakeEdid_is_a_valid_block_witness :
  let edid := fakeEdid 60 EdidScenes.description 1080 2400 in
  length edid = 128%nat /\
  take 8 edid = [0x00; 0xFF; 0xFF; 0xFF; 0xFF; 0xFF; 0xFF; 0x00] /\
  accumulate edid mod 256 = 0 /\
  (Forall (fun b => 0 <= b < 256) EdidScenes.description ->
   Forall (fun b => 0 <= b < 256) edid).
Proof.
  apply (fakeEdid_is_a_valid_block 60 EdidScenes.description 1080 2400).
  simpl. lia.
Defined.

Lemma getDisplayIdentificationData_copies_within_size_witness :
  exists src,
    (if (edid_property_value EdidScenes.panel).2 =? 0
     then src = fakeEdid 60 EdidScenes.description (mXres EdidScenes.panel)
                  (mYres EdidScenes.panel)
     else propertyBlob EdidScenes.panel = Some src) /\
    outDataSize EdidScenes.identified = Z.min 16 (Z.of_nat (length src)) /\
    exists buf', outData EdidScenes.identified = Some buf' /\
      take (Z.to_nat (outDataSize EdidScenes.identified)) buf'
        = take (Z.to_nat (outDataSize EdidScenes.identified)) src /\
      drop (Z.to_nat (outDataSize EdidScenes.identified)) buf'
        = drop (Z.to_nat (outDataSize EdidScenes.identified)) EdidScenes.callerBuffer.
Proof.
  apply (getDisplayIdentificationData_copies_within_size 60 EdidScenes.description
           8%nat 9%nat 10%nat 11%nat EdidScenes.panel 16 (Some EdidScenes.callerBuffer)
           EdidScenes.identified None).
  - lia.
  - vm_compute. reflexivity.
Defined.

End EdidExamples.

(** ** The full resolution of the panel *)

Section PanelResolutionFacts.
Import DisplayInterface PanelResolution.

Lemma area_small h v : dimension h -> dimension v -> area h v = h * v.
Proof.
  unfold dimension, area, wrap32. intros Hh Hv. apply Z.mod_small. nia.
Qed.

(** X23: [retrievePanelFullResolution] ends with the largest area on offer.
    For dimensions below 65536, the area of the resolution it leaves is at
    least the area it started from and the area of every mode of the
    connector, and the resolution is the one it started from or that of a
    mode of the connector; it stays as it was when no mode is strictly
    larger. *)
Theorem retrievePanelFullResolution_is_largest modes hsize vsize :
  Forall (fun m => dimension (h_display m) /\ dimension (v_display m)) modes ->
  dimension hsize -> dimension vsize ->
  let full := retrievePanelFullResolution modes (hsize, vsize) in
  hsize * vsize <= full.1 * full.2 /\
  Forall (fun m => h_display m * v_display m <= full.1 * full.2) modes /\
  (full = (hsize, vsize)
   \/ exists m, m ∈ modes /\ full = (h_display m, v_display m)) /\
  (Forall (fun m => h_display m * v_display m <= hsize * vsize) modes ->
   full = (hsize, vsize)).
Proof.
  unfold retrievePanelFullResolution. revert hsize vsize.
  induction modes as [|it modes IH]; intros hsize vsize Hmodes Hh Hv; simpl.
  - repeat split; auto. lia.
  - apply Forall_cons in Hmodes as [[Hih Hiv] Hmodes].
    rewrite (area_small _ _ Hih Hiv), (area_small _ _ Hh Hv).
    destruct (h_display it * v_display it >? hsize * vsize) eqn:Egt.
    + destruct (IH (h_display it) (v_display it) Hmodes Hih Hiv) as (Hge & Hall & Hfrom & Hkeep).
      set (full := fold_left _ modes _) in *.
      split; [lia|]. split; [apply Forall_cons; split; [lia | exact Hall]|]. split.
      * right. destruct Hfrom as [Heq | (m & Hin & Heq)].
        -- exists it. split; [left | exact Heq].
        -- exists m. split; [right; exact Hin | exact Heq].
      * intros Hle. apply Forall_cons in Hle as [Hle _]. lia.
    + destruct (IH hsize vsize Hmodes Hh Hv) as (Hge & Hall & Hfrom & Hkeep).
      set (full := fold_left _ modes _) in *.
      split; [lia|]. split; [apply Forall_cons; split; [lia | exact Hall]|]. split.
      * destruct Hfrom as [Heq | (m & Hin & Heq)]; [left; exact Heq|].
        right. exists m. split; [right; exact Hin | exact Heq].
      * intros Hle. apply Forall_cons in Hle as [_ Hle]. auto.
Qed.

Lemma retrievePanelFullResolution_is_largest_witness :
  let full := retrievePanelFullResolution [Demo.mode60; Demo.mode120; Scenes.mode90] (0, 0) in
  0 * 0 <= full.1 * full.2 /\
  Forall (fun m => h_display m * v_display m <= full.1 * full.2)
    [Demo.mode60; Demo.mode120; Scenes.mode90] /\
  (full = (0, 0)
   \/ exists m, m ∈ [Demo.mode60; Demo.mode120; Scenes.mode90]
        /\ full = (h_display m, v_display m)) /\
  (Forall (fun m => h_display m * v_display m <= 0 * 0)
     [Demo.mode60; Demo.mode120; Scenes.mode90] ->
   full = (0, 0)).
Proof.
  apply (retrievePanelFullResolution_is_largest
           [Demo.mode60; Demo.mode120; Scenes.mode90] 0 0).
  - repeat (apply Forall_cons; split; [unfold dimension; simpl; lia|]). apply Forall_nil. exact I.
  - unfold dimension. lia.
  - unfold dimension. lia.
Defined.

End PanelResolutionFacts.

(** ** The DRM connector *)

Section ConnectorFacts.
Import Connector.
Context {M Info D : Type} {ops : ModeOps M Info D}.

Lemma new_modes_notePreferred (a : @Scan M D) : new_modes (notePreferred a) = new_modes a.
Proof.
  unfold notePreferred. destruct (last (new_modes a)); [|reflexivity].
  destruct (_ && _); reflexivity.
Qed.

Lemma drm_notePreferred (a : @Scan M D) : Connector.drm (notePreferred a) = Connector.drm a.
Proof.
  unfold notePreferred. destruct (last (new_modes a)); [|reflexivity].
  destruct (_ && _); reflexivity.
Qed.

Lemma notePreferred_listed (d : D) (l : list M) (x : M) found pref :
  preferredListed {| Connector.drm := d; new_modes := l; preferred_mode_found := found;
                     preferred := pref |} ->
  preferredListed
    (notePreferred {| Connector.drm := d; new_modes := l ++ [x];
                      preferred_mode_found := found; preferred := pref |}).
Proof.
  unfold preferredListed, notePreferred. simpl. intros Hinv.
  rewrite last_snoc. destruct (negb found && _) eqn:E; simpl.
  - intros _. rewrite map_app. apply elem_of_app. right. simpl. left.
  - intros Hf. rewrite map_app. apply elem_of_app. left. auto.
Qed.

Lemma scanMode_listed use_vrr_mode (c : DrmConnector M) (a : @Scan M D) info :
  preferredListed a -> preferredListed (scanMode use_vrr_mode c a info).
Proof.
  intros Hinv. unfold scanMode. destruct a as [d l found pref]. simpl.
  destruct (List.find _ (modes_ c)) as [mode|].
  - apply notePreferred_listed. exact Hinv.
  - destruct (_ || _); [exact Hinv|].
    destruct (next_mode_id d) as [d' fresh]. apply notePreferred_listed. exact Hinv.
Qed.

Lemma fold_scanMode_listed use_vrr_mode (c : DrmConnector M) infos (a : @Scan M D) :
  preferredListed a -> preferredListed (fold_left (scanMode use_vrr_mode c) infos a).
Proof.
  revert a. induction infos as [|info infos IH]; intros a Hinv; simpl; [exact Hinv|].
  apply IH, scanMode_listed, Hinv.
Qed.

(** X24: after an update that rebuilt the mode list ([UpdateModes] returned
    [1]) and left it non-empty, the preferred mode id is the id of one of
    the modes of the connector. *)
Theorem UpdateModes_preferred_is_a_mode use_vrr_mode got (d d' : D)
    (c c' : DrmConnector M) :
  UpdateModes use_vrr_mode got d c = (d', c', 1) ->
  modes_ c' <> [] ->
  preferred_mode_id_ c' ∈ map mode_id (modes_ c').
Proof.
  unfold UpdateModes. destruct got as [k|]; [|discriminate].
  destruct (_ && _ && _); [discriminate|].
  destruct (_ && _ && _); [discriminate|].
  set (a0 := {| Connector.drm := d; new_modes := []; preferred_mode_found := false;
                preferred := preferred_mode_id_ c |}).
  assert (Hinv : preferredListed (fold_left (scanMode use_vrr_mode c) (modes k) a0)).
  { apply fold_scanMode_listed. unfold preferredListed. simpl. discriminate. }
  set (a := fold_left _ _ a0) in *. clearbody a.
  intros H. injection H as _ <-. simpl. intros Hne.
  destruct (preferred_mode_found a) eqn:Ef; simpl.
  - apply Hinv. exact Ef.
  - destruct (new_modes a) as [|first rest]; [contradiction|]. simpl. left.
Qed.

Lemma fromScan_mono (c : DrmConnector M) infos infos' m :
  (forall info, info ∈ infos -> info ∈ infos') -> fromScan c infos m -> fromScan c infos' m.
Proof.
  intros Hsub [[Hin (info & Hi & Hs)] | (info & fresh & Hi & Hm & Hf)].
  - left. split; [exact Hin|]. exists info. auto.
  - right. exists info, fresh. auto.
Qed.

Lemma fold_scanMode_modes use_vrr_mode (c : DrmConnector M) infos (a : @Scan M D) :
  exists added,
    new_modes (fold_left (scanMode use_vrr_mode c) infos a) = new_modes a ++ added /\
    (length added <= length infos)%nat /\
    (forall m, m ∈ added -> fromScan c infos m) /\
    (forall info m, info ∈ infos ->
       List.find (fun mode => sameMode mode info) (modes_ c) = Some m -> m ∈ added).
Proof.
  revert a. induction infos as [|info infos IH]; intros a; simpl.
  - exists []. rewrite app_nil_r. repeat split; auto.
    + intros m Hm. apply elem_of_nil in Hm. contradiction.
    + intros i m Hi. apply elem_of_nil in Hi. contradiction.
  - destruct (IH (scanMode use_vrr_mode c a info)) as (added & Hnew & Hlen & Hfrom & Hkept).
    assert (Hstep : exists one,
      new_modes (scanMode use_vrr_mode c a info) = new_modes a ++ one /\
      (length one <= 1)%nat /\
      (forall m, m ∈ one -> fromScan c [info] m) /\
      (forall m, List.find (fun mode => sameMode mode info) (modes_ c) = Some m -> m ∈ one)).
    { unfold scanMode.
      destruct (List.find (fun mode => sameMode mode info) (modes_ c)) as [mode|] eqn:Efind.
      - exists [mode]. rewrite new_modes_notePreferred. simpl. repeat split; auto.
        + intros m Hm. apply list_elem_of_singleton in Hm as ->.
          apply List.find_some in Efind as [Hin Hsame]. left.
          split; [apply list_elem_of_In; exact Hin|].
          exists info. split; [left | exact Hsame].
        + intros m Hm. injection Hm as <-. left.
      - destruct (_ || _).
        + exists []. rewrite app_nil_r. repeat split; auto; try discriminate.
          intros m Hm. apply elem_of_nil in Hm. contradiction.
        + destruct (next_mode_id (Connector.drm a)) as [d' fresh].
          exists [set_id fresh (fromInfo info)]. rewrite new_modes_notePreferred. simpl.
          repeat split; auto; try discriminate.
          intros m Hm. apply list_elem_of_singleton in Hm as ->. right.
          exists info, fresh. split; [left | auto]. }
    destruct Hstep as (one & Hone & Hlen1 & Hfrom1 & Hkept1).
    exists (one ++ added). rewrite Hnew, Hone, <- app_assoc.
    split; [reflexivity|]. split; [rewrite length_app; lia|]. split.
    + intros m Hm. apply elem_of_app in Hm as [Hm | Hm].
      * apply (fromScan_mono c [info]); [|auto].
        intros i Hi. apply list_elem_of_singleton in Hi as ->. left.
      * apply (fromScan_mono c infos); [|auto]. intros i Hi. right. exact Hi.
    + intros i m Hi Hfind. apply elem_of_app. apply elem_of_cons in Hi as [-> | Hi].
      * left. auto.
      * right. eauto.
Qed.

(** X25: an update that rebuilds the mode list never invents a mode and
    never renumbers one. Each mode of the new list is either a mode the
    connector had, which a mode reported by the kernel equals, or a mode
    built from a reported mode that equals none the connector had; a
    reported mode that equals a mode the connector had brings that mode, as
    it was, into the new list; and the new list is no longer than the
    kernel's. *)
Theorem UpdateModes_keeps_known_modes use_vrr_mode got (d d' : D)
    (c c' : DrmConnector M) :
  UpdateModes use_vrr_mode got d c = (d', c', 1) ->
  exists k, got = Some k /\
    state_ c' = connection k /\
    (length (modes_ c') <= length (modes k))%nat /\
    (forall m, m ∈ modes_ c' -> fromScan c (modes k) m) /\
    (forall info m, info ∈ modes k ->
       List.find (fun mode => sameMode mode info) (modes_ c) = Some m -> m ∈ modes_ c').
Proof.
  unfold UpdateModes. destruct got as [k|]; [|discriminate].
  destruct (_ && _ && _); [discriminate|].
  destruct (_ && _ && _); [discriminate|].
  set (a0 := {| Connector.drm := d; new_modes := []; preferred_mode_found := false;
                preferred := preferred_mode_id_ c |}).
  destruct (fold_scanMode_modes use_vrr_mode c (modes k) a0)
    as (added & Hnew & Hlen & Hfrom & Hkept).
  set (a := fold_left _ _ a0) in *. clearbody a. simpl in Hnew.
  intros H. injection H as _ <-. simpl. exists k. rewrite Hnew. auto.
Qed.

(** X26: the classes of connector types exclude one another, and every
    connector of a valid type but the writeback connector gets the name of
    its type followed by a dash and its type id: "LVDS", "eDP", "DSI",
    "Virtual" and "DPI" for the internal types, "HDMI-A", "DP", "DVI-D",
    "DVI-I" and "VGA" for the external ones. [name] answers ["None"] for a
    valid connector exactly when it is the writeback connector, whose type
    is not below [TYPES_COUNT]. *)
Theorem valid_connector_name (c : DrmConnector M) :
  valid_type c = true ->
  internal c && external c = false /\
  internal c && writeback c = false /\
  external c && writeback c = false /\
  (name c = "None"%string <-> writeback c = true) /\
  (writeback c = false ->
   exists typeName : string,
     name c = (typeName ++ "-" ++ pretty (type_id_ c))%string /\
     In (type_ c, typeName)
        [(DRM_MODE_CONNECTOR_LVDS, "LVDS"); (DRM_MODE_CONNECTOR_eDP, "eDP");
         (DRM_MODE_CONNECTOR_DSI, "DSI"); (DRM_MODE_CONNECTOR_VIRTUAL, "Virtual");
         (DRM_MODE_CONNECTOR_DPI, "DPI"); (DRM_MODE_CONNECTOR_HDMIA, "HDMI-A");
         (DRM_MODE_CONNECTOR_DisplayPort, "DP"); (DRM_MODE_CONNECTOR_DVID, "DVI-D");
         (DRM_MODE_CONNECTOR_DVII, "DVI-I"); (DRM_MODE_CONNECTOR_VGA, "VGA")]%string).
Proof.
  unfold valid_type, name, internal, external, writeback.
  intros H. rewrite !orb_true_iff, !Z.eqb_eq in H.
  destruct H as [[[[[[H|H]|H]|H]|H] | [[[[H|H]|H]|H]|H]] | H]; rewrite H;
    (split; [reflexivity|]); (split; [reflexivity|]); (split; [reflexivity|]);
    simpl; (split; [split; intros E; try discriminate E; reflexivity|]);
    intros E; try discriminate E;
    eexists; (split; [reflexivity|]); simpl; tauto.
Qed.

(** X27: what [getDrmDisplayId] can answer. A type that is neither primary
    nor external gets [-1]; for an external display the index plays no part;
    for a primary display the answer is [-1] or converts to the index; and an
    answer other than [-1] is the display of a connector of the class the
    type asks for. *)
Theorem getDrmDisplayId_answer type index (connectors : list (DrmConnector M)) :
  let r := getDrmDisplayId type index connectors in
  (type <> HWC_DISPLAY_PRIMARY -> type <> HWC_DISPLAY_EXTERNAL -> r = -1) /\
  (type = HWC_DISPLAY_EXTERNAL ->
   forall index', getDrmDisplayId type index' connectors = r) /\
  (type = HWC_DISPLAY_PRIMARY -> r = -1 \/ wrap32 r = index) /\
  (r = -1
   \/ exists conn, conn ∈ connectors /\ display_ conn = r /\
        (if type =? HWC_DISPLAY_PRIMARY then internal conn else external conn) = true).
Proof.
  induction connectors as [|conn rest IH]; simpl.
  - repeat split; auto.
  - destruct IH as (Hother & Hext & Hprim & Hfrom).
    assert (Hrest : getDrmDisplayId type index rest = -1
              \/ exists c0, c0 ∈ conn :: rest /\
                   display_ c0 = getDrmDisplayId type index rest /\
                   (if type =? HWC_DISPLAY_PRIMARY then internal c0 else external c0) = true).
    { destruct Hfrom as [Hm | (x & Hin & Hx)]; [left; exact Hm|].
      right. exists x. split; [right; exact Hin | exact Hx]. }
    destruct (Z.eqb_spec type HWC_DISPLAY_PRIMARY) as [Hp|Hp];
      destruct (Z.eqb_spec type HWC_DISPLAY_EXTERNAL) as [He|He]; cbn [andb orb].
    + exfalso. rewrite Hp in He. discriminate He.
    + rewrite orb_false_r.
      destruct (internal conn && (index =? wrap32 (display_ conn))) eqn:Ec.
      * apply andb_true_iff in Ec as [Hi Hidx].
        split; [intros Hn; contradiction|]. split; [intros Hn; contradiction|].
        split; [intros _; right; lia|]. right. exists conn.
        split; [left|]. auto.
      * split; [exact Hother|]. split; [intros Hn; contradiction|].
        split; [exact Hprim | exact Hrest].
    + destruct (external conn) eqn:Ex.
      * split; [intros _ Hn; contradiction|]. split; [intros _ index'; reflexivity|].
        split; [intros Hn; contradiction|]. right. exists conn.
        split; [left|]. auto.
      * split; [exact Hother|]. split; [exact Hext|]. split; [exact Hprim | exact Hrest].
    + split; [exact Hother|]. split; [exact Hext|]. split; [exact Hprim | exact Hrest].
Qed.

End ConnectorFacts.

Section ConnectorExamples.
Import Connector.

Lemma UpdateModes_preferred_is_a_mode_witness :
  preferred_mode_id_ ConnectorScenes.updated.1.2
    ∈ map (@mode_id _ _ _ ConnectorScenes.modeOps) (modes_ ConnectorScenes.updated.1.2).
Proof.
  apply (@UpdateModes_preferred_is_a_mode _ _ _ ConnectorScenes.modeOps false
           (Some ConnectorScenes.reported) 10 ConnectorScenes.updated.1.1
           ConnectorScenes.panel ConnectorScenes.updated.1.2).
  - vm_compute. reflexivity.
  - vm_compute. discriminate.
Defined.

Lemma UpdateModes_keeps_known_modes_witness :
  exists k, Some ConnectorScenes.reported = Some k /\
    state_ ConnectorScenes.updated.1.2 = connection k /\
    (length (modes_ ConnectorScenes.updated.1.2) <= length (modes k))%nat /\
    (forall m, m ∈ modes_ ConnectorScenes.updated.1.2 ->
       @fromScan _ _ _ ConnectorScenes.modeOps ConnectorScenes.panel (modes k) m) /\
    (forall info m, info ∈ modes k ->
       List.find (fun mode => @sameMode _ _ _ ConnectorScenes.modeOps mode info)
         (modes_ ConnectorScenes.panel) = Some m ->
       m ∈ modes_ ConnectorScenes.updated.1.2).
Proof.
  apply (@UpdateModes_keeps_known_modes _ _ _ ConnectorScenes.modeOps false
           (Some ConnectorScenes.reported) 10 ConnectorScenes.updated.1.1
           ConnectorScenes.panel ConnectorScenes.updated.1.2).
  vm_compute. reflexivity.
Defined.

Lemma valid_connector_name_witness :
  internal ConnectorScenes.panel && external ConnectorScenes.panel = false /\
  internal ConnectorScenes.panel && writeback ConnectorScenes.panel = false /\
  external ConnectorScenes.panel && writeback ConnectorScenes.panel = false /\
  (name ConnectorScenes.panel = "None"%string <-> writeback ConnectorScenes.panel = true) /\
  (writeback ConnectorScenes.panel = false ->
   exists typeName : string,
     name ConnectorScenes.panel
       = (typeName ++ "-" ++ pretty (type_id_ ConnectorScenes.panel))%string /\
     In (type_ ConnectorScenes.panel, typeName)
        [(DRM_MODE_CONNECTOR_LVDS, "LVDS"); (DRM_MODE_CONNECTOR_eDP, "eDP");
         (DRM_MODE_CONNECTOR_DSI, "DSI"); (DRM_MODE_CONNECTOR_VIRTUAL, "Virtual");
         (DRM_MODE_CONNECTOR_DPI, "DPI"); (DRM_MODE_CONNECTOR_HDMIA, "HDMI-A");
         (DRM_MODE_CONNECTOR_DisplayPort, "DP"); (DRM_MODE_CONNECTOR_DVID, "DVI-D");
         (DRM_MODE_CONNECTOR_DVII, "DVI-I"); (DRM_MODE_CONNECTOR_VGA, "VGA")]%string).
Proof.
  apply (valid_connector_name ConnectorScenes.panel). reflexivity.
Defined.

End ConnectorExamples.

(** ** Histogram sampling *)

Section HistogramFacts.
Import PixelDisplay.
Context {Md : Type} {mediator : HistogramMediator Md}.

(** X28: [histogramSample] hands out histogram data only with the answer
    [NONE], and that answer depends on the tests alone. With a display and a
    buffer, the answer is [NONE] exactly when the panel is on, no secure
    content is presented before or after the mediator runs, and the region,
    the weights, the position and the priority pass their tests; what
    [runMediator] returns plays no part, so the answer is [NONE], with the
    buffer the mediator left, also when the mediator reported a failure.
    With any other outcome either nothing was touched (the buffer and the
    mediator are as they were and no refresh was asked for), or secure
    content was presented after the mediator ran, and then the buffer comes
    back empty with the answer [DRM_PLAYING]. *)
Theorem histogramSample_outcomes hasDisplay isPowerModeOff secureBefore secureAfter
    roi weight pos pri buffer (md : Md) :
  let out := histogramSample hasDisplay isPowerModeOff secureBefore secureAfter roi weight
               pos pri buffer md in
  (aidl_return out = Some NONE <->
   hasDisplay = true /\ buffer <> None /\
   isPowerModeOff = false /\ secureBefore = false /\ badRoi roi = false /\
   badWeight weight = false /\ badPosition pos = false /\ badPriority pri = false /\
   secureAfter = false) /\
  (forall data, aidl_return out = Some NONE -> buffer = Some data ->
   histogrambuffer out = Some (runMediator (calRoi md roi) weight pos data md).1.1.2) /\
  (aidl_return out = Some NONE
   \/ (histogrambuffer out = buffer /\ mMediator out = md /\ refreshes out = O)
   \/ (secureAfter = true /\ histogrambuffer out = Some [] /\
       aidl_return out = Some DRM_PLAYING)).
Proof.
  unfold histogramSample.
  destruct hasDisplay; simpl.
  2:{ split; [split; [discriminate | intros [? _]; discriminate]|].
      split; [discriminate | right; left; auto]. }
  destruct buffer as [data|].
  2:{ split; [split; [discriminate | intros (_ & ? & _); contradiction]|].
      split; [discriminate | right; left; auto]. }
  destruct isPowerModeOff.
  { split; [split; [discriminate | intros (_ & _ & ? & _); discriminate]|].
    split; [discriminate | right; left; auto]. }
  destruct secureBefore.
  { split; [split; [discriminate | intros (_ & _ & _ & ? & _); discriminate]|].
    split; [discriminate | right; left; auto]. }
  destruct (badRoi roi).
  { split; [split; [discriminate | intros (_ & _ & _ & _ & ? & _); discriminate]|].
    split; [discriminate | right; left; auto]. }
  destruct (badWeight weight).
  { split; [split; [discriminate | intros (_ & _ & _ & _ & _ & ? & _); discriminate]|].
    split; [discriminate | right; left; auto]. }
  destruct (badPosition pos).
  { split; [split; [discriminate | intros (_ & _ & _ & _ & _ & _ & ? & _); discriminate]|].
    split; [discriminate | right; left; auto]. }
  destruct (badPriority pri).
  { split; [split; [discriminate | intros (_ & _ & _ & _ & _ & _ & _ & ? & _); discriminate]|].
    split; [discriminate | right; left; auto]. }
  destruct (runMediator (calRoi md roi) weight pos data md) as [[[md' data'] asked] ok] eqn:Erun.
  destruct secureAfter; simpl.
  - split; [split; [discriminate | intros (_ & _ & _ & _ & _ & _ & _ & _ & ?); discriminate]|].
    split; [discriminate | right; right; auto].
  - split; [split; [intros _; repeat split; discriminate | reflexivity]|].
    split; [|left; reflexivity].
    intros data0 _ Hd. injection Hd as <-. rewrite Erun. reflexivity.
Qed.

End HistogramFacts.

(** ** Applying a mode *)

Section ActiveModeFacts.
Import DisplayInterface DisplayLog ActiveMode.
Context {K MS : Type} {dev : DrmDevice K} {msops : ModeStateOps MS}
        {amops : ActiveModeOps MS}.

Lemma destroyedBlobs_elem b evs :
  CallDestroyPropertyBlob b ∈ evs -> b ∈ destroyedBlobs evs.
Proof.
  intros Hin. unfold destroyedBlobs. apply list_elem_of_omap.
  exists (CallDestroyPropertyBlob b). auto.
Qed.

Lemma createdBlobs_elem b evs :
  b ∈ createdBlobs evs -> exists mode, CallCreatePropertyBlob mode 0 b ∈ evs.
Proof.
  unfold createdBlobs. intros Hin. apply list_elem_of_omap in Hin as (e & He & Hf).
  destruct e; try discriminate.
  destruct (ret =? 0) eqn:E; simpl in Hf; [|discriminate].
  destruct (negb (blob =? 0)); [|discriminate]. injection Hf as <-.
  assert (ret = 0) by lia. subst ret. eauto.
Qed.

Lemma noBlobEvent_no_create evs mode ret b :
  forallb noBlobEvent evs = true -> CallCreatePropertyBlob mode ret b ∈ evs -> False.
Proof.
  intros Hall Hin. rewrite forallb_forall in Hall.
  apply list_elem_of_In, Hall in Hin. discriminate.
Qed.

Lemma setActiveDrmMode_paths m (x : Display K MS) :
  (setActiveDrmMode m x).2 = HWC2_ERROR_NONE
  \/ ((setActiveDrmMode m x).2 <> HWC2_ERROR_NONE /\ failedCleanly x (setActiveDrmMode m x).1).
Proof.
  unfold setActiveDrmMode.
  destruct (negb (mSkipFrame x) && _ && _ && _); [left; reflexivity|].
  pose proof (createModeBlob_step m (iface x)) as (Ha1 & _ & _ & _ & raw & Hl1 & Hraw).
  destruct (createModeBlob m (iface x)) as [d1 [ret modeBlob]]. simpl in Ha1, Hl1, Hraw.
  destruct (ret =? NO_ERROR) eqn:Eret; simpl.
  2:{ right. split; [discriminate|]. repeat split; auto.
      eexists. split; [exact Hl1|]. intros b Hb. exfalso.
      unfold createdBlobs in Hb. simpl in Hb.
      destruct (raw =? 0) eqn:E; simpl in Hb.
      - assert (ret = NO_ERROR) by (apply Hraw; lia). lia.
      - apply elem_of_nil in Hb. exact Hb. }
  assert (Hraw0 : raw = 0) by (apply Hraw; lia). subst raw.
  pose proof (setDisplayMode_step newDrmModeAtomicReq modeBlob (mode_id m) d1) as [Hs Os].
  destruct (setDisplayMode newDrmModeAtomicReq modeBlob (mode_id m) d1)
    as [[d2 drmReq1] ret1].
  simpl in Hs, Os. destruct Hs as (Ha2 & _ & _ & evs2 & Hl2 & Hk2).
  assert (Hnb2 : forallb noBlobEvent evs2 = true).
  { rewrite forallb_forall in *. intros e He. apply calm_noBlobEvent. auto. }
  destruct (noBlobEvent_blobs _ Hnb2) as [Hc2 Hx2].
  destruct (ret1 =? NO_ERROR) eqn:E1; simpl.
  2:{ right. split; [unfold HWC2_ERROR_NONE, NO_ERROR in *; lia|].
      pose proof (destroyOldBlobs_spec (addOldBlob modeBlob drmReq1) d2)
        as (Ha & _ & _ & _ & Hl).
      split; [simpl; congruence|]. split; [reflexivity|]. split; [reflexivity|].
      eexists. split; [simpl; rewrite Hl, Hl2, Hl1, <- !app_assoc; reflexivity|].
      intros b Hb. apply createdBlobs_elem in Hb as (mode0 & Hb).
      apply destroyedBlobs_elem. simpl in Hb |- *. rewrite Os in Hb |- *. simpl in Hb |- *.
      assert (Hmine : b = modeBlob).
      { repeat first [rewrite elem_of_app in Hb | rewrite elem_of_cons in Hb
                     | rewrite elem_of_nil in Hb].
        decompose [or] Hb; clear Hb;
          first [congruence | discriminate | contradiction
                | exfalso; eapply noBlobEvent_no_create; eassumption]. }
      subst b. repeat first [rewrite elem_of_app | rewrite elem_of_cons]. auto 10. }
  pose proof (commit_step DRM_MODE_ATOMIC_ALLOW_MODESET true drmReq1 d2)
    as (Ha3 & _ & _ & Os3 & e & evs3 & Hl3 & He & Hk3).
  destruct (commit DRM_MODE_ATOMIC_ALLOW_MODESET true drmReq1 d2) as [[d3 drmReq2] ret2].
  simpl in Ha3, Os3, Hl3.
  destruct (noBlobEvent_blobs _ Hk3) as [Hc3 Hx3].
  destruct (ret2 =? 0) eqn:E2; simpl.
  - destruct (setMode (mActiveModeState d3) m modeBlob drmReq2) as [active drmReq3].
    left. reflexivity.
  - right. split; [unfold HWC2_ERROR_NONE; lia|].
    pose proof (destroyOldBlobs_spec (addOldBlob modeBlob drmReq2) d3)
      as (Ha & _ & _ & _ & Hl).
    split; [simpl; congruence|]. split; [reflexivity|]. split; [reflexivity|].
    eexists. split; [simpl; rewrite Hl, Hl3, Hl2, Hl1, <- !app_assoc; reflexivity|].
    intros b Hb. apply createdBlobs_elem in Hb as (mode0 & Hb).
    apply destroyedBlobs_elem. simpl in Hb |- *. rewrite Os3, Os in Hb |- *.
    simpl in Hb |- *.
    assert (Hmine : b = modeBlob).
    { repeat first [rewrite elem_of_app in Hb | rewrite elem_of_cons in Hb
                     | rewrite elem_of_nil in Hb].
      decompose [or] Hb; clear Hb;
        first [congruence | discriminate | contradiction
              | subst e; simpl in He; discriminate He
              | exfalso; eapply noBlobEvent_no_create; [exact Hnb2 | eassumption]
              | exfalso; eapply noBlobEvent_no_create; [exact Hk3 | eassumption]]. }
    subst b. repeat first [rewrite elem_of_app | rewrite elem_of_cons]. auto 10.
Qed.

(** X29: a [setActiveDrmMode] that fails changes neither the active mode
    state nor the active mode of the connector and resets no low-power mode,
    and it leaves no blob behind: every property blob it created has been
    destroyed by the time it returns. *)
Theorem setActiveDrmMode_failure_is_clean m (x : Display K MS) :
  (setActiveDrmMode m x).2 <> HWC2_ERROR_NONE ->
  mActiveModeState (iface (setActiveDrmMode m x).1) = mActiveModeState (iface x) /\
  active_mode (setActiveDrmMode m x).1 = active_mode x /\
  calls (setActiveDrmMode m x).1 = calls x /\
  exists evs, log (iface (setActiveDrmMode m x).1) = log (iface x) ++ evs /\
    forall b, b ∈ createdBlobs evs -> b ∈ destroyedBlobs evs.
Proof.
  intros Hfail. destruct (setActiveDrmMode_paths m x) as [Hok | [_ Hclean]].
  - contradiction.
  - exact Hclean.
Qed.

(** X30: [setActiveConfig] answers [0] for every listed configuration,
    whatever [setActiveDrmMode] returned, and it records the configuration
    as applied before it tries: when the mode set fails, the call still
    answers [0], the applied configuration has been updated, and the active
    mode state and the active mode of the connector are those of before. *)
Theorem setActiveConfig_answers_zero_on_failure config m (x : Display K MS) :
  List.find (fun m => mode_id m =? config) (DisplayInterface.modes (iface x)) = Some m ->
  (setActiveConfig config x).2 = 0 /\
  exists x1 now,
    (setActiveConfig config x).1 = (setActiveDrmMode m x1).1 /\
    calls x1 = calls x ++ [CallUpdateAppliedActiveConfig config now] /\
    ((setActiveDrmMode m x1).2 <> HWC2_ERROR_NONE ->
     mActiveModeState (iface (setActiveConfig config x).1) = mActiveModeState (iface x) /\
     active_mode (setActiveConfig config x).1 = active_mode x /\
     calls (setActiveConfig config x).1
       = calls x ++ [CallUpdateAppliedActiveConfig config now]).
Proof.
  intros Hfind. unfold setActiveConfig. rewrite Hfind.
  set (d1 := if mOperationRateManager (iface x) then _ else iface x).
  assert (Ha1 : mActiveModeState d1 = mActiveModeState (iface x)).
  { subst d1. destruct (mOperationRateManager (iface x)); reflexivity. }
  clearbody d1. destruct (systemTime (DisplayInterface.drm d1)) as [k now]. simpl.
  split; [reflexivity|].
  eexists _, now. split; [reflexivity|]. split; [reflexivity|].
  intros Hfail.
  match goal with |- context [setActiveDrmMode m ?x1] =>
    destruct (setActiveDrmMode_paths m x1) as [Hok | [_ (Ha & Hm & Hc & _)]]
  end.
  - contradiction.
  - rewrite Ha, Hm, Hc. simpl. auto.
Qed.

End ActiveModeFacts.

Section ActiveModeExamples.
Import DisplayInterface DisplayLog ActiveMode.

Lemma setActiveDrmMode_failure_is_clean_witness :
  mActiveModeState (iface (ActiveScenes.applyMode Demo.mode120 ActiveScenes.refusing).1)
    = mActiveModeState (iface ActiveScenes.refusing) /\
  active_mode (ActiveScenes.applyMode Demo.mode120 ActiveScenes.refusing).1
    = active_mode ActiveScenes.refusing /\
  calls (ActiveScenes.applyMode Demo.mode120 ActiveScenes.refusing).1
    = calls ActiveScenes.refusing /\
  exists evs,
    log (iface (ActiveScenes.applyMode Demo.mode120 ActiveScenes.refusing).1)
      = log (iface ActiveScenes.refusing) ++ evs /\
    forall b, b ∈ createdBlobs evs -> b ∈ destroyedBlobs evs.
Proof.
  apply (@setActiveDrmMode_failure_is_clean Demo.Device Demo.ModeState Demo.deviceOps
           Demo.modeStateOps ActiveScenes.activeModeOps Demo.mode120 ActiveScenes.refusing).
  vm_compute. discriminate.
Defined.

Lemma setActiveConfig_answers_zero_on_failure_witness :
  (ActiveScenes.applyConfig 2 ActiveScenes.refusing).2 = 0 /\
  exists x1 now,
    (ActiveScenes.applyConfig 2 ActiveScenes.refusing).1
      = (ActiveScenes.applyMode Demo.mode120 x1).1 /\
    calls x1 = calls ActiveScenes.refusing ++ [CallUpdateAppliedActiveConfig 2 now] /\
    ((ActiveScenes.applyMode Demo.mode120 x1).2 <> HWC2_ERROR_NONE ->
     mActiveModeState (iface (ActiveScenes.applyConfig 2 ActiveScenes.refusing).1)
       = mActiveModeState (iface ActiveScenes.refusing) /\
     active_mode (ActiveScenes.applyConfig 2 ActiveScenes.refusing).1
       = active_mode ActiveScenes.refusing /\
     calls (ActiveScenes.applyConfig 2 ActiveScenes.refusing).1
       = calls ActiveScenes.refusing ++ [CallUpdateAppliedActiveConfig 2 now]).
Proof.
  apply (@setActiveConfig_answers_zero_on_failure Demo.Device Demo.ModeState Demo.deviceOps
           Demo.modeStateOps ActiveScenes.activeModeOps 2 Demo.mode120 ActiveScenes.refusing).
  vm_compute. reflexivity.
Defined.

End ActiveModeExamples.
